(** * Litigation RAG prototype: a shallow embedding of the ingest / chunk /
    index pipeline and the properties of its data contracts.

    Layout.  First the definitions: Python strings and JSON values ([Py]),
    the regular expressions of the junk filter ([Re]), the [json] codec
    ([Json]), then the repository's modules: [Index] (index.py), [Ext] (what
    chunking is given: elements, the model server, exceptions), [Chunker]
    (chunker.py), [CloudUtils] (cloud_utils.py), [Ingest] (ingest.py), a
    few sample runs ([Sample]), the entry points ([IndexMain],
    [IngestMain]), the query tool ([Query], query.py) and what the
    properties of whole runs speak of ([IndexRun], [IngestRun]).  Then the
    lemmas and the theorems.

    Python strings are lists of code points; [None], numbers, strings,
    lists and dicts are the constructors of [Py.json].  A call that can
    raise returns an [option], a sum with the exception, or an
    [outcome]; what a function prints or does to the outside is kept in a
    console or an event list. *)

From Stdlib Require Import List NArith ZArith Bool Ascii String Lia.
From Stdlib Require Decimal DecimalN DecimalPos DecimalFacts FinFun.
Import ListNotations.

Set Implicit Arguments.
Set Warnings "-register-all".

(* ================================================================== *)
(** ** Python values *)
(* ================================================================== *)

Module Py.

(** A Python [str] is a sequence of Unicode code points. *)
Definition char := N.
Definition str := list char.

Definition ch (a : ascii) : char := N_of_ascii a.
Definition lit (s : string) : str := map N_of_ascii (list_ascii_of_string s).

Fixpoint str_eqb (a b : str) : bool :=
  match a, b with
  | [], [] => true
  | x :: a', y :: b' => N.eqb x y && str_eqb a' b'
  | _, _ => false
  end.

(** [str.isspace] on one code point: bidirectional type WS, B or S, or
    category Zs. *)
Definition isspace (c : char) : bool :=
  ((9 <=? c) && (c <=? 13) || (28 <=? c) && (c <=? 32)
   || (c =? 133) || (c =? 160) || (c =? 5760)
   || (8192 <=? c) && (c <=? 8202)
   || (c =? 8232) || (c =? 8233) || (c =? 8239) || (c =? 8287)
   || (c =? 12288))%N.

Fixpoint lstrip (s : str) : str :=
  match s with
  | [] => []
  | c :: s' => if isspace c then lstrip s' else s
  end.

Definition rstrip (s : str) : str := rev (lstrip (rev s)).

(** [s.strip()] *)
Definition strip (s : str) : str := rstrip (lstrip s).

Fixpoint startswith (p s : str) : bool :=
  match p, s with
  | [], _ => true
  | x :: p', y :: s' => N.eqb x y && startswith p' s'
  | _ :: _, [] => false
  end.

(** [s.endswith(suffix)] *)
Definition endswith (suffix s : str) : bool :=
  startswith (rev suffix) (rev s).

(** [sub in s] for two strings. *)
Fixpoint contains (sub s : str) : bool :=
  startswith sub s ||
  match s with
  | [] => false
  | _ :: s' => contains sub s'
  end.

(** [s.rfind(c)] for a single character, [None] for -1. *)
Fixpoint rfind (c : char) (s : str) : option nat :=
  match s with
  | [] => None
  | x :: s' =>
      match rfind c s' with
      | Some i => Some (S i)
      | None => if N.eqb x c then Some 0 else None
      end
  end.

(** [os.path.splitext(p)] of [posixpath]: the extension starts at the last
    dot of the last path component, unless only dots precede it there. *)
Definition splitext (p : str) : str * str :=
  match rfind (ch ".") p with
  | None => (p, [])
  | Some dotIndex =>
      let filenameIndex :=
        match rfind (ch "/") p with
        | Some sepIndex => S sepIndex
        | None => 0
        end in
      if Nat.leb filenameIndex dotIndex
         && existsb (fun c => negb (N.eqb c (ch ".")))
              (firstn (dotIndex - filenameIndex) (skipn filenameIndex p))
      then (firstn dotIndex p, skipn dotIndex p)
      else (p, [])
  end.

(** [os.path.basename(p)] *)
Definition basename (p : str) : str :=
  match rfind (ch "/") p with
  | Some sepIndex => skipn (S sepIndex) p
  | None => p
  end.

(** Decimal digits of a natural number, as [str(n)] prints them. *)
Fixpoint digits (d : Decimal.uint) : str :=
  match d with
  | Decimal.Nil => []
  | Decimal.D0 d' => 48%N :: digits d'
  | Decimal.D1 d' => 49%N :: digits d'
  | Decimal.D2 d' => 50%N :: digits d'
  | Decimal.D3 d' => 51%N :: digits d'
  | Decimal.D4 d' => 52%N :: digits d'
  | Decimal.D5 d' => 53%N :: digits d'
  | Decimal.D6 d' => 54%N :: digits d'
  | Decimal.D7 d' => 55%N :: digits d'
  | Decimal.D8 d' => 56%N :: digits d'
  | Decimal.D9 d' => 57%N :: digits d'
  end.

Definition str_of_N (n : N) : str := digits (N.to_uint n).
Definition str_of_nat (n : nat) : str := str_of_N (N.of_nat n).

(** [str(z)] for an [int]. *)
Definition str_of_Z (z : Z) : str :=
  match z with
  | Z0 => str_of_N 0
  | Zpos p => str_of_N (Npos p)
  | Zneg p => ch "-" :: str_of_N (Npos p)
  end.

(** The values [json.loads] produces and [json.dump] accepts: [None],
    [bool], [int], [float], [str], [list] and [dict] with [str] keys.  A
    [dict] keeps its insertion order.  No code path of the repository looks
    inside a [float], so a float is kept as the lexeme it was read from. *)
Inductive json : Type :=
| JNull
| JBool (b : bool)
| JInt (z : Z)
| JFloat (lexeme : str)
| JStr (s : str)
| JArr (items : list json)
| JObj (members : list (str * json)).

Definition dict := list (str * json).

(** A proposition object of the data model: a string [text], a string
    [document_name], and a [page_number] that is an integer or null. *)
Definition proposition (text document_name : str) (page_number : json)
  : dict :=
  [ (lit "text", JStr text);
    (lit "document_name", JStr document_name);
    (lit "page_number", page_number) ].

Definition proposition_object (p : dict) : Prop :=
  exists text document_name page_number,
    p = proposition text document_name page_number
    /\ (page_number = JNull \/ exists z, page_number = JInt z).

(** [d.get(key)] without a default: [None] in Python when the key is
    absent, kept apart here as [None] of [option]. *)
Fixpoint lookup (key : str) (d : dict) : option json :=
  match d with
  | [] => None
  | (k, v) :: d' => if str_eqb k key then Some v else lookup key d'
  end.

(** [d.get(key)] *)
Definition get (key : str) (d : dict) : json :=
  match lookup key d with
  | Some v => v
  | None => JNull
  end.

(** [d.get(key, default)] *)
Definition get_default (key : str) (default : json) (d : dict) : json :=
  match lookup key d with
  | Some v => v
  | None => default
  end.

(** [d[key] = v]: replaces the value in place, or appends a new key. *)
Fixpoint set (key : str) (v : json) (d : dict) : dict :=
  match d with
  | [] => [(key, v)]
  | (k, w) :: d' =>
      if str_eqb k key then (k, v) :: d' else (k, w) :: set key v d'
  end.

(** A float is false only when it is zero: its lexeme has no digit from 1
    to 9 before the exponent ([NaN] and the infinities are true).  Lexemes
    that underflow to zero, such as [1e-400], are not told apart. *)
Fixpoint mantissa_nonzero (lexeme : str) : bool :=
  match lexeme with
  | [] => false
  | c :: r =>
      if (N.eqb c 101 || N.eqb c 69)%bool then false
      else if (N.eqb c 78 || N.eqb c 73)%bool then true
      else ((49 <=? c) && (c <=? 57))%N || mantissa_nonzero r
  end.

(** Truth value of an object, as [if x] and [not x] test it. *)
Definition truthy (v : json) : bool :=
  match v with
  | JNull => false
  | JBool b => b
  | JInt z => negb (Z.eqb z 0)
  | JFloat lexeme => mantissa_nonzero lexeme
  | JStr s => match s with [] => false | _ => true end
  | JArr l => match l with [] => false | _ => true end
  | JObj d => match d with [] => false | _ => true end
  end.

(** How a call ends: it returns a value, or an exception leaves it
    uncaught. *)
Inductive outcome (A E : Type) :=
| Returned (a : A)
| Raised (e : E).

End Py.

(* ================================================================== *)
(** ** The regular expressions of the junk filter *)
(* ================================================================== *)

Module Re.
Import Py.

Definition newline : char := 10%N.

(** [.*] followed by the literal [close], matched at the head of [s]:
    [.] is any character but a newline. *)
Fixpoint dot_star_then (close : char) (s : str) : bool :=
  match s with
  | [] => false
  | c :: s' =>
      N.eqb c close || (negb (N.eqb c newline) && dot_star_then close s')
  end.

(** [re.search] of [open .* close] (both delimiters escaped literals). *)
Fixpoint search_delimited (open close : char) (s : str) : bool :=
  match s with
  | [] => false
  | c :: s' =>
      (N.eqb c open && dot_star_then close s') || search_delimited open close s'
  end.

(** [re.search(r'\[.*\]|\{.*\}', text)], as a truth value. *)
Definition search_placeholder (text : str) : bool :=
  search_delimited (ch "[") (ch "]") text
  || search_delimited (ch "{") (ch "}") text.

(** [$] without MULTILINE: the end of the string, or just before a newline
    that ends the string. *)
Definition at_end (s : str) : bool :=
  match s with
  | [] => true
  | [c] => N.eqb c newline
  | _ => false
  end.

(** [.*\)$] matched at the head of [s]. *)
Fixpoint dot_star_close_end (s : str) : bool :=
  match s with
  | [] => false
  | c :: s' =>
      (N.eqb c (ch ")") && at_end s')
      || (negb (N.eqb c newline) && dot_star_close_end s')
  end.

Fixpoint strip_prefix (p s : str) : option str :=
  match p, s with
  | [], _ => Some s
  | x :: p', y :: s' => if N.eqb x y then strip_prefix p' s' else None
  | _ :: _, [] => None
  end.

(** [re.match(r'^\(Page: .*\)$', s)], as a truth value. *)
Definition match_page (s : str) : bool :=
  match strip_prefix (lit "(Page: ") s with
  | Some rest => dot_star_close_end rest
  | None => false
  end.

(** What the patterns say, as propositions: [delimited open close s] is a
    match of [open .* close] somewhere in [s], [page_pattern s] a match of
    [^\(Page: .*\)$] on the whole of [s]. *)
Definition delimited (open close : char) (s : str) : Prop :=
  exists pre mid post,
    s = pre ++ open :: mid ++ close :: post /\ ~ In newline mid.

Definition page_pattern (s : str) : Prop :=
  exists mid tail,
    s = lit "(Page: " ++ mid ++ ch ")" :: tail
    /\ ~ In newline mid /\ (tail = [] \/ tail = [newline]).

End Re.

(* ================================================================== *)
(** ** The [json] codec, as [json.dump] and [json.load] use it *)
(* ================================================================== *)

Module Json.
Import Py.

Local Open Scope N_scope.

(** *** Encoder: [json.dump(obj, f, ensure_ascii=False, indent=4)] *)

Definition hex_digit (n : N) : char := if n <? 10 then 48 + n else 87 + n.

(** One character of a string under [ensure_ascii=False]: the backslash,
    the double quote and the control characters below U+0020 are escaped,
    everything else is written as it is. *)
Definition escape_char (c : char) : str :=
  if c =? 92 then [92; 92]
  else if c =? 34 then [92; 34]
  else if c =? 8 then [92; 98]
  else if c =? 12 then [92; 102]
  else if c =? 10 then [92; 110]
  else if c =? 13 then [92; 114]
  else if c =? 9 then [92; 116]
  else if c <? 32 then [92; 117; 48; 48; hex_digit (c / 16); hex_digit (c mod 16)]
  else [c].

Definition encode_basestring (s : str) : str :=
  34 :: flat_map escape_char s ++ [34].

(** A newline and [level] indentation steps of four spaces. *)
Definition newline_indent (level : nat) : str :=
  10 :: repeat 32 (4 * level)%nat.

Fixpoint join (sep : str) (parts : list str) : str :=
  match parts with
  | [] => []
  | [p] => p
  | p :: ps => p ++ sep ++ join sep ps
  end.

Fixpoint encode (level : nat) (v : json) : str :=
  match v with
  | JNull => lit "null"
  | JBool true => lit "true"
  | JBool false => lit "false"
  | JInt z => str_of_Z z
  | JFloat lexeme => lexeme
  | JStr s => encode_basestring s
  | JArr [] => lit "[]"
  | JArr items =>
      ch "[" :: newline_indent (S level)
      ++ join (ch "," :: newline_indent (S level))
           (map (encode (S level)) items)
      ++ newline_indent level ++ [ch "]"]
  | JObj [] => lit "{}"
  | JObj members =>
      ch "{" :: newline_indent (S level)
      ++ join (ch "," :: newline_indent (S level))
           (map (fun kv => encode_basestring (fst kv) ++ lit ": "
                           ++ encode (S level) (snd kv)) members)
      ++ newline_indent level ++ [ch "}"]
  end.

Definition dumps (v : json) : str := encode 0 v.

(** *** Decoder: [json.load(f)], the scanner of the C accelerator *)

Definition is_ws (c : char) : bool :=
  (c =? 32) || (c =? 9) || (c =? 10) || (c =? 13).

Fixpoint skip_ws (s : str) : str :=
  match s with
  | [] => []
  | c :: s' => if is_ws c then skip_ws s' else s
  end.

Definition hex_value (c : char) : option N :=
  if (48 <=? c) && (c <=? 57) then Some (c - 48)
  else if (97 <=? c) && (c <=? 102) then Some (c - 87)
  else if (65 <=? c) && (c <=? 70) then Some (c - 55)
  else None.

Definition hex4 (a b c d : char) : option N :=
  match hex_value a, hex_value b, hex_value c, hex_value d with
  | Some x, Some y, Some z, Some w => Some (((x * 16 + y) * 16 + z) * 16 + w)
  | _, _, _, _ => None
  end.

Definition cons_char (c : char) (r : option (str * str)) : option (str * str) :=
  match r with
  | Some (t, rest) => Some (c :: t, rest)
  | None => None
  end.

(** The body of a string literal, after its opening quote: the decoded
    text and what follows the closing quote.  Strict mode: a raw control
    character is an error. *)
Fixpoint scanstring (s : str) : option (str * str) :=
  match s with
  | [] => None
  | c :: r =>
      if c =? 34 then Some ([], r)
      else if c =? 92 then
        match r with
        | [] => None
        | e :: r1 =>
            if e =? 117 then
              match r1 with
              | a :: b :: c2 :: d :: r2 =>
                  match hex4 a b c2 d with
                  | None => None
                  | Some u =>
                      if (55296 <=? u) && (u <=? 56319) then
                        match r2 with
                        | bs :: uu :: a' :: b' :: c' :: d' :: r3 =>
                            if (bs =? 92) && (uu =? 117) then
                              match hex4 a' b' c' d' with
                              | None => None
                              | Some u2 =>
                                  if (56320 <=? u2) && (u2 <=? 57343) then
                                    cons_char
                                      (65536 + (N.lor (N.shiftl (u - 55296) 10)
                                                  (u2 - 56320)))
                                      (scanstring r3)
                                  else cons_char u (scanstring r2)
                              end
                            else cons_char u (scanstring r2)
                        | _ => cons_char u (scanstring r2)
                        end
                      else cons_char u (scanstring r2)
                  end
              | _ => None
              end
            else if e =? 34 then cons_char 34 (scanstring r1)
            else if e =? 92 then cons_char 92 (scanstring r1)
            else if e =? 47 then cons_char 47 (scanstring r1)
            else if e =? 98 then cons_char 8 (scanstring r1)
            else if e =? 102 then cons_char 12 (scanstring r1)
            else if e =? 110 then cons_char 10 (scanstring r1)
            else if e =? 114 then cons_char 13 (scanstring r1)
            else if e =? 116 then cons_char 9 (scanstring r1)
            else None
        end
      else if c <? 32 then None
      else cons_char c (scanstring r)
  end.

Definition digit_of (c : char) : option (Decimal.uint -> Decimal.uint) :=
  if c =? 48 then Some Decimal.D0
  else if c =? 49 then Some Decimal.D1
  else if c =? 50 then Some Decimal.D2
  else if c =? 51 then Some Decimal.D3
  else if c =? 52 then Some Decimal.D4
  else if c =? 53 then Some Decimal.D5
  else if c =? 54 then Some Decimal.D6
  else if c =? 55 then Some Decimal.D7
  else if c =? 56 then Some Decimal.D8
  else if c =? 57 then Some Decimal.D9
  else None.

Definition is_digit (c : char) : bool := (48 <=? c) && (c <=? 57).

(** The longest run of decimal digits at the head of [s]. *)
Fixpoint scan_digits (s : str) : Decimal.uint * str :=
  match s with
  | [] => (Decimal.Nil, [])
  | c :: r =>
      match digit_of c with
      | Some k => let (d, r') := scan_digits r in (k d, r')
      | None => (Decimal.Nil, s)
      end
  end.

(** The integer part of a number: [0], or a non-zero digit and the digits
    that follow it. *)
Definition scan_int_part (s : str) : option (Decimal.uint * str) :=
  match s with
  | [] => None
  | c :: r =>
      if c =? 48 then Some (Decimal.D0 Decimal.Nil, r)
      else
        match digit_of c with
        | Some k => let (d, r') := scan_digits r in Some (k d, r')
        | None => None
        end
  end.

(** [.] and at least one digit. *)
Definition scan_frac (s : str) : option (str * str) :=
  match s with
  | dot :: c :: _ =>
      if (dot =? 46) && is_digit c then
        let (d, r') := scan_digits (tl s) in Some (46 :: digits d, r')
      else None
  | _ => None
  end.

(** [e] or [E], an optional sign and at least one digit; otherwise the
    scanner backtracks and reads no exponent. *)
Definition scan_exp (s : str) : option (str * str) :=
  match s with
  | e :: r =>
      if (e =? 101) || (e =? 69) then
        let (sign, r1) :=
          match r with
          | sg :: r' =>
              if (sg =? 45) || (sg =? 43) then ([sg], r') else ([], r)
          | [] => ([], r)
          end in
        match scan_digits r1 with
        | (Decimal.Nil, _) => None
        | (d, r2) => Some (e :: sign ++ digits d, r2)
        end
      else None
  | [] => None
  end.

Definition scan_number (s : str) : option (json * str) :=
  let (neg, s1) :=
    match s with
    | c :: r => if c =? 45 then (true, r) else (false, s)
    | [] => (false, s)
    end in
  match scan_int_part s1 with
  | None => None
  | Some (d, r) =>
      let sign := if neg then [45] else [] in
      let (frac, r1) :=
        match scan_frac r with Some (f, r') => (Some f, r') | None => (None, r) end in
      let (exp, r2) :=
        match scan_exp r1 with Some (e, r') => (Some e, r') | None => (None, r1) end in
      match frac, exp with
      | None, None =>
          let n := Z.of_N (N.of_uint d) in
          Some (JInt (if neg then Z.opp n else n), r2)
      | _, _ =>
          Some (JFloat (sign ++ digits d
                        ++ match frac with Some f => f | None => [] end
                        ++ match exp with Some e => e | None => [] end), r2)
      end
  end.

Definition literal (word : string) (v : json) (s : str) : option (json * str) :=
  match Re.strip_prefix (lit word) s with
  | Some rest => Some (v, rest)
  | None => None
  end.

(** [scan_once], with the loops of [JSONObject] and [JSONArray].  [fuel]
    bounds the number of nested and successive values; [loads] gives one
    more than the length of the text, which is enough for every text
    ([FuelFacts.loads_fuel_suffices]).
    [scan_members] starts where a key is expected, [scan_elements] where
    a value is expected. *)
Fixpoint scan_once (fuel : nat) (s : str) {struct fuel} : option (json * str) :=
  match fuel with
  | O => None
  | S fuel' =>
      match s with
      | [] => None
      | c :: r =>
          if c =? 34 then
            match scanstring r with
            | Some (t, rest) => Some (JStr t, rest)
            | None => None
            end
          else if c =? 123 then
            match skip_ws r with
            | c' :: r' =>
                if c' =? 125 then Some (JObj [], r')
                else
                  match scan_members fuel' (c' :: r') [] with
                  | Some (d, rest) => Some (JObj d, rest)
                  | None => None
                  end
            | [] => None
            end
          else if c =? 91 then
            match skip_ws r with
            | c' :: r' =>
                if c' =? 93 then Some (JArr [], r')
                else
                  match scan_elements fuel' (c' :: r') [] with
                  | Some (l, rest) => Some (JArr l, rest)
                  | None => None
                  end
            | [] => None
            end
          else if c =? 110 then literal "null" JNull s
          else if c =? 116 then literal "true" (JBool true) s
          else if c =? 102 then literal "false" (JBool false) s
          else if c =? 78 then literal "NaN" (JFloat (lit "NaN")) s
          else if c =? 73 then literal "Infinity" (JFloat (lit "Infinity")) s
          else
            match literal "-Infinity" (JFloat (lit "-Infinity")) s with
            | Some r' => Some r'
            | None => scan_number s
            end
      end
  end

with scan_members (fuel : nat) (s : str) (acc : dict) {struct fuel}
  : option (dict * str) :=
  match fuel with
  | O => None
  | S fuel' =>
      match s with
      | q :: r =>
          if q =? 34 then
            match scanstring r with
            | None => None
            | Some (key, r1) =>
                match skip_ws r1 with
                | colon :: r2 =>
                    if colon =? 58 then
                      match scan_once fuel' (skip_ws r2) with
                      | None => None
                      | Some (v, r3) =>
                          let acc' := Py.set key v acc in
                          match skip_ws r3 with
                          | c :: r4 =>
                              if c =? 125 then Some (acc', r4)
                              else if c =? 44 then
                                scan_members fuel' (skip_ws r4) acc'
                              else None
                          | [] => None
                          end
                      end
                    else None
                | [] => None
                end
            end
          else None
      | [] => None
      end
  end

with scan_elements (fuel : nat) (s : str) (acc : list json) {struct fuel}
  : option (list json * str) :=
  match fuel with
  | O => None
  | S fuel' =>
      match scan_once fuel' s with
      | None => None
      | Some (v, r) =>
          let acc' := acc ++ [v] in
          match skip_ws r with
          | c :: r' =>
              if c =? 93 then Some (acc', r')
              else if c =? 44 then scan_elements fuel' (skip_ws r') acc'
              else None
          | [] => None
          end
      end
  end.

(** [json.loads(s)] for a [str]: [None] stands for [JSONDecodeError]. *)
Definition loads (s : str) : option json :=
  match s with
  | 65279 :: _ => None
  | _ =>
      match scan_once (S (List.length s)) (skip_ws s) with
      | Some (v, rest) =>
          match skip_ws rest with
          | [] => Some v
          | _ :: _ => None
          end
      | None => None
      end
  end.

(** A text file opened with [encoding='utf-8']: the codec refuses the
    surrogate code points U+D800..U+DFFF, so writing a string that holds
    one raises [UnicodeEncodeError]; a text that was written reads back as
    the same code points. *)
Definition utf8_encodable (s : str) : bool :=
  forallb (fun c => negb ((55296 <=? c) && (c <=? 57343))) s.

(** No string value of the object holds a surrogate. *)
Definition encodable_strings (p : dict) : Prop :=
  forall key s, In (key, JStr s) p -> utf8_encodable s = true.

(** [json.dump(obj, f, ensure_ascii=False, indent=4)] into such a file: the
    text the file then holds, or [None] when the write raises and leaves
    the text unfinished. *)
Definition dump (obj : json) : option str :=
  let content := dumps obj in
  if utf8_encodable content then Some content else None.

End Json.

(* ================================================================== *)
(** ** index.py *)
(* ================================================================== *)

Module Index.
Import Py.

Definition BATCH_SIZE : nat := 50.

(** [is_junk(text)]; the argument is whatever [chunk.get("text")] gave. *)
Definition is_junk (text : json) : bool :=
  match text with
  | JStr s =>
      if negb (truthy text) then true
      else if Nat.ltb (List.length (strip s)) 10 then true
      else if Re.search_placeholder s then true
      else if Re.match_page (strip s) then true
      else false
  | _ => true
  end.

(** [range(0, stop, step)] *)
Definition range_step (stop step : nat) : list nat :=
  map (fun k => k * step) (seq 0 ((stop + step - 1) / step)).

(** [l[i:i+n]] *)
Definition slice (A : Type) (l : list A) (i n : nat) : list A :=
  firstn n (skipn i l).

(** The value written into [clean_meta[key]]. *)
Definition clean_value (key : str) (value : json) : json :=
  match value with
  | JNull => if str_eqb key (lit "page_number") then JInt 0 else JStr []
  | _ => value
  end.

(** The loop over [meta.items()] that fills [clean_meta]. *)
Definition sanitize (meta : dict) : dict :=
  fold_left (fun clean_meta kv =>
               Py.set (fst kv) (clean_value (fst kv) (snd kv)) clean_meta)
            meta [].

Definition metadata_raw (chunk : dict) : dict :=
  [ (lit "document_name", get (lit "document_name") chunk);
    (lit "page_number", get (lit "page_number") chunk);
    (lit "text", get (lit "text") chunk) ].


(** What one pass of the batch loop hands to the embedding model and to
    the collection. *)
Record request := {
  ids : list str;
  texts_to_embed : list json;
  metadatas : list dict
}.

Definition make_id (file_name : str) (offset : nat) : str :=
  fst (splitext file_name) ++ lit "_" ++ str_of_nat offset.

Definition batch_request (file_name : str) (cleaned_chunks : list dict)
    (i : nat) : request :=
  let batch := slice cleaned_chunks i BATCH_SIZE in
  {| texts_to_embed := map (get_default (lit "text") (JStr [])) batch;
     ids := map (fun j => make_id file_name (i + j)) (seq 0 (List.length batch));
     metadatas := map (fun chunk => sanitize (metadata_raw chunk)) batch |}.

(** The list comprehension over [chunks]: every item must have a [get]
    method, so anything but a list of dicts raises (uncaught). *)
Fixpoint as_dicts (items : list json) : option (list dict) :=
  match items with
  | [] => Some []
  | JObj d :: rest =>
      match as_dicts rest with
      | Some ds => Some (d :: ds)
      | None => None
      end
  | _ :: _ => None
  end.

Definition clean (chunks : json) : option (list dict) :=
  match chunks with
  | JArr items =>
      match as_dicts items with
      | Some ds =>
          Some (filter (fun chunk => negb (is_junk (get (lit "text") chunk))) ds)
      | None => None
      end
  | _ => None
  end.

(** A request that some pass of the batch loop builds for a file. *)
Definition built (req : request) : Prop :=
  exists file_name chunks cleaned i,
    clean chunks = Some cleaned
    /\ In i (range_step (List.length cleaned) BATCH_SIZE)
    /\ req = batch_request file_name cleaned i.

Inductive message :=
| MsgDirNotFound
| MsgFound (n : nat)
| MsgProcessing (file_name : str)
| MsgReadError (file_name : str)
| MsgNoContent (file_name : str)
| MsgCleaned (num_filtered : nat)
| MsgNoValid (file_name : str)
| MsgCreatingBatch (number : nat)
| MsgAdded (n : nat)
| MsgBatchError
| MsgComplete
| MsgSkipped (n : nat)
| MsgTotal (n : nat)
| MsgReady.

(** A file of the processed-documents directory: [open] raises [IOError],
    or the file holds a (UTF-8) text. *)
Inductive file :=
| Unreadable
| Text (content : str).

(** The state a run ends in, whether it returned or raised. *)
Definition final (A : Type) (o : outcome A A) : A :=
  match o with Returned _ a => a | Raised _ a => a end.

Section Indexer.

(** The embedding model and the vector store are external: [encode] is
    [embedding_model.encode(texts).tolist()] and [add] is
    [chroma_collection.add(ids, embeddings, metadatas)]; [None] when the
    call raises. *)
Variable Embedding : Type.
Variable Collection : Type.
Variable encode : list json -> option (list Embedding).
Variable add : Collection -> list str -> list Embedding -> list dict
               -> option Collection.

(** The run state: the collection, the two counters, the console, and the
    requests whose [add] returned (kept for the proofs only). *)
Record state := {
  collection : Collection;
  total_vectors_added : nat;
  skipped_files_count : nat;
  console : list message;
  inserted : list request
}.

(** What the run keeps true: every request in [inserted] was built by the
    batch loop, and the counter is the number of their ids. *)
Definition sound (st : state) : Prop :=
  Forall built (inserted st)
  /\ total_vectors_added st = List.length (List.concat (map ids (inserted st))).

Definition print (m : message) (st : state) : state :=
  {| collection := collection st;
     total_vectors_added := total_vectors_added st;
     skipped_files_count := skipped_files_count st;
     console := console st ++ [m];
     inserted := inserted st |}.

Definition skip_file (m : message) (st : state) : state :=
  let st := print m st in
  {| collection := collection st;
     total_vectors_added := total_vectors_added st;
     skipped_files_count := S (skipped_files_count st);
     console := console st;
     inserted := inserted st |}.

(** The [try] block of one batch: [None] when [encode] or [add] raises. *)
Definition try_add (req : request) (c : Collection) : option Collection :=
  match encode (texts_to_embed req) with
  | Some embeddings => add c (ids req) embeddings (metadatas req)
  | None => None
  end.

(** One pass of the loop [for i in range(0, len(cleaned_chunks), BATCH_SIZE)]. *)
Definition index_batch (file_name : str) (cleaned_chunks : list dict)
    (st : state) (i : nat) : state :=
  let st := print (MsgCreatingBatch (i / BATCH_SIZE + 1)) st in
  let req := batch_request file_name cleaned_chunks i in
  match try_add req (collection st) with
  | Some c =>
      let n := List.length (slice cleaned_chunks i BATCH_SIZE) in
      print (MsgAdded n)
        {| collection := c;
           total_vectors_added := total_vectors_added st + n;
           skipped_files_count := skipped_files_count st;
           console := console st;
           inserted := inserted st ++ [req] |}
  | None => print MsgBatchError st
  end.

(** The body of the loop [for file_name in json_files]. *)
Definition index_file (st : state) (entry : str * file)
  : outcome state state :=
  let (file_name, f) := entry in
  let st := print (MsgProcessing file_name) st in
  match f with
  | Unreadable => Returned _ (skip_file (MsgReadError file_name) st)
  | Text content =>
      match Json.loads content with
      | None => Returned _ (skip_file (MsgReadError file_name) st)
      | Some chunks =>
          if negb (truthy chunks) then
            Returned _ (skip_file (MsgNoContent file_name) st)
          else
            match chunks, clean chunks with
            | JArr items, Some cleaned_chunks =>
                let num_filtered :=
                  List.length items - List.length cleaned_chunks in
                let st :=
                  if Nat.ltb 0 num_filtered
                  then print (MsgCleaned num_filtered) st else st in
                match cleaned_chunks with
                | [] => Returned _ (skip_file (MsgNoValid file_name) st)
                | _ :: _ =>
                    Returned _
                      (fold_left (index_batch file_name cleaned_chunks)
                         (range_step (List.length cleaned_chunks) BATCH_SIZE)
                         st)
                end
            | _, _ => Raised _ st
            end
      end
  end.

Fixpoint index_files (st : state) (json_files : list (str * file))
  : outcome state state :=
  match json_files with
  | [] => Returned _ st
  | entry :: rest =>
      match index_file st entry with
      | Returned _ st' => index_files st' rest
      | Raised _ st' => Raised _ st'
      end
  end.

Definition initial (c : Collection) : state :=
  {| collection := c; total_vectors_added := 0; skipped_files_count := 0;
     console := []; inserted := [] |}.

(** [embed_and_index_documents(embedding_model, chroma_collection)]; the
    directory is [None] when it does not exist, else its listing. *)
Definition embed_and_index_documents
    (directory : option (list (str * file))) (c : Collection)
  : outcome state state :=
  match directory with
  | None => Returned _ (print MsgDirNotFound (initial c))
  | Some listing =>
      let json_files :=
        filter (fun entry => endswith (lit ".json") (fst entry)) listing in
      let st := print (MsgFound (List.length json_files)) (initial c) in
      match index_files st json_files with
      | Raised _ st' => Raised _ st'
      | Returned _ st =>
          let st := print MsgComplete st in
          let st :=
            if Nat.ltb 0 (skipped_files_count st)
            then print (MsgSkipped (skipped_files_count st)) st else st in
          Returned _ (print MsgReady (print (MsgTotal (total_vectors_added st)) st))
      end
  end.

End Indexer.

End Index.

(* ================================================================== *)
(** ** What the chunker is given: elements, the model server, exceptions *)
(* ================================================================== *)

Module Ext.
Import Py.

(** [element.metadata]: an attribute that is absent is [None] here, and
    [getattr] then gives its default; an attribute that is present holds a
    Python value ([None] being [JNull]). *)
Record element_metadata := {
  page_number : option json;
  filename : option json
}.

(** An element of the partitioner; [text] and [metadata] are [None] when
    [hasattr] is false. *)
Record element := {
  text : option str;
  metadata : option element_metadata
}.

(** The response object of [requests.post]: whether the status is below
    400, and the body decoded as JSON ([None] when it is not JSON). *)
Record response := {
  ok : bool;
  body : option json
}.

(** What [requests.post] does: [None] when it raises (connection refused,
    timeout), else the response. *)
Definition reply := option response.

(** The exception classes the handlers tell apart.  The error
    [response.json()] raises is both a [RequestException] and a
    [json.JSONDecodeError]; the first [except] clause takes it, so it is a
    [RequestException] here. *)
Inductive exn :=
| RequestException
| JSONDecodeError
| KeyError
| AttributeError
| TypeError.

Definition result (A : Type) := (exn + A)%type.

Inductive message :=
| MsgConnectionError
| MsgParseError
| MsgRawResponse (raw : json)
| MsgUnexpected (e : exn)
| MsgDebugRaw (raw : json)
| MsgNoPropositions.

(** [requests.post(...)], [raise_for_status()] and [response.json()]. *)
Definition post_json (r : reply) : result json :=
  match r with
  | None => inl RequestException
  | Some resp =>
      if ok resp then
        match body resp with
        | Some j => inr j
        | None => inl RequestException
        end
      else inl RequestException
  end.

(** [v.get(key, default)] on any object: only a dict has the method. *)
Definition get_attr (v : json) (key : str) (default : json) : result json :=
  match v with
  | JObj d => inr (get_default key default d)
  | _ => inl AttributeError
  end.

(** [json.loads(v)]: a [TypeError] unless [v] is a string. *)
Definition loads (v : json) : result json :=
  match v with
  | JStr s =>
      match Json.loads s with
      | Some j => inr j
      | None => inl JSONDecodeError
      end
  | _ => inl TypeError
  end.

(** [for x in v]: the items of a list, the keys of a dict, the characters
    of a string; nothing else is iterable. *)
Definition iterate (v : json) : result (list json) :=
  match v with
  | JArr items => inr items
  | JObj d => inr (map (fun kv => JStr (fst kv)) d)
  | JStr s => inr (map (fun c => JStr [c]) s)
  | _ => inl TypeError
  end.

(** The expression that the second handler evaluates for [raw_response]:
    [response.json().get('response', ...)] when the response object
    exists. *)
Definition raw_response (r : reply) : result json :=
  match r with
  | None => inr (JStr (lit "Response object not created."))
  | Some resp =>
      match body resp with
      | Some j => get_attr j (lit "response") (JStr (lit "No response text found."))
      | None => inl RequestException
      end
  end.

(** The three [except] clauses, shared word for word by chunker.py and
    cloud_utils.py: the console lines, and [None] returned unless the
    handler itself raises. *)
Definition handlers (r : reply) (e : exn)
  : list message * outcome (option (list dict)) exn :=
  match e with
  | RequestException => ([MsgConnectionError], Returned _ None)
  | JSONDecodeError | KeyError =>
      match raw_response r with
      | inr raw => ([MsgParseError; MsgRawResponse raw], Returned _ None)
      | inl e' => ([], Raised _ e')
      end
  | _ => ([MsgUnexpected e], Returned _ None)
  end.


End Ext.

(* ================================================================== *)
(** ** chunker.py *)
(* ================================================================== *)

Module Chunker.
Import Py Ext.

(** The loop over ['proposition', 'statement', 'text']: the value of the
    first key that holds a string, [""] when there is none. *)
Fixpoint first_string (keys : list str) (prop_item : dict) : str :=
  match keys with
  | [] => []
  | key :: keys' =>
      match get key prop_item with
      | JStr s => s
      | _ => first_string keys' prop_item
      end
  end.

Definition actual_text (prop_item : json) : str :=
  match prop_item with
  | JStr s => s
  | JObj d =>
      first_string [lit "proposition"; lit "statement"; lit "text"] d
  | _ => []
  end.

(** What the robust text extraction is to find in a dict: [s] is the value
    of the first of the three keys that holds a string. *)
Definition first_text (prop_item : dict) (s : str) : Prop :=
  exists before key after,
    [lit "proposition"; lit "statement"; lit "text"] = before ++ key :: after
    /\ get key prop_item = JStr s
    /\ forall k s', In k before -> get k prop_item <> JStr s'.

(** The test of the inner loop over [elements]. *)
Definition is_source (actual_text_to_check : str) (el : element) : bool :=
  match text el with
  | Some t => contains t actual_text_to_check || contains actual_text_to_check t
  | None => false
  end.

Definition source_element (elements : list element)
    (actual_text_to_check : str) : option element :=
  find (is_source actual_text_to_check) elements.

(** Containment either way, as a proposition: the element has a text, and
    it occurs in the proposition text or the proposition text occurs in
    it. *)
Definition substring (a b : str) : Prop := exists pre post, b = pre ++ a ++ post.

Definition matches (actual_text_to_check : str) (el : element) : Prop :=
  exists t,
    text el = Some t
    /\ (substring t actual_text_to_check \/ substring actual_text_to_check t).

Definition enrich (elements : list element) (actual_text_to_check : str)
  : dict :=
  let default := (JNull, JStr (lit "unknown")) in
  let (page_number, filename) :=
    match source_element elements actual_text_to_check with
    | Some el =>
        match metadata el with
        | Some md =>
            (match Ext.page_number md with Some v => v | None => JNull end,
             match Ext.filename md with
             | Some v => v
             | None => JStr (lit "unknown")
             end)
        | None => default
        end
    | None => default
    end in
  [ (lit "text", JStr actual_text_to_check);
    (lit "document_name", filename);
    (lit "page_number", page_number) ].

(** The loop [for prop_item in propositions]. *)
Fixpoint enrich_all (elements : list element) (propositions : list json)
  : list dict :=
  match propositions with
  | [] => []
  | prop_item :: rest =>
      let actual_text_to_check := actual_text prop_item in
      match actual_text_to_check with
      | [] => enrich_all elements rest
      | _ :: _ =>
          enrich elements actual_text_to_check :: enrich_all elements rest
      end
  end.

(** The [try] block. *)
Definition try_block (elements : list element) (r : reply)
  : result (list dict) :=
  match post_json r with
  | inl e => inl e
  | inr response_json =>
      match get_attr response_json (lit "response") (JStr (lit "{}")) with
      | inl e => inl e
      | inr raw =>
          match loads raw with
          | inl e => inl e
          | inr response_data =>
              match get_attr response_data (lit "propositions") (JArr []) with
              | inl e => inl e
              | inr propositions =>
                  match iterate propositions with
                  | inl e => inl e
                  | inr items => inr (enrich_all elements items)
                  end
              end
          end
      end
  end.

(** [chunk_batch_into_propositions(elements)], given what the model server
    answers: the console lines and the value returned. *)
Definition chunk_batch_into_propositions (elements : list element) (r : reply)
  : list message * outcome (option (list dict)) exn :=
  match try_block elements r with
  | inr enriched_propositions => ([], Returned _ (Some enriched_propositions))
  | inl e => handlers r e
  end.

End Chunker.

(* ================================================================== *)
(** ** cloud_utils.py *)
(* ================================================================== *)

Module CloudUtils.
Import Py Ext.

Fixpoint first_string (keys : list str) (prop_item : dict) : str :=
  match keys with
  | [] => []
  | key :: keys' =>
      match get key prop_item with
      | JStr s => s
      | _ => first_string keys' prop_item
      end
  end.

Definition actual_text (prop_item : json) : str :=
  match prop_item with
  | JStr s => s
  | JObj d =>
      first_string [lit "proposition"; lit "statement"; lit "text"] d
  | _ => []
  end.

Definition is_source (actual_text_to_check : str) (el : element) : bool :=
  match text el with
  | Some t => contains t actual_text_to_check || contains actual_text_to_check t
  | None => false
  end.

Fixpoint source_element (elements : list element)
    (actual_text_to_check : str) : option element :=
  match elements with
  | [] => None
  | el :: rest =>
      if is_source actual_text_to_check el then Some el
      else source_element rest actual_text_to_check
  end.

Definition enrich (elements : list element) (actual_text_to_check : str)
  : dict :=
  match source_element elements actual_text_to_check with
  | Some {| metadata := Some md |} =>
      [ (lit "text", JStr actual_text_to_check);
        (lit "document_name",
         match Ext.filename md with
         | Some v => v
         | None => JStr (lit "unknown")
         end);
        (lit "page_number",
         match Ext.page_number md with Some v => v | None => JNull end) ]
  | _ =>
      [ (lit "text", JStr actual_text_to_check);
        (lit "document_name", JStr (lit "unknown"));
        (lit "page_number", JNull) ]
  end.

Definition enrich_all (elements : list element) (propositions : list json)
  : list dict :=
  flat_map (fun prop_item =>
              let actual_text_to_check := actual_text prop_item in
              if truthy (JStr actual_text_to_check)
              then [enrich elements actual_text_to_check]
              else [])
           propositions.

(** The [try] block, with the lines it prints before it ends. *)
Definition try_block (elements : list element) (r : reply)
  : list message * result (list dict) :=
  match post_json r with
  | inl e => ([], inl e)
  | inr response_json =>
      match get_attr response_json (lit "response") (JStr (lit "{}")) with
      | inl e => ([], inl e)
      | inr raw_response_text =>
          let out := [MsgDebugRaw raw_response_text] in
          match loads raw_response_text with
          | inl e => (out, inl e)
          | inr response_data =>
              match get_attr response_data (lit "propositions") (JArr []) with
              | inl e => (out, inl e)
              | inr propositions =>
                  let out :=
                    if truthy propositions then out
                    else out ++ [MsgNoPropositions] in
                  match iterate propositions with
                  | inl e => (out, inl e)
                  | inr items => (out, inr (enrich_all elements items))
                  end
              end
          end
      end
  end.

Definition chunk_batch_into_propositions (elements : list element) (r : reply)
  : list message * outcome (option (list dict)) exn :=
  match try_block elements r with
  | (out, inr enriched_propositions) =>
      (out, Returned _ (Some enriched_propositions))
  | (out, inl e) => let (out', res) := handlers r e in (out ++ out', res)
  end.

End CloudUtils.

(* ================================================================== *)
(** ** ingest.py *)
(* ================================================================== *)

Module Ingest.
Import Py Ext.

Definition BATCH_SIZE : nat := 10.

(** [config.PROCESSED_DOCS_PATH] *)
Definition PROCESSED_DOCS_PATH : str := lit "processed_documents".

Inductive message :=
| MsgProcessingDocument (file_name : str)
| MsgExtracted (n : nat)
| MsgPartitionError (file_name : str)
| MsgChunking (n : nat)
| MsgCriticalError
| MsgSavedLocally (output_path : str)
| MsgSaveError.

(** What a run does to the outside, in order.  [Chunked n batch] is the
    call of [chunk_batch_into_propositions] that makes the [n]-th POST of
    the document; [Saved] is the JSON file written in full; [Uploaded] is
    the call of [upload_to_r2]. *)
Inductive event (Client : Type) :=
| Console (m : message)
| ChunkerConsole (m : Ext.message)
| Chunked (n : nat) (element_batch : list element)
| Saved (output_path : str) (content : str)
| Uploaded (r2_client : Client) (output_path : str) (key : str).

Arguments Console {Client} m.
Arguments ChunkerConsole {Client} m.
Arguments Chunked {Client} n element_batch.
Arguments Saved {Client} output_path content.

Section ProcessDocument.

(** [get_r2_client] and [upload_to_r2] are imported from cloud_utils, which
    does not define them: the client is an argument of [process_document],
    and the upload is kept as the call that is made.  The partitioner, the
    model server and the disk are external: [partition_pdf] is [None] when
    it raises, [server n] answers the [n]-th POST, [writable] tells whether
    the output file can be opened and written.  [os.makedirs] is taken to
    succeed. *)
Variable Client : Type.
Variable partition_pdf : str -> option (list element).
Variable server : nat -> reply.
Variable writable : str -> bool.

Definition trace : Type := list (event Client).

(** The loop [for i, element in enumerate(elements)], from the element at
    hand on: [Returned None] is the early [return]. *)
Fixpoint chunk_loop (elements element_batch : list element)
    (all_propositions : list dict) (posts : nat) (tr : trace)
  : trace * outcome (option (list dict)) exn :=
  match elements with
  | [] => (tr, Returned _ (Some all_propositions))
  | element :: rest =>
      let element_batch := element_batch ++ [element] in
      if Nat.leb BATCH_SIZE (List.length element_batch)
         || match rest with [] => true | _ :: _ => false end
      then
        let tr := tr ++ [Console (MsgChunking (List.length element_batch));
                         Chunked posts element_batch] in
        let (out, propositions) :=
          Chunker.chunk_batch_into_propositions element_batch (server posts) in
        let tr := tr ++ map ChunkerConsole out in
        match propositions with
        | Raised _ e => (tr, Raised _ e)
        | Returned _ None =>
            (tr ++ [Console MsgCriticalError], Returned _ None)
        | Returned _ (Some propositions) =>
            chunk_loop rest [] (all_propositions ++ propositions) (S posts) tr
        end
      else chunk_loop rest element_batch all_propositions posts tr
  end.

(** [process_document(doc_path, r2_client)] *)
Definition process_document (doc_path : str) (r2_client : option Client)
  : trace * outcome unit exn :=
  let file_name := basename doc_path in
  let tr := [Console (MsgProcessingDocument file_name)] in
  match partition_pdf doc_path with
  | None => (tr ++ [Console (MsgPartitionError file_name)], Returned _ tt)
  | Some elements =>
      let tr := tr ++ [Console (MsgExtracted (List.length elements))] in
      match chunk_loop elements [] [] 0 tr with
      | (tr, Raised _ e) => (tr, Raised _ e)
      | (tr, Returned _ None) => (tr, Returned _ tt)
      | (tr, Returned _ (Some all_propositions)) =>
          let output_filename := fst (splitext file_name) ++ lit ".json" in
          let output_path :=
            PROCESSED_DOCS_PATH ++ lit "/" ++ output_filename in
          let written :=
            if writable output_path
            then Json.dump (JArr (map JObj all_propositions))
            else None in
          let tr :=
            match written with
            | Some content =>
                tr ++ [Saved output_path content;
                       Console (MsgSavedLocally output_path)]
            | None => tr ++ [Console MsgSaveError]
            end in
          let tr :=
            match r2_client, all_propositions with
            | Some client, _ :: _ =>
                tr ++ [Uploaded client output_path
                         (lit "processed/" ++ output_filename)]
            | _, _ => tr
            end in
          (tr, Returned _ tt)
      end
  end.

End ProcessDocument.

End Ingest.

(* ================================================================== *)
(** ** Sample runs *)
(* ================================================================== *)

Module Sample.
Import Py.

(** An embedding model and a vector store that never fail; the store is
    the number of records it holds. *)
Definition encode (texts : list json) : option (list unit) :=
  Some (map (fun _ => tt) texts).

Definition add (c : nat) (ids : list str) (embeddings : list unit)
    (metadatas : list dict) : option nat :=
  Some (c + List.length ids).


Definition proposition (text : string) (document_name page_number : json)
  : dict :=
  [ (lit "text", JStr (lit text));
    (lit "document_name", document_name);
    (lit "page_number", page_number) ].

(** A processed file with one proposition whose source is unknown. *)
Definition ruling : dict :=
  proposition "The court granted the motion to dismiss." JNull JNull.

Definition one_file : list (str * Index.file) :=
  [ (lit "case.json", Index.Text (Json.dumps (JArr [JObj ruling]))) ].



(** One element of a court order, and an answer of the model server with
    four proposition items: a string, a dict, a number and an empty
    string. *)
Definition order : list Ext.element :=
  [ {| Ext.text :=
         Some (lit "The court ruled for the plaintiff. Costs were awarded.");
       Ext.metadata :=
         Some {| Ext.page_number := Some (JInt 2);
                 Ext.filename := Some (JStr (lit "order.pdf")) |} |} ].

Definition items : list json :=
  [ JStr (lit "The court ruled for the plaintiff.");
    JObj [ (lit "statement", JStr (lit "Costs were awarded.")) ];
    JInt 5;
    JStr [] ].

Definition answer : Ext.response :=
  {| Ext.ok := true;
     Ext.body :=
       Some (JObj [ (lit "response",
                     JStr (Json.dumps
                             (JObj [ (lit "propositions", JArr items) ]))) ]) |}.

(** The partitioner finds that element in every document; the model
    server is either down or gives that answer; the disk is writable. *)
Definition partition (doc_path : str) : option (list Ext.element) :=
  Some order.


Definition up (n : nat) : Ext.reply := Some answer.

Definition writable (output_path : str) : bool := true.

End Sample.

(* ================================================================== *)
(** ** index.py: [main] *)
(* ================================================================== *)

Module IndexMain.
Import Py Index.

Inductive message :=
| MsgStarting
| MsgLoadingModel
| MsgModelLoaded
| MsgModelError
| MsgConnected
| MsgInitialCount (initial_count : nat)
| MsgConnectError
| MsgFinalCount (final_count : nat).

(** The console of a run: the lines of [main], and those of
    [embed_and_index_documents]. *)
Inductive event :=
| Console (m : message)
| Indexer (m : Index.message).

Section Main.

(** [load_model] is [SentenceTransformer(...)] and [get_or_create] the
    connection to the store, [None] when they raise; [count] is
    [collection.count()], [None] when it raises; [directory] is the
    processed-documents directory as [embed_and_index_documents] finds
    it. *)
Variable Model Embedding Collection : Type.
Variable load_model : option Model.
Variable get_or_create : option Collection.
Variable count : Collection -> option nat.
Variable encode : Model -> list json -> option (list Embedding).
Variable add : Collection -> list str -> list Embedding -> list dict
               -> option Collection.
Variable directory : option (list (str * file)).

(** [main()]: an exception of the indexer, or of the last [count], leaves
    it uncaught. *)
Definition main : list event * outcome unit unit :=
  let tr := [Console MsgStarting; Console MsgLoadingModel] in
  match load_model with
  | None => (tr ++ [Console MsgModelError], Returned _ tt)
  | Some model =>
      let tr := tr ++ [Console MsgModelLoaded] in
      match get_or_create with
      | None => (tr ++ [Console MsgConnectError], Returned _ tt)
      | Some collection =>
          match count collection with
          | None => (tr ++ [Console MsgConnectError], Returned _ tt)
          | Some initial_count =>
              let tr := tr ++ [Console MsgConnected;
                               Console (MsgInitialCount initial_count)] in
              match embed_and_index_documents (encode model) add directory
                      collection with
              | Raised _ st => (tr ++ map Indexer (console st), Raised _ tt)
              | Returned _ st =>
                  let tr := tr ++ map Indexer (console st) in
                  match count (Index.collection st) with
                  | None => (tr, Raised _ tt)
                  | Some final_count =>
                      (tr ++ [Console (MsgFinalCount final_count)],
                       Returned _ tt)
                  end
              end
          end
      end
  end.

End Main.

End IndexMain.

(* ================================================================== *)
(** ** ingest.py: [main] *)
(* ================================================================== *)

Module IngestMain.
Import Py Ext.

(** [config.SOURCE_DOCS_PATH] *)
Definition SOURCE_DOCS_PATH : str := lit "source_documents".

Inductive message :=
| MsgStarting
| MsgSourceNotFound
| MsgFound (n : nat).

(** What a run of [main] does to the outside: its own console lines, and
    the events of the documents it processes. *)
Inductive event (Client : Type) :=
| Console (m : message)
| Document (e : Ingest.event Client).

Arguments Console {Client} m.

(** [os.path.join(a, b)] of [posixpath], for two components. *)
Definition path_join (a b : str) : str :=
  if startswith (lit "/") b then b
  else if match a with [] => true | _ :: _ => endswith (lit "/") a end
       then a ++ b
       else a ++ lit "/" ++ b.

Section Main.

(** [lower] is [str.lower], which follows the case tables of the
    interpreter; [r2_client] is what [get_r2_client()] returned; [source]
    is the listing of the source directory, [None] when it does not exist.
    The model server answers the [n]-th POST made for a document. *)
Variable Client : Type.
Variable lower : str -> str.
Variable partition_pdf : str -> option (list element).
Variable server : str -> nat -> reply.
Variable writable : str -> bool.

(** The loop [for file_name in pdf_files]. *)
Fixpoint process_documents (r2_client : option Client) (pdf_files : list str)
    (tr : list (event Client)) : list (event Client) * outcome unit exn :=
  match pdf_files with
  | [] => (tr, Returned _ tt)
  | file_name :: rest =>
      let file_path := path_join SOURCE_DOCS_PATH file_name in
      match Ingest.process_document partition_pdf (server file_path) writable
              file_path r2_client with
      | (evs, Returned _ _) =>
          process_documents r2_client rest (tr ++ map (@Document Client) evs)
      | (evs, Raised _ e) => (tr ++ map (@Document Client) evs, Raised _ e)
      end
  end.

(** [main()] *)
Definition main (r2_client : option Client) (source : option (list str))
  : list (event Client) * outcome unit exn :=
  let tr := [Console MsgStarting] in
  match source with
  | None => (tr ++ [Console MsgSourceNotFound], Returned _ tt)
  | Some listing =>
      let pdf_files :=
        filter (fun f => endswith (lit ".pdf") (lower f)) listing in
      process_documents r2_client pdf_files
        (tr ++ [Console (MsgFound (List.length pdf_files))])
  end.

End Main.

End IngestMain.

(* ================================================================== *)
(** ** query.py *)
(* ================================================================== *)

Module Query.
Import Py.

Definition OLLAMA_API_URL : str := lit "http://localhost:11434/api/generate".

(** The f-string [prompt] of [generate_response]. *)
Definition prompt (context query : str) : str :=
  Json.join [Re.newline]
    [ [];
      lit "    You are an expert legal assistant. Your task is to answer the user's question based *only* on the provided context.";
      lit "    Do not use any outside knowledge. If the context does not contain the answer, state that clearly.";
      lit "    Be concise and directly answer the question.";
      [];
      lit "    CONTEXT:";
      lit "    ---";
      lit "    " ++ context;
      lit "    ---";
      [];
      lit "    QUESTION: " ++ query;
      [];
      lit "    ANSWER:";
      lit "    " ].

(** [type(v).__name__] *)
Definition type_name (v : json) : str :=
  match v with
  | JNull => lit "NoneType"
  | JBool _ => lit "bool"
  | JInt _ => lit "int"
  | JFloat _ => lit "float"
  | JStr _ => lit "str"
  | JArr _ => lit "list"
  | JObj _ => lit "dict"
  end.

(** [generate_response(context, query)], given what the model server
    answers to a prompt.  The call, an error status and a body that is not
    JSON all raise a [RequestException]; [response_data.get] raises an
    [AttributeError] unless the body is an object, and the last handler
    returns its message. *)
Definition generate_response (post : str -> Ext.reply) (context query : str)
  : json :=
  match Ext.post_json (post (prompt context query)) with
  | inl _ =>
      JStr (lit "Error: Could not connect to Ollama server at "
            ++ OLLAMA_API_URL ++ lit ". Is Ollama running?")
  | inr response_data =>
      match response_data with
      | JObj d =>
          get_default (lit "response")
            (JStr (lit "Error: Could not parse response from LLM.")) d
      | _ =>
          JStr (lit "An unexpected error occurred: '"
                ++ type_name response_data
                ++ lit "' object has no attribute 'get'")
      end
  end.

(** The parsed command line. *)
Record args := {
  query : str;
  num_results : Z;
  debug : bool
}.

Inductive message :=
| MsgLoadingModel
| MsgModelError
| MsgConnecting
| MsgConnected
| MsgConnectError
| MsgEmbedding
| MsgQueryError
| MsgNoContext
| MsgRetrieved
| MsgDebugContext
| MsgContext (context_str : str)
| MsgDebugSources
| MsgChunk (number : nat) (source page : json)
| MsgDebugEnd
| MsgSynthesizing
| MsgRule
| MsgFinalAnswer
| MsgAnswer (final_answer : json).

(** What a run does to the outside, in order: a console line, or the
    POST of a prompt to the model server. *)
Inductive event :=
| Print (m : message)
| Post (prompt : str).

(** The exceptions no handler of [main] takes. *)
Inductive exn :=
| EncodeError
| AttributeError
| KeyError
| IndexError
| TypeError.

(** [v[0]] *)
Definition getitem0 (v : json) : exn + json :=
  match v with
  | JArr (x :: _) => inr x
  | JArr [] => inl IndexError
  | JStr (c :: _) => inr (JStr [c])
  | JStr [] => inl IndexError
  | JObj _ => inl KeyError
  | _ => inl TypeError
  end.

(** [v[key]] for a string [key] *)
Definition getitem (v : json) (key : str) : exn + json :=
  match v with
  | JObj d =>
      match lookup key d with
      | Some x => inr x
      | None => inl KeyError
      end
  | _ => inl TypeError
  end.

(** [for x in v] *)
Definition iterate (v : json) : exn + list json :=
  match v with
  | JArr items => inr items
  | JObj d => inr (map (fun kv => JStr (fst kv)) d)
  | JStr s => inr (map (fun c => JStr [c]) s)
  | _ => inl TypeError
  end.

(** The test [not results or not results.get('metadatas') or not
    results['metadatas'][0]]: [None] when it holds, else the value of
    [results['metadatas'][0]]. *)
Definition first_metadatas (results : json) : exn + option json :=
  if negb (truthy results) then inr None
  else
    match results with
    | JObj d =>
        let metadatas := get (lit "metadatas") d in
        if negb (truthy metadatas) then inr None
        else
          match getitem0 metadatas with
          | inl e => inl e
          | inr first =>
              if negb (truthy first) then inr None else inr (Some first)
          end
    | _ => inl AttributeError
    end.

(** [[meta['text'] for meta in metas]] *)
Fixpoint texts (metas : list json) : exn + list json :=
  match metas with
  | [] => inr []
  | meta :: rest =>
      match getitem meta (lit "text") with
      | inl e => inl e
      | inr t =>
          match texts rest with
          | inl e => inl e
          | inr ts => inr (t :: ts)
          end
      end
  end.

Fixpoint as_strs (parts : list json) : option (list str) :=
  match parts with
  | [] => Some []
  | JStr s :: rest =>
      match as_strs rest with
      | Some ss => Some (s :: ss)
      | None => None
      end
  | _ :: _ => None
  end.

(** [sep.join(parts)]: every part must be a [str]. *)
Definition join (sep : str) (parts : list json) : exn + str :=
  match as_strs parts with
  | Some ss => inr (Json.join sep ss)
  | None => inl TypeError
  end.

(** The loop [for i, meta in enumerate(...)] of the debug output, from
    index [i] on: the lines printed, and the exception that stopped it. *)
Fixpoint sources (i : nat) (metas : list json) : list event * option exn :=
  match metas with
  | [] => ([], None)
  | JObj d :: rest =>
      let line :=
        Print (MsgChunk (i + 1)
                 (get_default (lit "source") (JStr (lit "N/A")) d)
                 (get_default (lit "page") (JStr (lit "N/A")) d)) in
      let (lines, e) := sources (S i) rest in
      (line :: lines, e)
  | _ :: _ => ([], Some AttributeError)
  end.

Section Main.

(** The embedding model, the vector store and the model server are
    external: [load_model] is [SentenceTransformer(...)] and
    [get_collection] the connection to the store, [None] when they raise;
    [encode] is [model.encode(query).tolist()] and [query_collection] is
    [collection.query(...)], [None] when they raise; [post] answers a
    prompt. *)
Variable Model Embedding Collection : Type.
Variable load_model : option Model.
Variable get_collection : option Collection.
Variable encode : Model -> str -> option Embedding.
Variable query_collection : Collection -> Embedding -> Z -> option json.
Variable post : str -> Ext.reply.

(** [main()], once the command line is parsed. *)
Definition main (a : args) : list event * outcome unit exn :=
  let tr := [Print MsgLoadingModel] in
  match load_model with
  | None => (tr ++ [Print MsgModelError], Returned _ tt)
  | Some model =>
  let tr := tr ++ [Print MsgConnecting] in
  match get_collection with
  | None => (tr ++ [Print MsgConnectError], Returned _ tt)
  | Some collection =>
  let tr := tr ++ [Print MsgConnected; Print MsgEmbedding] in
  match encode model (query a) with
  | None => (tr, Raised _ EncodeError)
  | Some query_embedding =>
  match query_collection collection query_embedding (num_results a) with
  | None => (tr ++ [Print MsgQueryError], Returned _ tt)
  | Some results =>
  match first_metadatas results with
  | inl e => (tr, Raised _ e)
  | inr None => (tr ++ [Print MsgNoContext], Returned _ tt)
  | inr (Some first) =>
  match iterate first with
  | inl e => (tr, Raised _ e)
  | inr metas =>
  match texts metas with
  | inl e => (tr, Raised _ e)
  | inr retrieved_docs =>
  match join [Re.newline; Re.newline] retrieved_docs with
  | inl e => (tr, Raised _ e)
  | inr context_str =>
  let tr := tr ++ [Print MsgRetrieved] in
  if debug a then
    let tr := tr ++ [Print MsgDebugContext; Print (MsgContext context_str);
                     Print MsgDebugSources] in
    match sources 0 metas with
    | (lines, Some e) => (tr ++ lines, Raised _ e)
    | (lines, None) => (tr ++ lines ++ [Print MsgDebugEnd], Returned _ tt)
    end
  else
    let final_answer := generate_response post context_str (query a) in
    (tr ++ [Print MsgSynthesizing; Print MsgRule;
            Post (prompt context_str (query a));
            Print MsgFinalAnswer; Print (MsgAnswer final_answer);
            Print MsgRule],
     Returned _ tt)
  end end end end end end end end.

End Main.

End Query.

(* ================================================================== *)
(** ** What the properties speak of *)
(* ================================================================== *)

Module IndexRun.
Import Py Index.

(** A file that stops the indexer: it holds JSON that is not false as a
    truth value and is not a list of objects. *)
Definition stops (f : file) : Prop :=
  exists content chunks,
    f = Text content
    /\ Json.loads content = Some chunks
    /\ truthy chunks = true
    /\ forall ds, chunks <> JArr (map JObj ds).


(** The names in the console lines that announce a file. *)
Definition processing (console : list message) : list str :=
  flat_map (fun m => match m with MsgProcessing f => [f] | _ => [] end) console.

(** A run of whitespace characters. *)
Definition blank (s : str) : Prop := Forall (fun c => isspace c = true) s.


End IndexRun.

Module IngestRun.
Import Py Ext.

(** The batches a run sent to the chunker, each with the number of the
    POST it made. *)
Definition chunked (Client : Type) (tr : list (Ingest.event Client))
  : list (nat * list element) :=
  flat_map (fun e => match e with
                     | Ingest.Chunked n element_batch => [(n, element_batch)]
                     | _ => []
                     end) tr.

(** An element whose metadata is typed as the partitioner types it: the
    file name, when there is one, is a string, and the page number an
    integer or null. *)
Definition typed_metadata (el : element) : Prop :=
  forall md,
    metadata el = Some md ->
    (forall v, filename md = Some v -> exists s, v = JStr s)
    /\ (forall v, page_number md = Some v ->
        v = JNull \/ exists z, v = JInt z).

End IngestRun.


(* ================================================================== *)
(** * Properties *)
(* ================================================================== *)

(** ** Strings *)

Module PyFacts.
Import Py.

Lemma str_eqb_eq (a b : str) : str_eqb a b = true <-> a = b.
Proof.
  revert b; induction a as [|x a IH]; intros [|y b]; simpl; split;
    try congruence; try reflexivity.
  - intros H. apply andb_true_iff in H as [H1 H2].
    apply N.eqb_eq in H1. apply IH in H2. congruence.
  - intros H. injection H as -> ->. rewrite N.eqb_refl. simpl. now apply IH.
Qed.

Lemma str_eqb_refl (a : str) : str_eqb a a = true.
Proof. now apply str_eqb_eq. Qed.

Lemma lstrip_length (s : str) : List.length (lstrip s) <= List.length s.
Proof.
  induction s as [|c s IH]; simpl; [lia|].
  destruct (isspace c); simpl; lia.
Qed.

Lemma strip_length (s : str) : List.length (strip s) <= List.length s.
Proof.
  unfold strip, rstrip. rewrite length_rev.
  etransitivity; [apply lstrip_length|]. rewrite length_rev.
  apply lstrip_length.
Qed.

Lemma startswith_spec (p s : str) :
  startswith p s = true <-> exists post, s = p ++ post.
Proof.
  revert s; induction p as [|x p IH]; intros s; simpl.
  - split; [intros _; now exists s | reflexivity].
  - destruct s as [|y s].
    + split; [discriminate | intros [post H]; discriminate].
    + rewrite andb_true_iff, N.eqb_eq, IH. split.
      * intros [-> [post ->]]. now exists post.
      * intros [post H]. injection H as -> ->. split; [reflexivity|now exists post].
Qed.

(** [contains] is substring containment. *)
Lemma contains_spec (sub s : str) :
  contains sub s = true <-> exists pre post, s = pre ++ sub ++ post.
Proof.
  induction s as [|c s IH]; simpl.
  - rewrite orb_false_r, startswith_spec. split.
    + intros [post H]. now exists [], post.
    + intros [pre [post H]]. destruct pre; [now exists post|discriminate].
  - rewrite orb_true_iff, startswith_spec, IH. split.
    + intros [[post H]|[pre [post H]]].
      * now exists [], post.
      * exists (c :: pre), post. simpl. now rewrite H.
    + intros [[|x pre] [post H]].
      * left. now exists post.
      * right. injection H as -> ->. now exists pre, post.
Qed.

End PyFacts.

(** ** The patterns of the junk filter *)

Module ReFacts.
Import Py Re.

Lemma dot_star_then_spec (close : char) (s : str) :
  dot_star_then close s = true
  <-> exists mid post, s = mid ++ close :: post /\ ~ In newline mid.
Proof.
  induction s as [|c s IH]; simpl.
  - split; [discriminate|]. intros [[|x mid] [post [H _]]]; discriminate.
  - rewrite orb_true_iff, andb_true_iff, negb_true_iff, N.eqb_eq, N.eqb_neq, IH.
    split.
    + intros [->|[Hn [mid [post [-> Hmid]]]]].
      * exists [], s. simpl. tauto.
      * exists (c :: mid), post. split; [reflexivity|].
        simpl. intros [E|E]; [congruence|tauto].
    + intros [[|x mid] [post [H Hmid]]]; simpl in H; injection H as -> ->.
      * now left.
      * right. split.
        -- intros E. apply Hmid. now left.
        -- exists mid, post. split; [reflexivity|]. intros E. apply Hmid. now right.
Qed.

Lemma search_delimited_spec (open close : char) (s : str) :
  search_delimited open close s = true <-> delimited open close s.
Proof.
  unfold delimited. induction s as [|c s IH]; simpl.
  - split; [discriminate|]. intros [[|x pre] [mid [post [H _]]]]; discriminate.
  - rewrite orb_true_iff, andb_true_iff, N.eqb_eq, dot_star_then_spec, IH. split.
    + intros [[-> [mid [post [-> Hmid]]]]|[pre [mid [post [-> Hmid]]]]].
      * now exists [], mid, post.
      * now exists (c :: pre), mid, post.
    + intros [[|x pre] [mid [post [H Hmid]]]]; simpl in H; injection H as -> ->.
      * left. split; [reflexivity|now exists mid, post].
      * right. now exists pre, mid, post.
Qed.

Lemma strip_prefix_spec (p s rest : str) :
  strip_prefix p s = Some rest <-> s = p ++ rest.
Proof.
  revert s; induction p as [|x p IH]; intros s; simpl.
  - split; congruence.
  - destruct s as [|y s]; [split; discriminate|].
    destruct (N.eqb_spec x y) as [->|Hne].
    + rewrite IH. split; congruence.
    + split; [discriminate|congruence].
Qed.

Lemma dot_star_close_end_spec (s : str) :
  dot_star_close_end s = true
  <-> exists mid tail, s = mid ++ ch ")" :: tail /\ ~ In newline mid
                       /\ (tail = [] \/ tail = [newline]).
Proof.
  assert (Hend : forall t, at_end t = true <-> t = [] \/ t = [newline]).
  { intros [|a [|b t]]; simpl; split; try tauto; try discriminate.
    - intros H. right. apply N.eqb_eq in H. now subst.
    - intros [H|H]; [discriminate|]. injection H as ->. apply N.eqb_refl.
    - intros [H|H]; discriminate. }
  induction s as [|c s IH]; simpl.
  - split; [discriminate|]. intros [[|x mid] [tail [H _]]]; discriminate.
  - rewrite orb_true_iff, !andb_true_iff, negb_true_iff, N.eqb_eq, N.eqb_neq,
      Hend, IH.
    split.
    + intros [[-> Ht]|[Hn [mid [tail [-> [Hmid Ht]]]]]].
      * exists [], s. simpl. tauto.
      * exists (c :: mid), tail. repeat split; trivial.
        simpl. intros [E|E]; [congruence|tauto].
    + intros [[|x mid] [tail [H [Hmid Ht]]]]; simpl in H; injection H as -> ->.
      * now left.
      * right. split.
        -- intros E. apply Hmid. now left.
        -- exists mid, tail. repeat split; trivial.
           intros E. apply Hmid. now right.
Qed.

Lemma match_page_spec (s : str) : match_page s = true <-> page_pattern s.
Proof.
  unfold match_page, page_pattern.
  destruct (strip_prefix (lit "(Page: ") s) as [rest|] eqn:E.
  - apply strip_prefix_spec in E. subst s.
    rewrite dot_star_close_end_spec. split.
    + intros [mid [tail [-> H]]]. now exists mid, tail.
    + intros [mid [tail [H H']]]. apply app_inv_head in H. now exists mid, tail.
  - split; [discriminate|]. intros [mid [tail [H _]]].
    apply strip_prefix_spec in H. congruence.
Qed.

End ReFacts.

(** ** The indexer *)

Module IndexFacts.
Import Py Index.

Lemma sanitize_metadata_raw (chunk : dict) :
  sanitize (metadata_raw chunk)
  = [ (lit "document_name",
       clean_value (lit "document_name") (get (lit "document_name") chunk));
      (lit "page_number",
       clean_value (lit "page_number") (get (lit "page_number") chunk));
      (lit "text", clean_value (lit "text") (get (lit "text") chunk)) ].
Proof. reflexivity. Qed.

Lemma clean_value_not_null (key : str) (value : json) :
  clean_value key value <> JNull.
Proof.
  unfold clean_value. destruct value; try discriminate.
  destruct (str_eqb key (lit "page_number")); discriminate.
Qed.

Lemma clean_value_keeps (key : str) (value : json) :
  value <> JNull -> clean_value key value = value.
Proof. destruct value; simpl; congruence. Qed.

Lemma is_junk_false_str (v : json) :
  is_junk v = false -> exists s, v = JStr s /\ s <> [].
Proof.
  destruct v; try discriminate. intros H. exists s. split; [reflexivity|].
  intros ->. discriminate H.
Qed.

Lemma in_firstn (A : Type) (n : nat) (l : list A) (x : A) :
  In x (firstn n l) -> In x l.
Proof.
  revert l; induction n as [|n IH]; intros [|y l]; simpl; try tauto.
  intros [H|H]; [now left|right; now apply IH].
Qed.

Lemma slice_incl (A : Type) (l : list A) (i n : nat) (x : A) :
  In x (slice l i n) -> In x l.
Proof.
  unfold slice. intros H. apply in_firstn in H.
  rewrite <- (firstn_skipn i l). apply in_or_app. now right.
Qed.

Lemma clean_not_junk (chunks : json) (cleaned : list dict) (chunk : dict) :
  clean chunks = Some cleaned -> In chunk cleaned ->
  is_junk (get (lit "text") chunk) = false.
Proof.
  unfold clean. destruct chunks; try discriminate.
  destruct (as_dicts items); [|discriminate].
  intros H; injection H as <-. intros Hin.
  apply filter_In in Hin as [_ Hin]. now apply negb_true_iff in Hin.
Qed.

Section Run.

Variable Embedding : Type.
Variable Collection : Type.
Variable encode : list json -> option (list Embedding).
Variable add : Collection -> list str -> list Embedding -> list dict
               -> option Collection.

Let state := state Collection.
Let index_batch := index_batch encode add.
Let index_file := index_file encode add.
Let index_files := index_files encode add.

Lemma sound_print (m : message) (st : state) : sound st -> sound (print m st).
Proof. exact (fun H => H). Qed.

Lemma sound_skip_file (m : message) (st : state) :
  sound st -> sound (skip_file m st).
Proof. exact (fun H => H). Qed.

Lemma batch_request_ids_length (file_name : str) (cleaned : list dict) (i : nat) :
  List.length (ids (batch_request file_name cleaned i))
  = List.length (slice cleaned i BATCH_SIZE).
Proof. simpl. now rewrite length_map, length_seq. Qed.

Lemma sound_index_batch (file_name : str) (chunks : json)
    (cleaned : list dict) (st : state) (i : nat) :
  clean chunks = Some cleaned ->
  In i (range_step (List.length cleaned) BATCH_SIZE) ->
  sound st -> sound (index_batch file_name cleaned st i).
Proof.
  intros Hc Hi [Hb Ht]. unfold index_batch, Index.index_batch.
  destruct (try_add _ _ _ _) as [c|]; [|now split].
  apply sound_print. split; simpl.
  - apply Forall_app. split; [exact Hb|]. constructor; [|constructor].
    now exists file_name, chunks, cleaned, i.
  - rewrite Ht, map_app, concat_app, length_app. simpl.
    rewrite app_nil_r, length_map, length_seq. reflexivity.
Qed.

Lemma sound_fold (file_name : str) (chunks : json) (cleaned : list dict)
    (starts : list nat) (st : state) :
  clean chunks = Some cleaned ->
  incl starts (range_step (List.length cleaned) BATCH_SIZE) ->
  sound st -> sound (fold_left (index_batch file_name cleaned) starts st).
Proof.
  intros Hc. revert st. induction starts as [|i starts IH]; intros st Hin Hs.
  - exact Hs.
  - simpl. apply IH.
    + intros x Hx. apply Hin. now right.
    + apply sound_index_batch with chunks; trivial. apply Hin. now left.
Qed.

Lemma sound_index_file (st : state) (entry : str * file) :
  sound st -> sound (final (index_file st entry)).
Proof.
  intros Hs. destruct entry as [file_name f].
  unfold index_file, Index.index_file.
  destruct f as [|content]; [exact Hs|].
  destruct (Json.loads content) as [chunks|]; [|exact Hs].
  destruct (negb (truthy chunks)); [exact Hs|].
  destruct chunks; try exact Hs.
  destruct (clean (JArr items)) as [cleaned|] eqn:Hc; [|exact Hs].
  assert (Hs' : sound (if Nat.ltb 0 (List.length items - List.length cleaned)
                       then print (MsgCleaned (List.length items - List.length cleaned))
                              (print (MsgProcessing file_name) st)
                       else print (MsgProcessing file_name) st)).
  { destruct (Nat.ltb _ _); exact Hs. }
  destruct cleaned as [|d l]; [exact Hs'|].
  unfold final. apply sound_fold with (JArr items); trivial. apply incl_refl.
Qed.

Lemma sound_index_files (json_files : list (str * file)) (st : state) :
  sound st -> sound (final (index_files st json_files)).
Proof.
  revert st. induction json_files as [|entry rest IH]; intros st Hs.
  - exact Hs.
  - simpl. pose proof (sound_index_file entry Hs) as H.
    fold index_file. destruct (index_file st entry) as [st'|st']; simpl in H.
    + now apply IH.
    + exact H.
Qed.

Lemma sound_run (directory : option (list (str * file))) (c : Collection) :
  sound (final (embed_and_index_documents encode add directory c)).
Proof.
  assert (H0 : sound (initial c)) by (split; [constructor|reflexivity]).
  unfold embed_and_index_documents. destruct directory as [listing|].
  - set (json_files := filter _ listing).
    pose proof (@sound_index_files json_files
                  (print (MsgFound (List.length json_files)) (initial c)) H0) as H.
    fold index_files.
    destruct (index_files _ json_files) as [st|st]; simpl in H |- *.
    + destruct (Nat.ltb 0 (skipped_files_count st)); exact H.
    + exact H.
  - exact H0.
Qed.

End Run.

End IndexFacts.

(** ** Junk filter and metadata (index.py) *)

Lemma get_default_get (key : Py.str) (default : Py.json) (d : Py.dict) :
  Py.get key d <> Py.JNull -> Py.get_default key default d = Py.get key d.
Proof.
  unfold Py.get, Py.get_default. destruct (Py.lookup key d); congruence.
Qed.

Lemma built_not_junk (req : Index.request) :
  Index.built req ->
  Forall (fun t => Index.is_junk t = false) (Index.texts_to_embed req)
  /\ Forall (fun m => Index.is_junk (Py.get (Py.lit "text") m) = false)
       (Index.metadatas req).
Proof.
  intros (file_name & chunks & cleaned & i & Hc & _ & ->). simpl.
  split; apply Forall_forall; intros x Hx; apply in_map_iff in Hx
    as (chunk & <- & Hin); apply IndexFacts.slice_incl in Hin;
    pose proof (@IndexFacts.clean_not_junk chunks cleaned chunk Hc Hin) as Hj;
    destruct (@IndexFacts.is_junk_false_str _ Hj) as (s & Hs & _).
  - rewrite get_default_get; [exact Hj|]. rewrite Hs. discriminate.
  - rewrite IndexFacts.sanitize_metadata_raw.
    change (Index.is_junk
              (Index.clean_value (Py.lit "text") (Py.get (Py.lit "text") chunk))
            = false).
    rewrite IndexFacts.clean_value_keeps; [exact Hj|]. rewrite Hs. discriminate.
Qed.

(** C1.  A string is junk, and so excluded from indexing, whenever it has
    fewer than 10 characters, contains a bracketed placeholder ([\[.*\]] or
    [\{.*\}]), or matches [^\(Page: .*\)$] once stripped; and every text
    handed to the embedding model and every record handed to the store
    comes from an entry the filter answered false on. *)
Theorem junk_filter_excludes :
  (forall text : Py.str,
      List.length text < 10
      \/ Re.delimited (Py.ch "[") (Py.ch "]") text
      \/ Re.delimited (Py.ch "{") (Py.ch "}") text
      \/ Re.page_pattern (Py.strip text) ->
      Index.is_junk (Py.JStr text) = true)
  /\ (forall (Embedding Collection : Type)
        (encode : list Py.json -> option (list Embedding))
        (add : Collection -> list Py.str -> list Embedding -> list Py.dict
               -> option Collection)
        (directory : option (list (Py.str * Index.file))) (c : Collection)
        (req : Index.request),
        In req (Index.inserted
                  (Index.final
                     (Index.embed_and_index_documents encode add directory c))) ->
        Forall (fun t => Index.is_junk t = false) (Index.texts_to_embed req)
        /\ Forall (fun m => Index.is_junk (Py.get (Py.lit "text") m) = false)
             (Index.metadatas req)).
Proof.
  split.
  - intros text H. unfold Index.is_junk.
    destruct (negb (Py.truthy (Py.JStr text))); [reflexivity|].
    destruct (Nat.ltb_spec (List.length (Py.strip text)) 10) as [_|Hlen];
      [reflexivity|].
    destruct (Re.search_placeholder text) eqn:Hp; [reflexivity|].
    destruct (Re.match_page (Py.strip text)) eqn:Hm; [reflexivity|].
    exfalso. destruct H as [H|[H|[H|H]]].
    + pose proof (PyFacts.strip_length text). lia.
    + apply ReFacts.search_delimited_spec in H. unfold Re.search_placeholder in Hp.
      rewrite H in Hp. discriminate.
    + apply ReFacts.search_delimited_spec in H. unfold Re.search_placeholder in Hp.
      rewrite H, orb_true_r in Hp. discriminate.
    + apply ReFacts.match_page_spec in H. congruence.
  - intros Embedding Collection encode add directory c req Hin.
    apply built_not_junk.
    destruct (IndexFacts.sound_run encode add directory c) as [Hb _].
    rewrite Forall_forall in Hb. now apply Hb.
Qed.

Lemma junk_filter_excludes_witness :
  Index.is_junk (Py.JStr (Py.lit "see [exhibit] attached hereto")) = true.
Proof.
  apply (proj1 junk_filter_excludes). right; left.
  exists (Py.lit "see "), (Py.lit "exhibit"), (Py.lit " attached hereto").
  split; [reflexivity|].
  vm_compute. intuition discriminate.
Defined.

(** The placeholder patterns do not cross a line break: a bracket that
    opens on one line and closes on the next is not one. *)
Example bracket_across_lines_is_kept :
  Index.is_junk
    (Py.JStr (Py.lit "see [exhibit" ++ [Re.newline] ++ Py.lit "A] attached"))
  = false.
Proof. reflexivity. Qed.



(** ** Batches, ids and counters (index.py) *)

Module BatchFacts.
Import Py Index.

Lemma range_step_unfold (n step : nat) :
  0 < step -> 0 < n ->
  range_step n step = 0 :: map (fun i => i + step) (range_step (n - step) step).
Proof.
  intros Hs Hn. unfold range_step.
  assert (E : (n + step - 1) / step = S ((n - step + step - 1) / step)).
  { destruct (Nat.le_gt_cases step n) as [Hle|Hlt].
    - replace (n + step - 1) with ((n - step + step - 1) + 1 * step) by lia.
      rewrite Nat.div_add by lia. lia.
    - replace (n - step + step - 1) with (step - 1) by lia.
      rewrite (Nat.div_small (step - 1)) by lia.
      replace (n + step - 1) with ((n - 1) + 1 * step) by lia.
      rewrite Nat.div_add by lia. rewrite Nat.div_small by lia. reflexivity. }
  rewrite E. cbn [seq map]. f_equal.
  rewrite <- seq_shift, !map_map. apply map_ext. intros k. simpl. lia.
Qed.

Lemma range_step_nil (step : nat) : 0 < step -> range_step 0 step = [].
Proof.
  intros Hs. unfold range_step. simpl.
  rewrite Nat.div_small by lia. reflexivity.
Qed.

Lemma slice_shift (A : Type) (l : list A) (i n : nat) :
  slice l (i + n) n = slice (skipn n l) i n.
Proof.
  unfold slice. rewrite skipn_skipn. reflexivity.
Qed.

(** The batches, one after the other, are the list itself. *)
Lemma concat_slices (A : Type) (step : nat) (l : list A) :
  0 < step ->
  List.concat (map (fun i => slice l i step) (range_step (List.length l) step))
  = l.
Proof.
  intros Hs. remember (List.length l) as n eqn:Hn. revert l Hn.
  induction n as [n IH] using lt_wf_ind. intros l Hn.
  destruct l as [|x l].
  - simpl in Hn. subst n. now rewrite range_step_nil.
  - rewrite range_step_unfold by (simpl in Hn; lia).
    cbn [map List.concat]. rewrite map_map.
    rewrite (map_ext _ (fun i => slice (skipn step (x :: l)) i step))
      by (intros i; apply slice_shift).
    replace (n - step) with (List.length (skipn step (x :: l)))
      by (rewrite length_skipn; lia).
    rewrite (IH (List.length (skipn step (x :: l)))); trivial.
    + unfold slice at 1. simpl skipn at 1. apply firstn_skipn.
    + rewrite length_skipn, <- Hn. simpl in Hn. lia.
Qed.



End BatchFacts.

(** ** Record ids (index.py) *)

Module IdFacts.
Import Py Index.

Lemma digits_inj (d d' : Decimal.uint) : digits d = digits d' -> d = d'.
Proof.
  revert d'; induction d; intros d'; destruct d'; simpl; intros H;
    try discriminate; try reflexivity;
    injection H as H; f_equal; auto.
Qed.

Lemma str_of_nat_inj (n m : nat) : str_of_nat n = str_of_nat m -> n = m.
Proof.
  unfold str_of_nat, str_of_N. intros H.
  apply digits_inj, DecimalN.Unsigned.to_uint_inj in H.
  now apply Nat2N.inj.
Qed.


Lemma rfind_absent (c : char) (s : str) : ~ In c s -> rfind c s = None.
Proof.
  induction s as [|x s IH]; simpl; [reflexivity|]. intros H.
  rewrite IH by tauto. destruct (N.eqb_spec x c); [|reflexivity].
  exfalso. apply H. now left.
Qed.

Lemma rfind_last (c : char) (pre tail : str) :
  ~ In c tail -> rfind c (pre ++ c :: tail) = Some (List.length pre).
Proof.
  intros H. induction pre as [|x pre IH]; simpl.
  - rewrite rfind_absent by exact H. now rewrite N.eqb_refl.
  - now rewrite IH.
Qed.

(** The stem of a listed file: what precedes [.json], when that holds a
    character other than a dot. *)
Lemma splitext_json (stem : str) :
  ~ In (ch "/") stem -> (exists c, In c stem /\ c <> ch ".") ->
  fst (splitext (stem ++ lit ".json")) = stem.
Proof.
  intros Hsep (c & Hc & Hdot). unfold splitext.
  change (lit ".json") with (ch "." :: lit "json").
  rewrite rfind_last by (vm_compute; intuition discriminate).
  rewrite rfind_absent.
  2:{ intros H. apply in_app_or in H as [H|H]; [tauto|].
      revert H. vm_compute. intuition discriminate. }
  rewrite Nat.sub_0_r. cbn [skipn Nat.leb andb].
  rewrite firstn_app, Nat.sub_diag, firstn_all. cbn [firstn].
  rewrite app_nil_r.
  replace (existsb _ stem) with true; [reflexivity|].
  symmetry. apply existsb_exists. exists c. split; [exact Hc|].
  apply negb_true_iff. now apply N.eqb_neq.
Qed.

Section Run.

Variable Embedding : Type.
Variable Collection : Type.
Variable encode : list json -> option (list Embedding).
Variable add : Collection -> list str -> list Embedding -> list dict
               -> option Collection.




End Run.

End IdFacts.



(** ** Batch failures and the counter (index.py) *)

Module CountFacts.
Import Py Index.

Section Run.

Variable Embedding : Type.
Variable Collection : Type.
Variable encode : list json -> option (list Embedding).
Variable add : Collection -> list str -> list Embedding -> list dict
               -> option Collection.

Let index_batch := index_batch encode add.




Lemma total_fold_all (file_name : str) (cleaned : list dict)
    (starts : list nat) (st : state Collection) :
  (forall req c, try_add encode add req c <> None) ->
  total_vectors_added (fold_left (index_batch file_name cleaned) starts st)
  = total_vectors_added st
    + List.length (List.concat (map (fun i => slice cleaned i BATCH_SIZE) starts)).
Proof.
  intros Hok. revert st. induction starts as [|i starts IH]; intros st; simpl.
  - lia.
  - rewrite IH, length_app. unfold index_batch, Index.index_batch.
    cbn [collection print].
    destruct (try_add _ _ _ _) eqn:E; [|now apply Hok in E]. simpl. lia.
Qed.

Lemma total_index_file_all (st : state Collection) (file_name content : str)
    (chunks : json) (cleaned : list dict) :
  (forall req c, try_add encode add req c <> None) ->
  Json.loads content = Some chunks -> clean chunks = Some cleaned ->
  total_vectors_added (final (index_file encode add st (file_name, Text content)))
  = total_vectors_added st + List.length cleaned.
Proof.
  intros Hok Hl Hc. unfold index_file. rewrite Hl.
  assert (Hz : forall A (l : list A), l = [] -> List.length l = 0)
    by (now intros A l ->).
  destruct chunks; try discriminate. rewrite Hc.
  destruct (negb (truthy (JArr items))) eqn:Ht.
  - destruct items; [|discriminate]. injection Hc as <-. simpl. lia.
  - destruct cleaned as [|d l].
    + destruct (Nat.ltb _ _); simpl; lia.
    + unfold final. fold index_batch. rewrite total_fold_all by exact Hok.
      rewrite BatchFacts.concat_slices by (unfold BATCH_SIZE; lia).
      destruct (Nat.ltb _ _); reflexivity.
Qed.

Lemma index_file_returns (st : state Collection) (file_name content : str)
    (items : list json) (chunk_dicts : list dict) :
  Json.loads content = Some (JArr items) ->
  as_dicts items = Some chunk_dicts ->
  exists st', index_file encode add st (file_name, Text content)
              = Returned _ st'.
Proof.
  intros Hl Hd. unfold index_file. rewrite Hl.
  destruct (negb (truthy (JArr items))); [eauto|].
  unfold clean. rewrite Hd.
  destruct (filter _ chunk_dicts); eauto.
Qed.

End Run.

End CountFacts.



(** ** The two chunkers (chunker.py, cloud_utils.py) *)

Module ChunkFacts.
Import Py Ext.





(** The texts the chunker keeps: those of the items, in order, without
    the empty ones. *)
Lemma enrich_all_texts (elements : list element) (items : list json) :
  map (get (lit "text")) (Chunker.enrich_all elements items)
  = map JStr
      (filter (fun t => match t with [] => false | _ => true end)
         (map Chunker.actual_text items)).
Proof.
  induction items as [|item rest IH]; simpl; [reflexivity|].
  destruct (Chunker.actual_text item) as [|c t]; simpl; [exact IH|].
  rewrite IH. f_equal.
  unfold Chunker.enrich.
  destruct (Chunker.source_element elements (c :: t)) as [[tx [md|]]|];
    reflexivity.
Qed.

Lemma try_block_texts (elements : list element) (r : reply)
    (props : list dict) (p : dict) :
  Chunker.try_block elements r = inr props -> In p props ->
  exists t, get (lit "text") p = JStr t /\ t <> [].
Proof.
  unfold Chunker.try_block.
  destruct (post_json r) as [e|response_json]; [discriminate|].
  destruct (get_attr response_json _ _) as [e|raw]; [discriminate|].
  destruct (loads raw) as [e|response_data]; [discriminate|].
  destruct (get_attr response_data _ _) as [e|propositions]; [discriminate|].
  destruct (iterate propositions) as [e|items]; [discriminate|].
  intros H; injection H as <-. intros Hin.
  apply (in_map (get (lit "text"))) in Hin.
  rewrite enrich_all_texts in Hin. apply in_map_iff in Hin as (t & <- & Ht).
  apply filter_In in Ht as [_ Ht]. exists t. split; [reflexivity|].
  now destruct t.
Qed.


End ChunkFacts.


(** The console is where the two differ: cloud_utils.py prints the raw
    response before it parses it. *)
Example chunkers_print_differently :
  fst (CloudUtils.chunk_batch_into_propositions []
         (Some {| Ext.ok := true; Ext.body := Some (Py.JObj []) |}))
  <> fst (Chunker.chunk_batch_into_propositions []
            (Some {| Ext.ok := true; Ext.body := Some (Py.JObj []) |})).
Proof. vm_compute. discriminate. Qed.

(** ** Proposition texts (chunker.py) *)

Lemma first_string_found (prop_item : Py.dict) (s : Py.str) :
  Chunker.first_text prop_item s ->
  Chunker.actual_text (Py.JObj prop_item) = s.
Proof.
  intros (before & key & after & Hkeys & Hget & Hbefore).
  unfold Chunker.actual_text. rewrite Hkeys. clear Hkeys.
  induction before as [|k before IH]; simpl.
  - now rewrite Hget.
  - destruct (Py.get k prop_item) eqn:E;
      try (apply IH; intros k' s' Hin; apply Hbefore; now right).
    exfalso. apply (Hbefore k s0); [now left|exact E].
Qed.

Lemma first_string_absent (prop_item : Py.dict) :
  (forall key s,
      In key [Py.lit "proposition"; Py.lit "statement"; Py.lit "text"] ->
      Py.get key prop_item <> Py.JStr s) ->
  Chunker.actual_text (Py.JObj prop_item) = [].
Proof.
  intros H. unfold Chunker.actual_text.
  induction [Py.lit "proposition"; Py.lit "statement"; Py.lit "text"]
    as [|k keys IH]; simpl; [reflexivity|].
  destruct (Py.get k prop_item) eqn:E;
    try (apply IH; intros key s' Hin; apply H; now right).
  exfalso. apply (H k s); [now left|exact E].
Qed.

(** C3.  A proposition item that is a string yields that string; a dict
    yields the value of the first of the keys [proposition], [statement],
    [text] that holds a string; any other item, and a dict without such a
    key, yields no text.  The chunker keeps, in order, the items whose text
    is not empty and drops the others, so every proposition object it
    returns has a non-empty [text] string. *)
Theorem proposition_texts :
  (forall s, Chunker.actual_text (Py.JStr s) = s)
  /\ (forall prop_item s,
         Chunker.first_text prop_item s ->
         Chunker.actual_text (Py.JObj prop_item) = s)
  /\ (forall prop_item,
         (forall key s,
             In key [Py.lit "proposition"; Py.lit "statement"; Py.lit "text"] ->
             Py.get key prop_item <> Py.JStr s) ->
         Chunker.actual_text (Py.JObj prop_item) = [])
  /\ (forall item,
         (forall s, item <> Py.JStr s) -> (forall d, item <> Py.JObj d) ->
         Chunker.actual_text item = [])
  /\ (forall elements items,
         map (Py.get (Py.lit "text")) (Chunker.enrich_all elements items)
         = map Py.JStr
             (filter (fun t => match t with [] => false | _ => true end)
                (map Chunker.actual_text items)))
  /\ (forall elements resp response_json raw response_data items,
         Ext.ok resp = true ->
         Ext.body resp = Some (Py.JObj response_json) ->
         Py.get_default (Py.lit "response") (Py.JStr (Py.lit "{}")) response_json
         = Py.JStr raw ->
         Json.loads raw = Some (Py.JObj response_data) ->
         Py.get_default (Py.lit "propositions") (Py.JArr []) response_data
         = Py.JArr items ->
         Chunker.chunk_batch_into_propositions elements (Some resp)
         = ([], Py.Returned _ (Some (Chunker.enrich_all elements items))))
  /\ (forall elements r propositions p,
         snd (Chunker.chunk_batch_into_propositions elements r)
         = Py.Returned _ (Some propositions) ->
         In p propositions ->
         exists t, Py.get (Py.lit "text") p = Py.JStr t /\ t <> []).
Proof.
  split; [reflexivity|].
  split; [exact first_string_found|].
  split; [exact first_string_absent|].
  split; [|split; [exact ChunkFacts.enrich_all_texts|split]].
  - intros item Hs Hd. destruct item; try reflexivity.
    + now destruct (Hs s).
    + now destruct (Hd members).
  - intros elements resp response_json raw response_data items Hok Hb Hr Hl Hp.
    unfold Chunker.chunk_batch_into_propositions, Chunker.try_block.
    unfold Ext.post_json. rewrite Hok, Hb. cbn [Ext.get_attr]. rewrite Hr.
    cbn [Ext.loads]. rewrite Hl. cbn [Ext.get_attr]. rewrite Hp.
    reflexivity.
  - intros elements r props p H Hin.
    unfold Chunker.chunk_batch_into_propositions in H.
    destruct (Chunker.try_block elements r) as [e|props'] eqn:E.
    + exfalso. revert H. unfold Ext.handlers.
      destruct e; simpl; try discriminate;
        destruct (Ext.raw_response r); simpl; discriminate.
    + simpl in H. injection H as <-.
      eapply ChunkFacts.try_block_texts; eauto.
Qed.

Lemma proposition_texts_witness :
  Chunker.chunk_batch_into_propositions Sample.order (Some Sample.answer)
  = ([], Py.Returned _ (Some (Chunker.enrich_all Sample.order Sample.items))).
Proof.
  destruct proposition_texts as (_ & _ & _ & _ & _ & H & _).
  apply (H Sample.order Sample.answer
           [ (Py.lit "response",
              Py.JStr (Json.dumps
                         (Py.JObj [ (Py.lit "propositions",
                                     Py.JArr Sample.items) ]))) ]
           (Json.dumps (Py.JObj [ (Py.lit "propositions", Py.JArr Sample.items) ]))
           [ (Py.lit "propositions", Py.JArr Sample.items) ]
           Sample.items);
    reflexivity.
Defined.

Example order_propositions :
  Chunker.enrich_all Sample.order Sample.items
  = [ Sample.proposition "The court ruled for the plaintiff."
        (Py.JStr (Py.lit "order.pdf")) (Py.JInt 2);
      Sample.proposition "Costs were awarded."
        (Py.JStr (Py.lit "order.pdf")) (Py.JInt 2) ].
Proof. reflexivity. Qed.

(** ** Failures of the model server (chunker.py, ingest.py) *)

Module IngestFacts.
Import Py Ext Ingest.


Section Run.

Variable Client : Type.
Variable partition_pdf : str -> option (list element).
Variable server : nat -> reply.
Variable writable : str -> bool.

(** An event that is neither a file written nor an upload. *)
Let quiet (e : event Client) : Prop :=
  (forall path content, e <> Saved path content)
  /\ (forall client path key, e <> Uploaded client path key).

Let stops (m : nat) (b : list element) : Prop :=
  snd (Chunker.chunk_batch_into_propositions b (server m)) = Returned _ None.

Lemma chunk_loop_spec (elements element_batch : list element)
    (all_propositions : list dict) (posts : nat) (tr : trace Client) :
  exists evs,
    fst (chunk_loop server elements element_batch all_propositions posts tr)
    = tr ++ evs
    /\ (forall e, In e evs -> quiet e)
    /\ (forall m b,
           In (Chunked m b) evs ->
           posts <= m
           /\ (stops m b ->
               snd (chunk_loop server elements element_batch all_propositions
                      posts tr) = Returned _ None
               /\ forall m' b', In (Chunked m' b') evs -> m' <= m)).
Proof.
  revert element_batch all_propositions posts tr.
  induction elements as [|element rest IH]; intros element_batch all posts tr.
  - exists []. simpl. rewrite app_nil_r. repeat split; intros; contradiction.
  - cbn [chunk_loop].
    destruct (Nat.leb BATCH_SIZE (List.length (element_batch ++ [element]))
              || match rest with [] => true | _ :: _ => false end);
      [|apply IH].
    set (b := element_batch ++ [element]).
    destruct (Chunker.chunk_batch_into_propositions b (server posts))
      as [out propositions] eqn:E.
    assert (Hout : forall e, In e (map (@ChunkerConsole Client) out) ->
                             quiet e /\ forall m' b', e <> Chunked m' b').
    { intros e He. apply in_map_iff in He as (x & <- & _).
      repeat split; discriminate. }
    destruct propositions as [[props|]|e].
    + destruct (IH [] (all ++ props) (S posts)
                  ((tr ++ [Console (MsgChunking (List.length b));
                           Chunked posts b])
                   ++ map (@ChunkerConsole Client) out))
        as (evs & Hfst & Hq & Hc).
      exists ([Console (MsgChunking (List.length b)); Chunked posts b]
              ++ map (@ChunkerConsole Client) out ++ evs).
      split; [rewrite Hfst, <- !app_assoc; reflexivity|]. split.
      * intros e He; cbn [app In] in He.
        destruct He as [<-|[<-|He]]; try (split; discriminate).
        apply in_app_or in He as [He|He];
          [exact (proj1 (Hout _ He))|exact (Hq _ He)].
      * intros m b' H; cbn [app In] in H.
        destruct H as [H|[H|H]]; [discriminate| |].
        -- injection H as <- <-. split; [lia|]. intros Hs.
           unfold stops in Hs. rewrite E in Hs. discriminate.
        -- apply in_app_or in H as [H|H]; [now apply Hout in H; destruct H as [_ H]; destruct (H m b')|].
           destruct (Hc m b' H) as [Hle Hstop]. split; [lia|].
           intros Hs. destruct (Hstop Hs) as [Hres Hmax]. split; [exact Hres|].
           intros m' b'' H'; cbn [app In] in H'.
           destruct H' as [H'|[H'|H']]; [discriminate|injection H' as <- <-; lia|].
           apply in_app_or in H' as [H'|H'];
             [apply Hout in H'; destruct H' as [_ H']; now destruct (H' m' b'')|].
           now apply Hmax with b''.
    + exists ([Console (MsgChunking (List.length b)); Chunked posts b]
              ++ map (@ChunkerConsole Client) out ++ [Console MsgCriticalError]).
      split; [cbn [fst]; rewrite <- !app_assoc; reflexivity|]. split.
      * intros e He; cbn [app In] in He.
        destruct He as [<-|[<-|He]]; try (split; discriminate).
        apply in_app_or in He as [He|[<-|[]]]; [exact (proj1 (Hout _ He))|].
        split; discriminate.
      * assert (Honly : forall m' b',
                   In (Chunked m' b')
                      ([Console (MsgChunking (List.length b)); Chunked posts b]
                       ++ map (@ChunkerConsole Client) out
                       ++ [Console MsgCriticalError]) ->
                   m' = posts).
        { intros m' b' H; cbn [app In] in H.
          destruct H as [H|[H|H]]; [discriminate|now injection H| ].
          apply in_app_or in H as [H|[H|[]]]; [|discriminate].
          apply Hout in H. destruct H as [_ H]. now destruct (H m' b'). }
        intros m b' H. rewrite (Honly _ _ H). split; [lia|]. intros _.
        split; [reflexivity|]. intros m' b'' H'. rewrite (Honly _ _ H'). lia.
    + exists ([Console (MsgChunking (List.length b)); Chunked posts b]
              ++ map (@ChunkerConsole Client) out).
      split; [cbn [fst]; rewrite <- !app_assoc; reflexivity|]. split.
      * intros e' He; cbn [app In] in He.
        destruct He as [<-|[<-|He]]; try (split; discriminate).
        exact (proj1 (Hout _ He)).
      * intros m b' H; cbn [app In] in H.
        destruct H as [H|[H|H]]; [discriminate| |].
        -- injection H as <- <-. split; [lia|]. intros Hs.
           unfold stops in Hs. rewrite E in Hs. discriminate.
        -- apply Hout in H. destruct H as [_ H]. now destruct (H m b').
Qed.

End Run.

End IngestFacts.

(** ** One document (ingest.py) *)

Module DocumentFacts.
Import Py Ext Ingest.

Section Run.

Variable Client : Type.
Variable partition_pdf : str -> option (list element).
Variable server : nat -> reply.
Variable writable : str -> bool.
Variable doc_path : str.
Variable r2_client : option Client.

Let output_filename : str := fst (splitext (basename doc_path)) ++ lit ".json".
Let output_path : str := PROCESSED_DOCS_PATH ++ lit "/" ++ output_filename.

Let save_events (all_propositions : list dict) : trace Client :=
  match (if writable output_path
         then Json.dump (JArr (map JObj all_propositions)) else None) with
  | Some content =>
      [Saved output_path content; Console (MsgSavedLocally output_path)]
  | None => [Console MsgSaveError]
  end.

Let upload_events (all_propositions : list dict) : trace Client :=
  match r2_client, all_propositions with
  | Some client, _ :: _ =>
      [Uploaded client output_path (lit "processed/" ++ output_filename)]
  | _, _ => []
  end.

Let tr0 (elements : list element) : trace Client :=
  [Console (MsgProcessingDocument (basename doc_path));
   Console (MsgExtracted (List.length elements))].

Lemma process_document_run (elements : list element) (tr1 : trace Client)
    (res : outcome (option (list dict)) exn) :
  partition_pdf doc_path = Some elements ->
  chunk_loop server elements [] [] 0 (tr0 elements) = (tr1, res) ->
  process_document partition_pdf server writable doc_path r2_client
  = match res with
    | Raised _ e => (tr1, Raised _ e)
    | Returned _ None => (tr1, Returned _ tt)
    | Returned _ (Some all_propositions) =>
        (tr1 ++ save_events all_propositions ++ upload_events all_propositions,
         Returned _ tt)
    end.
Proof.
  intros Hp E. unfold process_document. rewrite Hp. cbv zeta.
  change ([Console (MsgProcessingDocument (basename doc_path))]
          ++ [Console (MsgExtracted (List.length elements))])
    with (tr0 elements).
  rewrite E. destruct res as [[all|]|e]; try reflexivity.
  f_equal. unfold save_events, upload_events.
  fold output_filename. fold output_path.
  destruct (if writable output_path then _ else None);
    destruct r2_client; try destruct all;
    rewrite ?app_nil_r, <- ?app_assoc; reflexivity.
Qed.

Lemma process_document_no_elements :
  partition_pdf doc_path = None ->
  process_document partition_pdf server writable doc_path r2_client
  = ([Console (MsgProcessingDocument (basename doc_path));
      Console (MsgPartitionError (basename doc_path))], Returned _ tt).
Proof. intros Hp. unfold process_document. now rewrite Hp. Qed.



(** What follows a file that was written. *)
Lemma saved_then_upload (path content : str) :
  let run := process_document partition_pdf server writable doc_path r2_client in
  In (Saved path content) (fst run) ->
  exists elements tr1 all_propositions,
    partition_pdf doc_path = Some elements
    /\ chunk_loop server elements [] [] 0 (tr0 elements)
       = (tr1, Returned _ (Some all_propositions))
    /\ Json.dump (JArr (map JObj all_propositions)) = Some content
    /\ path = output_path
    /\ snd run = Returned _ tt
    /\ ((exists client key, In (Uploaded client path key) (fst run))
        <-> (r2_client <> None /\ all_propositions <> []))
    /\ (forall client path' key,
           In (Uploaded client path' key) (fst run) ->
           r2_client = Some client /\ path' = path
           /\ key = lit "processed/" ++ output_filename).
Proof.
  intros run. subst run.
  destruct (partition_pdf doc_path) as [elements|] eqn:Hp.
  2:{ rewrite (process_document_no_elements Hp). cbn [fst In].
      intuition discriminate. }
  destruct (IngestFacts.chunk_loop_spec server elements [] [] 0 (tr0 elements))
    as (evs & Hfst & Hq & _).
  destruct (chunk_loop server elements [] [] 0 (tr0 elements)) as [tr1 res] eqn:E.
  rewrite (process_document_run Hp E).
  cbn [fst snd] in Hfst.
  assert (Hquiet : forall e, In e tr1 ->
                     (forall path content, e <> Saved path content)
                     /\ (forall client path key, e <> Uploaded client path key)).
  { rewrite Hfst. intros e H. apply in_app_or in H as [H|H]; [|now apply Hq].
    cbn [tr0 In] in H. destruct H as [<-|[<-|[]]]; split; discriminate. }
  assert (Hno : forall path content, ~ In (Saved path content) tr1).
  { intros p c H. apply Hquiet in H. destruct H as [H _]. now apply (H p c). }
  assert (Hnu : forall client p k, ~ In (Uploaded client p k) tr1).
  { intros cl p k H. apply Hquiet in H. destruct H as [_ H]. now apply (H cl p k). }
  destruct res as [[all|]|e]; cbn [fst snd]; intros Hin;
    try (now apply Hno in Hin).
  exists elements, tr1, all.
  apply in_app_or in Hin as [Hin|Hin]; [now apply Hno in Hin|].
  apply in_app_or in Hin as [Hin|Hin].
  2:{ unfold upload_events in Hin. destruct r2_client; try destruct all;
      cbn [In] in Hin; intuition discriminate. }
  unfold save_events in Hin.
  destruct (writable output_path) eqn:Hw; [|cbn [In] in Hin; intuition discriminate].
  destruct (Json.dump (JArr (map JObj all))) as [content'|] eqn:Hd;
    [|cbn [In] in Hin; intuition discriminate].
  cbn [In] in Hin. destruct Hin as [Hin|[Hin|[]]]; [|discriminate].
  injection Hin as <- <-.
  assert (Hup : forall client p k,
             In (Uploaded client p k)
                (tr1 ++ save_events all ++ upload_events all) ->
             In (Uploaded client p k) (upload_events all)).
  { intros cl p k H. apply in_app_or in H as [H|H]; [now apply Hnu in H|].
    apply in_app_or in H as [H|H]; [|exact H].
    unfold save_events in H. rewrite ?Hw, ?Hd in H. cbn [In] in H.
    intuition discriminate. }
  split; [reflexivity|]. split; [exact E|]. split; [reflexivity|].
  split; [reflexivity|]. split; [reflexivity|]. split; [split|].
  - intros (client & key & H). apply Hup in H. unfold upload_events in H.
    destruct r2_client; try destruct all; cbn [In] in H; try contradiction.
    split; discriminate.
  - intros [Hc Ha]. destruct r2_client as [client|]; [|congruence].
    destruct all as [|p all]; [congruence|].
    exists client, (lit "processed/" ++ output_filename).
    apply in_or_app. right. apply in_or_app. right.
    unfold upload_events. now left.
  - intros client path' key H. apply Hup in H. unfold upload_events in H.
    destruct r2_client; try destruct all; cbn [In] in H; try contradiction.
    destruct H as [H|[]]. injection H as <- <- <-. repeat split.
Qed.

End Run.

End DocumentFacts.



(** C9.  When the run wrote the document's JSON file, it returns normally,
    and it calls the upload, for that file, exactly when a client was
    given and the document produced at least one proposition; without a
    client nothing is uploaded. *)
Theorem upload_when_configured :
  forall (Client : Type) partition_pdf server writable doc_path
    (r2_client : option Client) path content,
    let run := Ingest.process_document partition_pdf server writable
                 doc_path r2_client in
    In (Ingest.Saved path content) (fst run) ->
    exists elements tr all_propositions,
      partition_pdf doc_path = Some elements
      /\ Ingest.chunk_loop (Client := Client) server elements [] [] 0
           [Ingest.Console (Ingest.MsgProcessingDocument (Py.basename doc_path));
            Ingest.Console (Ingest.MsgExtracted (List.length elements))]
         = (tr, Py.Returned _ (Some all_propositions))
      /\ Json.dump (Py.JArr (map Py.JObj all_propositions)) = Some content
      /\ snd run = Py.Returned _ tt
      /\ ((exists client key, In (Ingest.Uploaded client path key) (fst run))
          <-> (r2_client <> None /\ all_propositions <> []))
      /\ (forall client path' key,
             In (Ingest.Uploaded client path' key) (fst run) ->
             r2_client = Some client /\ path' = path)
      /\ (r2_client = None ->
          forall client path' key,
            ~ In (Ingest.Uploaded client path' key) (fst run)).
Proof.
  intros Client partition_pdf server writable doc_path r2_client path content
    run Hin.
  destruct (DocumentFacts.saved_then_upload partition_pdf server writable
              doc_path r2_client path content Hin)
    as (elements & tr & all & Hp & Hl & Hd & _ & Hr & Hiff & Hup).
  exists elements, tr, all. repeat (split; [assumption|]). split.
  - intros client path' key H. apply Hup in H. tauto.
  - intros -> client path' key H. apply Hup in H. destruct H as [H _].
    discriminate.
Qed.

Lemma upload_when_configured_witness :
  snd (Ingest.process_document Sample.partition Sample.up Sample.writable
         (Py.lit "source_documents/order.pdf") (Some tt))
  = Py.Returned _ tt.
Proof.
  assert (Hin : In (Ingest.Saved (Py.lit "processed_documents/order.json")
                      (Json.dumps
                         (Py.JArr
                            (map Py.JObj
                               (Chunker.enrich_all Sample.order Sample.items)))))
                   (fst (Ingest.process_document Sample.partition Sample.up
                           Sample.writable
                           (Py.lit "source_documents/order.pdf") (Some tt)))).
  { vm_compute. do 4 right. left. reflexivity. }
  destruct (@upload_when_configured unit Sample.partition Sample.up
              Sample.writable (Py.lit "source_documents/order.pdf") (Some tt)
              _ _ Hin) as (elements & tr & all & _ & _ & _ & H & _).
  exact H.
Defined.

Example order_is_uploaded :
  In (Ingest.Uploaded tt (Py.lit "processed_documents/order.json")
        (Py.lit "processed/order.json"))
     (fst (Ingest.process_document Sample.partition Sample.up Sample.writable
             (Py.lit "source_documents/order.pdf") (Some tt))).
Proof. vm_compute. do 6 right. left. reflexivity. Qed.

(** ** Attribution to a source element (chunker.py, index.py) *)

Lemma is_source_matches (t : Py.str) (el : Ext.element) :
  Chunker.is_source t el = true <-> Chunker.matches t el.
Proof.
  unfold Chunker.is_source, Chunker.matches, Chunker.substring.
  destruct (Ext.text el) as [tx|].
  - rewrite orb_true_iff, !PyFacts.contains_spec. split.
    + intros H. now exists tx.
    + intros (t' & E & H). now injection E as <-.
  - split; [discriminate|]. intros (t' & E & _). discriminate.
Qed.

Lemma source_element_first (elements : list Ext.element) (t : Py.str)
    (el : Ext.element) :
  Chunker.source_element elements t = Some el
  <-> exists before after,
        elements = before ++ el :: after
        /\ Chunker.matches t el
        /\ forall e, In e before -> ~ Chunker.matches t e.
Proof.
  unfold Chunker.source_element.
  induction elements as [|x rest IH]; simpl.
  - split; [discriminate|]. intros ([|y before] & after & H & _); discriminate.
  - destruct (Chunker.is_source t x) eqn:E.
    + split.
      * intros H. injection H as <-. exists [], rest.
        split; [reflexivity|]. split; [now apply is_source_matches|].
        intros e [].
      * intros ([|y before] & after & H & Hm & Hb); simpl in H.
        -- injection H as Hx _. now subst el.
        -- injection H as Hx _. subst y. exfalso. apply (Hb x); [now left|].
           now apply is_source_matches.
    + rewrite IH. split.
      * intros (before & after & -> & Hm & Hb). exists (x :: before), after.
        split; [reflexivity|]. split; [exact Hm|].
        intros e [<-|He]; [|now apply Hb].
        intros H. apply is_source_matches in H. congruence.
      * intros ([|y before] & after & H & Hm & Hb); simpl in H.
        -- injection H as Hx _. subst el. apply is_source_matches in Hm.
           congruence.
        -- injection H as _ Hr. subst rest. exists before, after.
           split; [reflexivity|]. split; [exact Hm|].
           intros e He. apply Hb. now right.
Qed.

Lemma source_element_none (elements : list Ext.element) (t : Py.str) :
  Chunker.source_element elements t = None
  <-> forall e, In e elements -> ~ Chunker.matches t e.
Proof.
  unfold Chunker.source_element. split.
  - intros H e He Hm. apply is_source_matches in Hm.
    now rewrite (find_none _ _ H e He) in Hm.
  - intros H. destruct (find _ elements) as [e|] eqn:E; [|reflexivity].
    apply find_some in E as [He Hm]. apply is_source_matches in Hm.
    now destruct (H e He).
Qed.

(** The claim as the spec words it fails where no element matches: the
    document name that reaches the store is the string [unknown], not the
    empty string. *)
Lemma unknown_source_counterexample :
  Chunker.source_element [] (Py.lit "No element holds this statement.") = None
  /\ Py.get (Py.lit "document_name")
       (Index.sanitize
          (Index.metadata_raw
             (Chunker.enrich [] (Py.lit "No element holds this statement."))))
     = Py.JStr (Py.lit "unknown")
  /\ Py.get (Py.lit "document_name")
       (Index.sanitize
          (Index.metadata_raw
             (Chunker.enrich [] (Py.lit "No element holds this statement."))))
     <> Py.JStr [].
Proof. repeat split. vm_compute. discriminate. Qed.

(** C6, amended.  A proposition is attributed to the first element of the
    batch whose text contains the proposition text or is contained in it,
    and takes that element's file name and page number (with their
    [getattr] defaults).  When no element matches, its [document_name] is
    the string [unknown] and its [page_number] is null; the store then
    receives [unknown] and 0.  A null [document_name] or [page_number]
    reaches the store as the empty string or 0, so no stored value is
    null. *)
Theorem source_attribution :
  (forall elements t el,
      Chunker.source_element elements t = Some el
      <-> exists before after,
            elements = before ++ el :: after
            /\ Chunker.matches t el
            /\ forall e, In e before -> ~ Chunker.matches t e)
  /\ (forall elements t,
         Chunker.source_element elements t = None
         <-> forall e, In e elements -> ~ Chunker.matches t e)
  /\ (forall elements t el md,
         Chunker.source_element elements t = Some el ->
         Ext.metadata el = Some md ->
         Chunker.enrich elements t
         = [ (Py.lit "text", Py.JStr t);
             (Py.lit "document_name",
              match Ext.filename md with
              | Some v => v
              | None => Py.JStr (Py.lit "unknown")
              end);
             (Py.lit "page_number",
              match Ext.page_number md with
              | Some v => v
              | None => Py.JNull
              end) ])
  /\ (forall elements t,
         Chunker.source_element elements t = None ->
         Chunker.enrich elements t
         = [ (Py.lit "text", Py.JStr t);
             (Py.lit "document_name", Py.JStr (Py.lit "unknown"));
             (Py.lit "page_number", Py.JNull) ]
         /\ Index.sanitize (Index.metadata_raw (Chunker.enrich elements t))
            = [ (Py.lit "document_name", Py.JStr (Py.lit "unknown"));
                (Py.lit "page_number", Py.JInt 0);
                (Py.lit "text", Py.JStr t) ])
  /\ (forall chunk,
         (Py.get (Py.lit "document_name") chunk = Py.JNull ->
          Py.get (Py.lit "document_name") (Index.sanitize (Index.metadata_raw chunk))
          = Py.JStr [])
         /\ (Py.get (Py.lit "page_number") chunk = Py.JNull ->
             Py.get (Py.lit "page_number")
               (Index.sanitize (Index.metadata_raw chunk))
             = Py.JInt 0)
         /\ (forall key value,
                In (key, value) (Index.sanitize (Index.metadata_raw chunk)) ->
                value <> Py.JNull)).
Proof.
  split; [exact source_element_first|].
  split; [exact source_element_none|].
  split; [|split].
  - intros elements t el md Hs Hm. unfold Chunker.enrich. now rewrite Hs, Hm.
  - intros elements t Hs. unfold Chunker.enrich. rewrite Hs. now split.
  - intros chunk. rewrite IndexFacts.sanitize_metadata_raw. repeat split.
    + intros H.
      change (Index.clean_value (Py.lit "document_name")
                (Py.get (Py.lit "document_name") chunk) = Py.JStr []).
      now rewrite H.
    + intros H.
      change (Index.clean_value (Py.lit "page_number")
                (Py.get (Py.lit "page_number") chunk) = Py.JInt 0).
      now rewrite H.
    + intros key value [H|[H|[H|[]]]]; injection H as _ <-;
        apply IndexFacts.clean_value_not_null.
Qed.

Lemma source_attribution_witness :
  Chunker.enrich [] (Py.lit "No element holds this statement.")
  = [ (Py.lit "text", Py.JStr (Py.lit "No element holds this statement."));
      (Py.lit "document_name", Py.JStr (Py.lit "unknown"));
      (Py.lit "page_number", Py.JNull) ]
  /\ Index.sanitize
       (Index.metadata_raw
          (Chunker.enrich [] (Py.lit "No element holds this statement.")))
     = [ (Py.lit "document_name", Py.JStr (Py.lit "unknown"));
         (Py.lit "page_number", Py.JInt 0);
         (Py.lit "text", Py.JStr (Py.lit "No element holds this statement.")) ].
Proof.
  destruct source_attribution as (_ & _ & _ & H & _).
  apply (H [] (Py.lit "No element holds this statement.")). reflexivity.
Defined.

(** ** The [json] codec: what is written reads back *)

Module JsonFacts.
Import Py Json.

Local Open Scope N_scope.

Lemma skip_ws_spaces (n : nat) (s : str) :
  skip_ws (repeat 32 n ++ s) = skip_ws s.
Proof. induction n as [|n IH]; simpl; [reflexivity|exact IH]. Qed.

Lemma skip_ws_newline_indent (level : nat) (c : char) (s : str) :
  is_ws c = false -> skip_ws (newline_indent level ++ c :: s) = c :: s.
Proof.
  intros H. unfold newline_indent. cbn [app skip_ws is_ws N.eqb Pos.eqb orb].
  rewrite skip_ws_spaces. simpl. now rewrite H.
Qed.

Lemma below_32 (c : N) :
  c < 32 -> In c (map N.of_nat (seq 0 32)).
Proof.
  intros H. apply in_map_iff. exists (N.to_nat c).
  split; [apply N2Nat.id|]. apply in_seq. lia.
Qed.

(** One escaped character reads back as the character. *)
Lemma scanstring_escape_char (c : char) (s : str) :
  scanstring (escape_char c ++ s) = cons_char c (scanstring s).
Proof.
  unfold escape_char.
  destruct (N.eqb_spec c 92) as [->|H92]; [reflexivity|].
  destruct (N.eqb_spec c 34) as [->|H34]; [reflexivity|].
  destruct (N.eqb_spec c 8) as [->|H8]; [reflexivity|].
  destruct (N.eqb_spec c 12) as [->|H12]; [reflexivity|].
  destruct (N.eqb_spec c 10) as [->|H10]; [reflexivity|].
  destruct (N.eqb_spec c 13) as [->|H13]; [reflexivity|].
  destruct (N.eqb_spec c 9) as [->|H9]; [reflexivity|].
  destruct (N.ltb_spec c 32) as [Hlt|Hge].
  - apply below_32 in Hlt. cbn [seq map N.of_nat Pos.of_succ_nat Pos.succ] in Hlt.
    cbn [In] in Hlt.
    repeat (destruct Hlt as [<-|Hlt]; [reflexivity|]). contradiction.
  - cbn [app scanstring].
    destruct (N.eqb_spec c 34); [contradiction|].
    destruct (N.eqb_spec c 92); [contradiction|].
    destruct (N.ltb_spec c 32); [lia|]. reflexivity.
Qed.

(** A string literal reads back as the string. *)
Lemma scanstring_escaped (t s : str) :
  scanstring (flat_map escape_char t ++ 34 :: s) = Some (t, s).
Proof.
  induction t as [|c t IH]; [reflexivity|].
  cbn [flat_map]. rewrite <- app_assoc, scanstring_escape_char, IH.
  reflexivity.
Qed.

Lemma scan_digits_digits (d : Decimal.uint) (s : str) :
  match s with [] => True | c :: _ => digit_of c = None end ->
  scan_digits (digits d ++ s) = (d, s).
Proof.
  intros H. induction d; cbn [digits app scan_digits];
    try (change (digit_of _) with (Some Decimal.D0)
         || change (digit_of _) with (Some Decimal.D1)
         || change (digit_of _) with (Some Decimal.D2)
         || change (digit_of _) with (Some Decimal.D3)
         || change (digit_of _) with (Some Decimal.D4)
         || change (digit_of _) with (Some Decimal.D5)
         || change (digit_of _) with (Some Decimal.D6)
         || change (digit_of _) with (Some Decimal.D7)
         || change (digit_of _) with (Some Decimal.D8)
         || change (digit_of _) with (Some Decimal.D9));
    try (rewrite IHd; reflexivity).
  destruct s as [|c s]; [reflexivity|]. cbn [scan_digits]. now rewrite H.
Qed.

(** The decimal form of a positive number does not start with a zero. *)
Lemma to_uint_pos_head (p : positive) :
  match N.to_uint (Npos p) with
  | Decimal.Nil | Decimal.D0 _ => False
  | _ => True
  end.
Proof.
  pose proof (DecimalN.Unsigned.to_of (N.to_uint (Npos p))) as H.
  rewrite DecimalN.Unsigned.of_to in H.
  destruct (N.to_uint (Npos p)) as [|d| | | | | | | | |] eqn:E; trivial.
  - discriminate H.
  - rewrite DecimalFacts.unorm_D0 in H.
    destruct (Decimal.uint_eq_dec d Decimal.Nil) as [->|Hd].
    + pose proof (DecimalN.Unsigned.of_to (Npos p)) as Hof.
      rewrite E in Hof. discriminate.
    + pose proof (DecimalFacts.nb_digits_unorm d Hd) as Hn.
      rewrite <- H in Hn. simpl in Hn. lia.
Qed.

Lemma scan_number_digits (neg : bool) (d : Decimal.uint) (s : str) :
  match d with Decimal.Nil | Decimal.D0 _ => False | _ => True end ->
  scan_number ((if neg then [45] else []) ++ digits d ++ 10 :: s)
  = Some (JInt (if neg then Z.opp (Z.of_N (N.of_uint d))
                else Z.of_N (N.of_uint d)), 10 :: s).
Proof.
  intros Hd. remember (N.of_uint d) as n eqn:Hn.
  assert (Hs : scan_frac (10 :: s) = None) by (now destruct s).
  assert (He : scan_exp (10 :: s) = None) by reflexivity.
  destruct d as [|d|d|d|d|d|d|d|d|d|d]; try contradiction;
    unfold scan_number, scan_int_part; destruct neg;
    cbn [app digits N.eqb Pos.eqb digit_of];
    rewrite scan_digits_digits by reflexivity;
    rewrite Hs, He; subst n; reflexivity.
Qed.

Lemma scan_number_int (z : Z) (s : str) :
  scan_number (str_of_Z z ++ 10 :: s) = Some (JInt z, 10 :: s).
Proof.
  destruct z as [|p|p].
  - now destruct s.
  - pose proof (scan_number_digits false _ s (to_uint_pos_head p)) as H.
    cbn [app] in H. rewrite DecimalN.Unsigned.of_to in H. exact H.
  - pose proof (scan_number_digits true _ s (to_uint_pos_head p)) as H.
    cbn [app] in H. rewrite DecimalN.Unsigned.of_to in H. exact H.
Qed.

Lemma scan_once_string (f : nat) (t s : str) :
  scan_once (S f) (encode_basestring t ++ s) = Some (JStr t, s).
Proof.
  unfold encode_basestring. cbn [app]. rewrite <- app_assoc. cbn [app].
  cbn [scan_once N.eqb Pos.eqb]. now rewrite scanstring_escaped.
Qed.

Lemma scan_once_digits (f : nat) (neg : bool) (d : Decimal.uint) (s : str) :
  match d with Decimal.Nil | Decimal.D0 _ => False | _ => True end ->
  scan_once (S f) ((if neg then [45] else []) ++ digits d ++ s)
  = scan_number ((if neg then [45] else []) ++ digits d ++ s).
Proof.
  intros Hd.
  destruct d as [|d|d|d|d|d|d|d|d|d|d]; try contradiction;
    destruct neg; reflexivity.
Qed.

Lemma scan_once_int (f : nat) (z : Z) (s : str) :
  scan_once (S f) (str_of_Z z ++ 10 :: s) = Some (JInt z, 10 :: s).
Proof.
  rewrite <- scan_number_int. destruct z as [|p|p].
  - reflexivity.
  - exact (scan_once_digits f false _ (10 :: s) (to_uint_pos_head p)).
  - exact (scan_once_digits f true _ (10 :: s) (to_uint_pos_head p)).
Qed.

Lemma scan_once_null (f : nat) (s : str) :
  scan_once (S f) (lit "null" ++ s) = Some (JNull, s).
Proof. reflexivity. Qed.

(** The values a proposition holds in its [page_number]. *)
Lemma scan_once_page_number (f : nat) (level : nat) (v : json) (s : str) :
  v = JNull \/ (exists z, v = JInt z) ->
  scan_once (S f) (encode level v ++ 10 :: s) = Some (v, 10 :: s)
  /\ skip_ws (encode level v ++ 10 :: s) = encode level v ++ 10 :: s.
Proof.
  intros [->|[z ->]]; cbn [encode].
  - split; reflexivity.
  - split; [apply scan_once_int|].
    destruct z as [|p|p]; [reflexivity| |reflexivity].
    unfold str_of_Z, str_of_N. pose proof (to_uint_pos_head p) as H.
    destruct (N.to_uint (N.pos p)); try contradiction; reflexivity.
Qed.

Lemma skip_ws_string (lvl : nat) (key s : str) :
  skip_ws (newline_indent lvl ++ encode_basestring key ++ s)
  = encode_basestring key ++ s.
Proof.
  unfold encode_basestring. cbn [app]. now apply skip_ws_newline_indent.
Qed.

(** A member that is followed by another one. *)
Lemma scan_members_more (f : nat) (key V : str) (v : json) (lvl : nat)
    (next : str) (acc : dict) :
  skip_ws (V ++ 44 :: newline_indent lvl ++ next)
  = V ++ 44 :: newline_indent lvl ++ next ->
  scan_once f (V ++ 44 :: newline_indent lvl ++ next)
  = Some (v, 44 :: newline_indent lvl ++ next) ->
  scan_members (S f)
    (encode_basestring key ++ lit ": " ++ V ++ 44 :: newline_indent lvl ++ next)
    acc
  = scan_members f (skip_ws (newline_indent lvl ++ next)) (Py.set key v acc).
Proof.
  intros Hws Hv. unfold encode_basestring. cbn [app].
  rewrite <- app_assoc. cbn [app].
  cbn [scan_members N.eqb Pos.eqb]. rewrite scanstring_escaped.
  change (lit ": ") with [58; 32].
  cbn [app skip_ws is_ws N.eqb Pos.eqb orb]. rewrite Hws, Hv.
  reflexivity.
Qed.

(** The last member of an object. *)
Lemma scan_members_last (f : nat) (key V : str) (v : json) (lvl : nat)
    (s : str) (acc : dict) :
  skip_ws (V ++ newline_indent lvl ++ 125 :: s)
  = V ++ newline_indent lvl ++ 125 :: s ->
  scan_once f (V ++ newline_indent lvl ++ 125 :: s)
  = Some (v, newline_indent lvl ++ 125 :: s) ->
  scan_members (S f)
    (encode_basestring key ++ lit ": " ++ V ++ newline_indent lvl ++ 125 :: s)
    acc
  = Some (Py.set key v acc, s).
Proof.
  intros Hws Hv. unfold encode_basestring. cbn [app].
  rewrite <- app_assoc. cbn [app].
  cbn [scan_members N.eqb Pos.eqb]. rewrite scanstring_escaped.
  change (lit ": ") with [58; 32].
  cbn [app skip_ws is_ws N.eqb Pos.eqb orb]. rewrite Hws, Hv.
  rewrite skip_ws_newline_indent by reflexivity. reflexivity.
Qed.

Lemma encode_proposition (level : nat) (t d : str) (pn : json) (s : str) :
  encode level (JObj (proposition t d pn)) ++ s
  = 123 :: newline_indent (S level)
    ++ encode_basestring (lit "text") ++ lit ": " ++ encode_basestring t
    ++ 44 :: newline_indent (S level)
    ++ encode_basestring (lit "document_name") ++ lit ": "
    ++ encode_basestring d
    ++ 44 :: newline_indent (S level)
    ++ encode_basestring (lit "page_number") ++ lit ": "
    ++ encode (S level) pn ++ newline_indent level ++ 125 :: s.
Proof.
  unfold proposition. cbn [encode map join fst snd].
  change (ch "{") with 123. change (ch ",") with 44. change (ch "}") with 125.
  repeat (progress (cbn [app]; rewrite <- ?app_assoc)).
  reflexivity.
Qed.

Lemma scan_once_object (f : nat) (r s : str) :
  skip_ws r = s ->
  match s with c :: _ => c <> 125 | [] => False end ->
  scan_once (S f) (123 :: r)
  = match scan_members f s [] with
    | Some (d, rest) => Some (JObj d, rest)
    | None => None
    end.
Proof.
  intros <- H. cbn [scan_once N.eqb Pos.eqb].
  destruct (skip_ws r) as [|c r']; [contradiction|].
  destruct (N.eqb_spec c 125); [contradiction|reflexivity].
Qed.

(** An encoded proposition object reads back as the object. *)
Lemma scan_once_proposition (f level : nat) (p : dict) (s : str) :
  proposition_object p -> (4 <= f)%nat ->
  scan_once (S f) (encode level (JObj p) ++ s) = Some (JObj p, s).
Proof.
  intros (t & d & pn & -> & Hpn) Hf.
  destruct f as [|[|[|[|f]]]]; try lia.
  rewrite encode_proposition.
  rewrite (@scan_once_object (S (S (S (S f)))) _
             (encode_basestring (lit "text") ++ lit ": "
                   ++ encode_basestring t
                   ++ 44 :: newline_indent (S level)
                   ++ encode_basestring (lit "document_name") ++ lit ": "
                   ++ encode_basestring d
                   ++ 44 :: newline_indent (S level)
                   ++ encode_basestring (lit "page_number") ++ lit ": "
                   ++ encode (S level) pn ++ newline_indent level ++ 125 :: s)).
  2:{ apply skip_ws_string. }
  2:{ discriminate. }
  rewrite scan_members_more with (v := JStr t);
    [|reflexivity|apply scan_once_string].
  rewrite skip_ws_string.
  rewrite scan_members_more with (v := JStr d);
    [|reflexivity|apply scan_once_string].
  rewrite skip_ws_string.
  destruct (@scan_once_page_number f (S level) pn
              (repeat 32 (4 * level) ++ 125 :: s) Hpn) as [Hv Hws].
  rewrite scan_members_last with (v := pn); [reflexivity|exact Hws|exact Hv].
Qed.

Lemma encoded_proposition_head (level : nat) (p : dict) (s : str) :
  proposition_object p ->
  exists s', encode level (JObj p) ++ s = 123 :: s'.
Proof.
  intros (t & d & pn & -> & _). rewrite encode_proposition. eauto.
Qed.

Lemma joined_head (sep : str) (level : nat) (p : dict) (rest : list dict)
    (s : str) :
  proposition_object p ->
  exists s',
    join sep (map (encode level) (map JObj (p :: rest))) ++ s = 123 :: s'.
Proof.
  intros Hp. cbn [map join]. destruct (map (encode level) (map JObj rest)).
  - now apply encoded_proposition_head.
  - rewrite <- app_assoc. now apply encoded_proposition_head.
Qed.

Lemma scan_once_array (f : nat) (r s : str) :
  skip_ws r = s ->
  match s with c :: _ => c <> 93 | [] => False end ->
  scan_once (S f) (91 :: r)
  = match scan_elements f s [] with
    | Some (l, rest) => Some (JArr l, rest)
    | None => None
    end.
Proof.
  intros <- H. cbn [scan_once N.eqb Pos.eqb].
  destruct (skip_ws r) as [|c r']; [contradiction|].
  destruct (N.eqb_spec c 93); [contradiction|reflexivity].
Qed.

Lemma join_cons (sep x y : str) (parts : list str) :
  join sep (x :: y :: parts) = x ++ sep ++ join sep (y :: parts).
Proof. reflexivity. Qed.

Lemma scan_elements_eq (f : nat) (s : str) (acc : list json) :
  scan_elements (S f) s acc
  = match scan_once f s with
    | None => None
    | Some (v, r) =>
        match skip_ws r with
        | c :: r' =>
            if c =? 93 then Some (acc ++ [v], r')
            else if c =? 44 then scan_elements f (skip_ws r') (acc ++ [v])
            else None
        | [] => None
        end
    end.
Proof. reflexivity. Qed.

(** The encoded elements of a non-empty list of proposition objects read
    back as the objects. *)
Lemma scan_elements_propositions (props : list dict) :
  props <> [] -> Forall proposition_object props ->
  forall (acc : list json) (f : nat) (s : str),
    (List.length props + 5 <= f)%nat ->
    scan_elements f
      (join (44 :: newline_indent 1) (map (encode 1) (map JObj props))
       ++ newline_indent 0 ++ 93 :: s) acc
    = Some (acc ++ map JObj props, s).
Proof.
  induction props as [|p rest IH]; [congruence|].
  intros _ Hall acc f s Hf. inversion Hall as [|? ? Hp Hrest]; subst.
  destruct f as [|[|f]]; cbn [List.length] in Hf; try lia.
  destruct rest as [|q rest].
  - cbn [map join]. rewrite scan_elements_eq.
    rewrite scan_once_proposition by (trivial; lia).
    rewrite skip_ws_newline_indent by reflexivity. reflexivity.
  - cbn [map]. cbn [map] in IH. rewrite join_cons, <- !app_assoc.
    cbn [app]. rewrite scan_elements_eq.
    rewrite scan_once_proposition by (trivial; lia).
    cbn [skip_ws is_ws N.eqb Pos.eqb orb].
    inversion Hrest as [|? ? Hq _]; subst.
    destruct (@joined_head (44 :: newline_indent 1) 1 q rest
                (newline_indent 0 ++ 93 :: s) Hq) as [s' Hs'].
    cbn [map] in Hs'.
    assert (Hskip :
              skip_ws (newline_indent 1
                       ++ join (44 :: newline_indent 1)
                            (encode 1 (JObj q)
                             :: map (encode 1) (map JObj rest))
                       ++ newline_indent 0 ++ 93 :: s)
              = join (44 :: newline_indent 1)
                  (encode 1 (JObj q) :: map (encode 1) (map JObj rest))
                ++ newline_indent 0 ++ 93 :: s).
    { rewrite Hs'. now apply skip_ws_newline_indent. }
    rewrite Hskip.
    rewrite IH; [|discriminate|exact Hrest|cbn [List.length] in *; lia].
    now rewrite <- app_assoc.
Qed.

Lemma joined_length (sep : str) (parts : list str) :
  Forall (fun x => (1 <= List.length x)%nat) parts ->
  (List.length parts <= List.length (join sep parts))%nat.
Proof.
  induction 1 as [|x parts Hx Hparts IH]; [reflexivity|].
  cbn [join]. destruct parts as [|y parts]; cbn [List.length] in *; [lia|].
  rewrite !length_app. lia.
Qed.

Lemma loads_array (s : str) :
  loads (91 :: s)
  = match scan_once (S (List.length (91 :: s))) (91 :: s) with
    | Some (v, rest) =>
        match skip_ws rest with [] => Some v | _ :: _ => None end
    | None => None
    end.
Proof. reflexivity. Qed.

(** What [json.dump] writes for a list of proposition objects,
    [json.load] reads back as that list. *)
Lemma loads_dumps (props : list dict) :
  Forall proposition_object props ->
  loads (dumps (JArr (map JObj props))) = Some (JArr (map JObj props)).
Proof.
  intros Hall. destruct props as [|p rest]; [reflexivity|].
  unfold dumps.
  change (encode 0 (JArr (map JObj (p :: rest))))
    with (91 :: newline_indent 1
          ++ join (44 :: newline_indent 1)
               (map (encode 1) (map JObj (p :: rest)))
          ++ newline_indent 0 ++ [93]).
  rewrite loads_array.
  inversion Hall as [|? ? Hp Hrest]; subst.
  destruct (@joined_head (44 :: newline_indent 1) 1 p rest
              (newline_indent 0 ++ [93]) Hp) as [s' Hs'].
  rewrite (@scan_once_array _ _
             (join (44 :: newline_indent 1)
                (map (encode 1) (map JObj (p :: rest)))
              ++ newline_indent 0 ++ [93])).
  2:{ rewrite Hs'. now apply skip_ws_newline_indent. }
  2:{ rewrite Hs'. discriminate. }
  rewrite scan_elements_propositions; [reflexivity|discriminate|exact Hall|].
  cbn [List.length]. rewrite !length_app.
  assert (Hj : (List.length (map (encode 1) (map JObj (p :: rest)))
                <= List.length
                     (join (44%N :: newline_indent 1)
                        (map (encode 1) (map JObj (p :: rest)))))%nat).
  { apply joined_length. rewrite map_map. apply Forall_map.
    eapply Forall_impl; [|exact Hall]. intros q Hq.
    destruct (@encoded_proposition_head 1 q [] Hq) as [x Hx].
    rewrite app_nil_r in Hx. rewrite Hx. cbn [List.length]. lia. }
  rewrite !length_map in Hj. cbn [List.length] in Hj |- *.
  unfold newline_indent in Hj |- *. cbn [List.length]. rewrite ?repeat_length.
  match goal with
  | |- context [List.length (join ?a ?b)] =>
      change (List.length (join a b)) with (@List.length N (join a b)) in Hj |- *;
      generalize dependent (@List.length N (join a b))
  end.
  intros n Hn. unfold dict in *. lia.
Qed.

End JsonFacts.

(** ** What the UTF-8 file accepts *)

Module EncodeFacts.
Import Py Json.

Local Open Scope N_scope.

Lemma encodable_app (a b : str) :
  utf8_encodable (a ++ b) = utf8_encodable a && utf8_encodable b.
Proof. apply forallb_app. Qed.

Lemma encodable_cons (c : char) (s : str) :
  utf8_encodable (c :: s)
  = negb ((55296 <=? c) && (c <=? 57343)) && utf8_encodable s.
Proof. reflexivity. Qed.

Lemma encodable_escape_char (c : char) :
  negb ((55296 <=? c) && (c <=? 57343)) = true ->
  utf8_encodable (escape_char c) = true.
Proof.
  intros Hc. unfold escape_char.
  destruct (c =? 92); [reflexivity|].
  destruct (c =? 34); [reflexivity|].
  destruct (c =? 8); [reflexivity|].
  destruct (c =? 12); [reflexivity|].
  destruct (c =? 10); [reflexivity|].
  destruct (c =? 13); [reflexivity|].
  destruct (c =? 9); [reflexivity|].
  destruct (N.ltb_spec c 32) as [Hlt|_].
  - apply JsonFacts.below_32 in Hlt.
    cbn [seq map N.of_nat Pos.of_succ_nat Pos.succ In] in Hlt.
    repeat (destruct Hlt as [<-|Hlt]; [reflexivity|]). contradiction.
  - rewrite encodable_cons, Hc. reflexivity.
Qed.

Lemma encodable_escaped (t : str) :
  utf8_encodable t = true -> utf8_encodable (flat_map escape_char t) = true.
Proof.
  induction t as [|c t IH]; [reflexivity|].
  rewrite encodable_cons. intros H. apply andb_true_iff in H as [Hc Ht].
  cbn [flat_map]. rewrite encodable_app, encodable_escape_char, IH; trivial.
Qed.

Lemma encodable_basestring (t : str) :
  utf8_encodable t = true -> utf8_encodable (encode_basestring t) = true.
Proof.
  intros H. unfold encode_basestring.
  rewrite encodable_cons, encodable_app, encodable_escaped by exact H.
  reflexivity.
Qed.

Lemma encodable_digits (d : Decimal.uint) : utf8_encodable (digits d) = true.
Proof.
  induction d; cbn [digits]; try reflexivity;
    rewrite encodable_cons, IHd; reflexivity.
Qed.

Lemma encodable_str_of_Z (z : Z) : utf8_encodable (str_of_Z z) = true.
Proof.
  destruct z as [|p|p]; unfold str_of_Z, str_of_N.
  - apply encodable_digits.
  - apply encodable_digits.
  - change (ch "-") with 45.
    rewrite encodable_cons, encodable_digits. reflexivity.
Qed.

Lemma encodable_newline_indent (level : nat) :
  utf8_encodable (newline_indent level) = true.
Proof.
  unfold newline_indent. rewrite encodable_cons.
  induction (4 * level)%nat as [|n IH]; [reflexivity|].
  cbn [repeat]. rewrite encodable_cons. exact IH.
Qed.

Lemma encodable_proposition (level : nat) (p : dict) :
  proposition_object p -> encodable_strings p ->
  utf8_encodable (encode level (JObj p)) = true.
Proof.
  intros (t & d & pn & -> & Hpn) Hs.
  assert (Ht : utf8_encodable t = true).
  { apply (Hs (lit "text")). now left. }
  assert (Hd : utf8_encodable d = true).
  { apply (Hs (lit "document_name")). right. now left. }
  assert (Hv : utf8_encodable (encode (S level) pn) = true).
  { destruct Hpn as [->|[z ->]]; [reflexivity|apply encodable_str_of_Z]. }
  rewrite <- (app_nil_r (encode level _)), JsonFacts.encode_proposition.
  repeat (rewrite ?encodable_cons, ?encodable_app).
  rewrite !encodable_newline_indent, Hv.
  rewrite !encodable_basestring by (trivial; reflexivity).
  reflexivity.
Qed.

Lemma encodable_join (sep : str) (parts : list str) :
  utf8_encodable sep = true ->
  Forall (fun x => utf8_encodable x = true) parts ->
  utf8_encodable (join sep parts) = true.
Proof.
  intros Hsep. induction 1 as [|x parts Hx Hparts IH]; [reflexivity|].
  destruct parts as [|y parts]; [exact Hx|].
  rewrite JsonFacts.join_cons, !encodable_app, Hx, Hsep, IH. reflexivity.
Qed.

(** The text of a list of proposition objects can be written when none
    of their strings holds a surrogate. *)
Lemma encodable_dumps (props : list dict) :
  Forall proposition_object props -> Forall encodable_strings props ->
  utf8_encodable (dumps (JArr (map JObj props))) = true.
Proof.
  intros Hall Henc. destruct props as [|p rest]; [reflexivity|].
  unfold dumps.
  change (encode 0 (JArr (map JObj (p :: rest))))
    with (91 :: newline_indent 1
          ++ join (44 :: newline_indent 1)
               (map (encode 1) (map JObj (p :: rest)))
          ++ newline_indent 0 ++ [93]).
  rewrite encodable_cons, !encodable_app, !encodable_newline_indent.
  rewrite encodable_join; [reflexivity| |].
  - rewrite encodable_cons, encodable_newline_indent. reflexivity.
  - rewrite map_map. apply Forall_map.
    apply Forall_forall. intros q Hq.
    rewrite Forall_forall in Hall, Henc.
    apply encodable_proposition; auto.
Qed.

End EncodeFacts.

(** The round trip fails on a string that holds a lone surrogate, which
    the model server can send as the escape [\ud800]: the UTF-8 file
    refuses it, the write raises, and no complete text is left to read. *)
Lemma surrogate_text_counterexample :
  Py.proposition_object
    (Py.proposition [55296%N] (Py.lit "order.pdf") (Py.JInt 2))
  /\ Json.dump
       (Py.JArr
          [Py.JObj (Py.proposition [55296%N] (Py.lit "order.pdf") (Py.JInt 2))])
     = None.
Proof.
  split; [|reflexivity].
  exists [55296%N], (Py.lit "order.pdf"), (Py.JInt 2).
  split; [reflexivity|]. right. now exists 2%Z.
Qed.

(** C4, amended.  For every list of proposition objects none of whose
    strings holds a surrogate code point, the ingester's [json.dump]
    writes a text, and the indexer's [json.load] of that text gives back
    the same list. *)
Theorem propositions_round_trip :
  forall props : list Py.dict,
    Forall Py.proposition_object props ->
    Forall Json.encodable_strings props ->
    exists content,
      Json.dump (Py.JArr (map Py.JObj props)) = Some content
      /\ Json.loads content = Some (Py.JArr (map Py.JObj props)).
Proof.
  intros props Hall Henc. exists (Json.dumps (Py.JArr (map Py.JObj props))).
  split.
  - unfold Json.dump. now rewrite EncodeFacts.encodable_dumps.
  - now apply JsonFacts.loads_dumps.
Qed.

Lemma propositions_round_trip_witness :
  exists content,
    Json.dump
      (Py.JArr
         (map Py.JObj
            [Py.proposition (Py.lit "Costs were awarded.") (Py.lit "order.pdf")
               (Py.JInt 2);
             Py.proposition (Py.lit "The appeal was dismissed.")
               (Py.lit "unknown") Py.JNull]))
    = Some content
    /\ Json.loads content
       = Some
           (Py.JArr
              (map Py.JObj
                 [Py.proposition (Py.lit "Costs were awarded.")
                    (Py.lit "order.pdf") (Py.JInt 2);
                  Py.proposition (Py.lit "The appeal was dismissed.")
                    (Py.lit "unknown") Py.JNull])).
Proof.
  apply propositions_round_trip.
  - repeat constructor.
    + exists (Py.lit "Costs were awarded."), (Py.lit "order.pdf"), (Py.JInt 2).
      split; [reflexivity|]. right. now exists 2%Z.
    + exists (Py.lit "The appeal was dismissed."), (Py.lit "unknown"), Py.JNull.
      split; [reflexivity|]. now left.
  - repeat constructor; intros key s H; cbn [Py.proposition In] in H;
      destruct H as [H|[H|[H|[]]]]; try discriminate;
      injection H as _ <-; reflexivity.
Defined.

(** ** The fuel of the decoder *)

Module FuelFacts.
Import Py Json.

Local Open Scope N_scope.

Lemma skip_ws_length (s : str) : (List.length (skip_ws s) <= List.length s)%nat.
Proof.
  induction s as [|c s IH]; simpl; [lia|].
  destruct (is_ws c); simpl; lia.
Qed.

Lemma skip_ws_cons (s : str) (c : char) (r : str) :
  skip_ws s = c :: r -> (List.length r < List.length s)%nat.
Proof.
  intros H. pose proof (skip_ws_length s) as Hl. rewrite H in Hl.
  simpl in Hl. lia.
Qed.

Lemma cons_char_some (c : char) (x : option (str * str)) (t r : str) :
  cons_char c x = Some (t, r) -> exists t', x = Some (t', r).
Proof.
  destruct x as [[t' r']|]; simpl; [|discriminate].
  intros H. injection H as _ <-. eauto.
Qed.

Ltac lengths := cbn [List.length] in *; unfold dict, str, char in *; lia.

Lemma scanstring_consumes (n : nat) :
  forall s t r,
    (List.length s <= n)%nat -> scanstring s = Some (t, r) ->
    (List.length r < List.length s)%nat.
Proof.
  induction n as [|n IH]; intros s t r Hn H.
  - destruct s; [discriminate|cbn [List.length] in Hn; lia].
  - destruct s as [|c s]; [discriminate|]. cbn [scanstring] in H.
    cbn [List.length] in Hn.
    assert (Hrec : forall c' s', (List.length s' <= n)%nat ->
                     cons_char c' (scanstring s') = Some (t, r) ->
                     (List.length r < List.length s')%nat).
    { intros c' s' Hs' Hc. apply cons_char_some in Hc as [t' Hc].
      now apply IH in Hc. }
    destruct (c =? 34); [injection H as _ <-; lengths|].
    destruct (c =? 92).
    + destruct s as [|e r1]; [discriminate|]. cbn [List.length] in Hn |- *.
      destruct (e =? 117).
      * destruct r1 as [|a [|b [|c2 [|d r2]]]]; try discriminate.
        cbn [List.length] in Hn |- *.
        destruct (hex4 a b c2 d) as [u|]; [|discriminate].
        assert (Hplain : cons_char u (scanstring r2) = Some (t, r) ->
                         (List.length r < S (S (S (S (S (S (List.length r2)))))))%nat).
        { intros Hc. apply Hrec in Hc; lengths. }
        destruct ((55296 <=? u) && (u <=? 56319)); [|exact (Hplain H)].
        destruct r2 as [|bs [|uu [|a' [|b' [|c' [|d' r3]]]]]];
          try exact (Hplain H).
        destruct ((bs =? 92) && (uu =? 117)); [|exact (Hplain H)].
        destruct (hex4 a' b' c' d') as [u2|]; [|discriminate].
        destruct ((56320 <=? u2) && (u2 <=? 57343)); [|exact (Hplain H)].
        apply Hrec in H; lengths.
      * repeat (match type of H with
                | (if ?b then _ else _) = _ => destruct b
                end; [apply Hrec in H; lengths|]).
        discriminate.
    + destruct (c <? 32); [discriminate|]. apply Hrec in H; lengths.
Qed.

Lemma scanstring_shorter (s t r : str) :
  scanstring s = Some (t, r) -> (List.length r < List.length s)%nat.
Proof.
  intros H. eapply scanstring_consumes; [apply le_n|exact H].
Qed.

Lemma scan_digits_length (s : str) :
  (List.length (snd (scan_digits s)) <= List.length s)%nat.
Proof.
  induction s as [|c s IH]; simpl; [lia|].
  destruct (digit_of c); [|simpl; lia].
  destruct (scan_digits s). simpl in *. lia.
Qed.

Lemma scan_number_consumes (s : str) (v : json) (r : str) :
  scan_number s = Some (v, r) -> (List.length r < List.length s)%nat.
Proof.
  unfold scan_number.
  assert (Hint : forall s1 d r1, scan_int_part s1 = Some (d, r1) ->
                                 (List.length r1 < List.length s1)%nat).
  { intros s1 d r1 H. unfold scan_int_part in H.
    destruct s1 as [|c s1]; [discriminate|].
    destruct (c =? 48); [injection H as _ <-; simpl; lia|].
    destruct (digit_of c); [|discriminate].
    pose proof (scan_digits_length s1) as Hl.
    destruct (scan_digits s1). injection H as _ <-. simpl in *. lia. }
  assert (Hfrac : forall s1 f r1, scan_frac s1 = Some (f, r1) ->
                                  (List.length r1 <= List.length s1)%nat).
  { intros s1 f r1 H. unfold scan_frac in H.
    destruct s1 as [|dot [|c s1]]; try discriminate.
    destruct ((dot =? 46) && is_digit c); [|discriminate].
    pose proof (scan_digits_length (tl (dot :: c :: s1))) as Hl.
    destruct (scan_digits (tl (dot :: c :: s1))). injection H as _ <-.
    simpl in *. lia. }
  assert (Hexp : forall s1 e r1, scan_exp s1 = Some (e, r1) ->
                                 (List.length r1 <= List.length s1)%nat).
  { intros s1 e r1 H. unfold scan_exp in H.
    destruct s1 as [|c s1]; [discriminate|].
    destruct ((c =? 101) || (c =? 69)); [|discriminate].
    destruct s1 as [|sg s1].
    - simpl in H. discriminate.
    - destruct ((sg =? 45) || (sg =? 43)).
      + pose proof (scan_digits_length s1) as Hl.
        destruct (scan_digits s1) as [d r2]. destruct d; try discriminate;
          injection H as _ <-; simpl in *; lia.
      + pose proof (scan_digits_length (sg :: s1)) as Hl.
        destruct (scan_digits (sg :: s1)) as [d r2]. destruct d;
          try discriminate; injection H as _ <-; simpl in *; lia. }
  intros H.
  assert (Hbody : forall s1,
             (List.length s1 <= List.length s)%nat ->
             forall d r1, scan_int_part s1 = Some (d, r1) ->
             forall r2, (r2 = r1 \/ exists f, scan_frac r1 = Some (f, r2)) ->
             forall r3, (r3 = r2 \/ exists e, scan_exp r2 = Some (e, r3)) ->
             (List.length r3 < List.length s)%nat).
  { intros s1 Hs1 d r1 Hi r2 Hf r3 He. apply Hint in Hi.
    assert (List.length r2 <= List.length r1)%nat
      by (destruct Hf as [->|[f Hf]]; [lia|now apply Hfrac in Hf]).
    assert (List.length r3 <= List.length r2)%nat
      by (destruct He as [->|[e He]]; [lia|now apply Hexp in He]).
    lia. }
  assert (Hrun : forall (neg : bool) (s1 : str),
             (List.length s1 <= List.length s)%nat ->
             match scan_int_part s1 with
             | None => None
             | Some (d, r0) =>
                 let sign : str := if neg then [45] else [] in
                 let (frac, r1) :=
                   match scan_frac r0 with
                   | Some (f, r') => (Some f, r')
                   | None => (None, r0)
                   end in
                 let (exp, r2) :=
                   match scan_exp r1 with
                   | Some (e, r') => (Some e, r')
                   | None => (None, r1)
                   end in
                 match frac, exp with
                 | None, None =>
                     let n := Z.of_N (N.of_uint d) in
                     Some (JInt (if neg then Z.opp n else n), r2)
                 | _, _ =>
                     Some (JFloat (sign ++ digits d
                                   ++ match frac with Some f => f | None => [] end
                                   ++ match exp with Some e => e | None => [] end),
                           r2)
                 end
             end = Some (v, r) ->
             (List.length r < List.length s)%nat).
  { intros neg s1 Hs1 Hr.
    destruct (scan_int_part s1) as [[d r1]|] eqn:Ei; [|discriminate].
    destruct (scan_frac r1) as [[f r2]|] eqn:Ef;
      [destruct (scan_exp r2) as [[e r3]|] eqn:Ee
      |destruct (scan_exp r1) as [[e r3]|] eqn:Ee];
      cbv zeta in Hr; injection Hr as _ <-;
      eapply (Hbody s1 Hs1 d r1 Ei); eauto. }
  destruct s as [|c r0]; [now apply (Hrun false [])|].
  destruct (c =? 45).
  - apply (Hrun true r0); [cbn [List.length]; lia|exact H].
  - apply (Hrun false (c :: r0)); [lia|exact H].
Qed.

Lemma literal_consumes (word : string) (v v' : json) (s r : str) :
  (1 <= List.length (lit word))%nat ->
  literal word v s = Some (v', r) -> (List.length r < List.length s)%nat.
Proof.
  intros Hw H. unfold literal in H.
  destruct (Re.strip_prefix (lit word) s) as [rest|] eqn:E; [|discriminate].
  injection H as _ <-. apply ReFacts.strip_prefix_spec in E. subst s.
  rewrite length_app. lia.
Qed.

(** Whatever the fuel, a value that is read takes at least one character. *)
Lemma scan_consumes (f : nat) :
  (forall s v r, scan_once f s = Some (v, r) ->
                 (List.length r < List.length s)%nat)
  /\ (forall s acc d r, scan_members f s acc = Some (d, r) ->
                        (List.length r < List.length s)%nat)
  /\ (forall s acc l r, scan_elements f s acc = Some (l, r) ->
                        (List.length r < List.length s)%nat).
Proof.
  induction f as [|f (IHo & IHm & IHe)]; [repeat split; discriminate|].
  split; [|split].
  - intros s v r H. destruct s as [|c s]; [discriminate|].
    cbn [scan_once] in H.
    destruct (c =? 34).
    { destruct (scanstring s) as [[t rest]|] eqn:E; [|discriminate].
      injection H as _ <-. apply scanstring_shorter in E. lengths. }
    destruct (c =? 123).
    { destruct (skip_ws s) as [|c' r'] eqn:E; [discriminate|].
      apply skip_ws_cons in E. destruct (c' =? 125).
      - injection H as _ <-. lengths.
      - destruct (scan_members f (c' :: r') []) as [[d rest]|] eqn:Em;
          [|discriminate].
        injection H as _ <-. apply IHm in Em. lengths. }
    destruct (c =? 91).
    { destruct (skip_ws s) as [|c' r'] eqn:E; [discriminate|].
      apply skip_ws_cons in E. destruct (c' =? 93).
      - injection H as _ <-. lengths.
      - destruct (scan_elements f (c' :: r') []) as [[l rest]|] eqn:Ee;
          [|discriminate].
        injection H as _ <-. apply IHe in Ee. lengths. }
    destruct (c =? 110);
      [apply literal_consumes in H; [exact H|cbn; lia]|].
    destruct (c =? 116);
      [apply literal_consumes in H; [exact H|cbn; lia]|].
    destruct (c =? 102);
      [apply literal_consumes in H; [exact H|cbn; lia]|].
    destruct (c =? 78);
      [apply literal_consumes in H; [exact H|cbn; lia]|].
    destruct (c =? 73);
      [apply literal_consumes in H; [exact H|cbn; lia]|].
    destruct (literal "-Infinity" _ (c :: s)) as [[v' r']|] eqn:El.
    + injection H as _ <-. apply literal_consumes in El; [exact El|cbn; lia].
    + now apply scan_number_consumes in H.
  - intros s acc d r H. destruct s as [|q s]; [discriminate|].
    cbn [scan_members] in H.
    destruct (q =? 34); [|discriminate].
    destruct (scanstring s) as [[key r1]|] eqn:E1; [|discriminate].
    apply scanstring_shorter in E1.
    destruct (skip_ws r1) as [|colon r2] eqn:E2; [discriminate|].
    apply skip_ws_cons in E2.
    destruct (colon =? 58); [|discriminate].
    pose proof (skip_ws_length r2) as E3.
    destruct (scan_once f (skip_ws r2)) as [[v r3]|] eqn:E4; [|discriminate].
    apply IHo in E4.
    destruct (skip_ws r3) as [|c r4] eqn:E5; [discriminate|].
    apply skip_ws_cons in E5.
    destruct (c =? 125); [injection H as _ <-; lengths|].
    destruct (c =? 44); [|discriminate].
    pose proof (skip_ws_length r4) as E6. apply IHm in H. lengths.
  - intros s acc l r H. cbn [scan_elements] in H.
    destruct (scan_once f s) as [[v r1]|] eqn:E1; [|discriminate].
    apply IHo in E1.
    destruct (skip_ws r1) as [|c r2] eqn:E2; [discriminate|].
    apply skip_ws_cons in E2.
    destruct (c =? 93); [injection H as _ <-; lengths|].
    destruct (c =? 44); [|discriminate].
    pose proof (skip_ws_length r2) as E3. apply IHe in H. lengths.
Qed.

(** A value that is read with some fuel is read, the same, with any fuel
    that is at least the number of characters it takes. *)
Lemma scan_stable (f : nat) :
  (forall s v r g,
      scan_once f s = Some (v, r) ->
      (List.length s - List.length r <= g)%nat ->
      scan_once g s = Some (v, r))
  /\ (forall s acc d r g,
         scan_members f s acc = Some (d, r) ->
         (List.length s - List.length r <= g)%nat ->
         scan_members g s acc = Some (d, r))
  /\ (forall s acc l r g,
         scan_elements f s acc = Some (l, r) ->
         (List.length s - List.length r <= g)%nat ->
         scan_elements g s acc = Some (l, r)).
Proof.
  induction f as [|f (IHo & IHm & IHe)]; [repeat split; discriminate|].
  destruct (scan_consumes f) as (Co & Cm & Ce).
  destruct (scan_consumes (S f)) as (Co' & Cm' & Ce').
  split; [|split].
  - intros s v r g H Hg. pose proof (Co' _ _ _ H) as Hlt.
    destruct g as [|g]; [lengths|].
    destruct s as [|c s]; [discriminate|].
    cbn [scan_once] in H |- *.
    destruct (c =? 34); [exact H|].
    destruct (c =? 123).
    { pose proof (skip_ws_length s) as Hs.
      destruct (skip_ws s) as [|c' r']; [discriminate|].
      destruct (c' =? 125); [exact H|].
      destruct (scan_members f (c' :: r') []) as [[d rest]|] eqn:Em;
        [|discriminate].
      injection H as <- <-. rewrite (IHm _ _ _ _ g Em); [reflexivity|].
      lengths. }
    destruct (c =? 91).
    { pose proof (skip_ws_length s) as Hs.
      destruct (skip_ws s) as [|c' r']; [discriminate|].
      destruct (c' =? 93); [exact H|].
      destruct (scan_elements f (c' :: r') []) as [[l rest]|] eqn:Ee;
        [|discriminate].
      injection H as <- <-. rewrite (IHe _ _ _ _ g Ee); [reflexivity|].
      lengths. }
    exact H.
  - intros s acc d r g H Hg. pose proof (Cm' _ _ _ _ H) as Hlt.
    destruct g as [|g]; [lengths|].
    destruct s as [|q s]; [discriminate|].
    cbn [scan_members] in H |- *.
    destruct (q =? 34); [|discriminate].
    destruct (scanstring s) as [[key r1]|] eqn:E1; [|discriminate].
    apply scanstring_shorter in E1.
    pose proof (skip_ws_length r1) as E2.
    destruct (skip_ws r1) as [|colon r2]; [discriminate|].
    destruct (colon =? 58); [|discriminate].
    pose proof (skip_ws_length r2) as E3.
    destruct (scan_once f (skip_ws r2)) as [[v r3]|] eqn:E4; [|discriminate].
    pose proof (Co _ _ _ E4) as L4.
    pose proof (skip_ws_length r3) as E5.
    destruct (skip_ws r3) as [|c r4] eqn:E6; [discriminate|].
    assert (Hv : scan_once g (skip_ws r2) = Some (v, r3)).
    { apply (IHo _ _ _ g E4).
      destruct (c =? 125); [injection H as _ <-; lengths|].
      destruct (c =? 44); [|discriminate].
      pose proof (skip_ws_length r4). apply Cm in H. lengths. }
    rewrite Hv, E6.
    destruct (c =? 125); [exact H|].
    destruct (c =? 44); [|discriminate].
    pose proof (skip_ws_length r4) as E7. pose proof (Cm _ _ _ _ H) as L7.
    apply (IHm _ _ _ _ g H). lengths.
  - intros s acc l r g H Hg. pose proof (Ce' _ _ _ _ H) as Hlt.
    destruct g as [|g]; [lengths|].
    cbn [scan_elements] in H |- *.
    destruct (scan_once f s) as [[v r1]|] eqn:E1; [|discriminate].
    pose proof (Co _ _ _ E1) as L1.
    pose proof (skip_ws_length r1) as E2.
    destruct (skip_ws r1) as [|c r2] eqn:E3; [discriminate|].
    assert (Hv : scan_once g s = Some (v, r1)).
    { apply (IHo _ _ _ g E1).
      destruct (c =? 93); [injection H as _ <-; lengths|].
      destruct (c =? 44); [|discriminate].
      pose proof (skip_ws_length r2). apply Ce in H. lengths. }
    rewrite Hv, E3.
    destruct (c =? 93); [exact H|].
    destruct (c =? 44); [|discriminate].
    pose proof (skip_ws_length r2) as E4. pose proof (Ce _ _ _ _ H) as L4.
    apply (IHe _ _ _ _ g H). lengths.
Qed.

(** The fuel [loads] gives is enough: what any amount of fuel reads, one
    more than the length of the text reads as well, so [None] is always an
    error in the text and never a lack of fuel. *)
Theorem loads_fuel_suffices (s : str) (f : nat) (v : json) (rest : str) :
  scan_once f (skip_ws s) = Some (v, rest) ->
  scan_once (S (List.length s)) (skip_ws s) = Some (v, rest).
Proof.
  intros H. destruct (scan_stable f) as (Ho & _).
  apply (Ho _ _ _ _ H). pose proof (skip_ws_length s). lengths.
Qed.

End FuelFacts.

(** ** More on the indexer (index.py) *)

Module IndexRunFacts.
Import Py Index IndexRun.

Lemma as_dicts_spec (items : list json) (ds : list dict) :
  as_dicts items = Some ds <-> items = map JObj ds.
Proof.
  revert ds. induction items as [|v items IH]; intros ds; simpl.
  - split.
    + intros H. injection H as <-. reflexivity.
    + destruct ds; [reflexivity|discriminate].
  - destruct v; try (split; [discriminate|destruct ds; discriminate]).
    destruct (as_dicts items) as [ds'|].
    + split.
      * intros H. injection H as <-. simpl. f_equal. now apply IH.
      * destruct ds as [|d ds]; [discriminate|]. simpl. intros H.
        injection H as -> H. apply IH in H. now injection H as ->.
    + split; [discriminate|]. destruct ds as [|d ds]; [discriminate|].
      simpl. intros H. injection H as _ H. apply IH in H. discriminate.
Qed.

Lemma clean_none (chunks : json) :
  clean chunks = None <-> forall ds, chunks <> JArr (map JObj ds).
Proof.
  unfold clean. split.
  - intros H ds ->. rewrite (proj2 (as_dicts_spec _ ds) eq_refl) in H.
    discriminate.
  - intros H. destruct chunks; try reflexivity.
    destruct (as_dicts items) as [ds|] eqn:E; [|reflexivity].
    apply as_dicts_spec in E. now destruct (H ds); f_equal.
Qed.

Lemma clean_dicts (ds : list dict) :
  clean (JArr (map JObj ds))
  = Some (filter (fun chunk => negb (is_junk (get (lit "text") chunk))) ds).
Proof.
  unfold clean. now rewrite (proj2 (as_dicts_spec _ ds) eq_refl).
Qed.

Lemma processing_app (a b : list message) :
  processing (a ++ b) = processing a ++ processing b.
Proof. apply flat_map_app. Qed.

Section Run.

Variable Embedding : Type.
Variable Collection : Type.
Variable encode : list json -> option (list Embedding).
Variable add : Collection -> list str -> list Embedding -> list dict
               -> option Collection.

Let index_batch := index_batch encode add.
Let index_file := index_file encode add.
Let index_files := index_files encode add.

(** What the batch loop leaves alone. *)
Lemma fold_keeps (file_name : str) (cleaned : list dict) (starts : list nat)
    (st : state Collection) :
  let st' := fold_left (index_batch file_name cleaned) starts st in
  skipped_files_count st' = skipped_files_count st
  /\ processing (console st') = processing (console st).
Proof.
  revert st. induction starts as [|i starts IH]; intros st; simpl; [tauto|].
  destruct (IH (index_batch file_name cleaned st i)) as [-> ->].
  unfold index_batch, Index.index_batch. cbn [collection print].
  destruct (try_add _ _ _ _); cbn [skipped_files_count console print];
    rewrite !processing_app; simpl; rewrite !app_nil_r; tauto.
Qed.

Lemma index_file_raises (st : state Collection) (file_name : str) (f : file) :
  (exists st', index_file st (file_name, f) = Raised _ st') <-> stops f.
Proof.
  unfold index_file, Index.index_file, stops. split.
  - intros [st' H]. destruct f as [|content]; [discriminate|].
    destruct (Json.loads content) as [chunks|] eqn:Hl; [|discriminate].
    exists content, chunks. split; [reflexivity|]. split; [exact Hl|].
    destruct (truthy chunks) eqn:Ht; [|discriminate]. split; [reflexivity|].
    apply clean_none. cbn [negb] in H.
    destruct chunks; try reflexivity.
    destruct (clean (JArr items)) as [cleaned|]; [|reflexivity].
    destruct cleaned; discriminate.
  - intros (content & chunks & -> & Hl & Ht & Hc). rewrite Hl, Ht.
    apply clean_none in Hc. cbn [negb].
    destruct chunks; try (eexists; reflexivity).
    rewrite Hc. eexists; reflexivity.
Qed.

Lemma index_file_processing (st : state Collection) (file_name : str)
    (f : file) :
  processing (console (final (index_file st (file_name, f))))
  = processing (console st) ++ [file_name].
Proof.
  unfold index_file, Index.index_file.
  assert (E : processing (console (print (MsgProcessing file_name) st))
              = processing (console st) ++ [file_name]).
  { cbn [console print]. now rewrite processing_app. }
  destruct f as [|content].
  { cbn [final skip_file console print] in *.
    rewrite processing_app, E. simpl. now rewrite app_nil_r. }
  destruct (Json.loads content) as [chunks|].
  2:{ cbn [final skip_file console print] in *.
      rewrite processing_app, E. simpl. now rewrite app_nil_r. }
  destruct (negb (truthy chunks)).
  { cbn [final skip_file console print] in *.
    rewrite processing_app, E. simpl. now rewrite app_nil_r. }
  destruct chunks; try exact E.
  destruct (clean (JArr items)) as [cleaned|]; [|exact E].
  set (st1 := if Nat.ltb 0 _ then _ else _).
  assert (E1 : processing (console st1) = processing (console st) ++ [file_name]).
  { unfold st1. destruct (Nat.ltb _ _); [|exact E].
    cbn [console print] in *. rewrite processing_app, E. simpl.
    now rewrite app_nil_r. }
  destruct cleaned as [|d cleaned].
  - cbn [final skip_file console print] in *.
    rewrite processing_app, E1. simpl. now rewrite app_nil_r.
  - cbn [final].
    destruct (fold_keeps file_name (d :: cleaned)
                (range_step (List.length (d :: cleaned)) BATCH_SIZE) st1)
      as [_ Hk].
    exact (eq_trans Hk E1).
Qed.

(** The files are visited in order, up to the first one that stops the
    run. *)
Lemma index_files_visits (json_files : list (str * file))
    (st : state Collection) :
  exists visited rest,
    json_files = visited ++ rest
    /\ processing (console (final (index_files st json_files)))
       = processing (console st) ++ map fst visited
    /\ (forall st', index_files st json_files = Returned _ st' ->
        rest = [] /\ forall e, In e json_files -> ~ stops (snd e))
    /\ (forall st', index_files st json_files = Raised _ st' ->
        exists before last,
          visited = before ++ [last] /\ stops (snd last)
          /\ forall e, In e before -> ~ stops (snd e)).
Proof.
  revert st. induction json_files as [|[file_name f] files IH]; intros st.
  - exists [], []. simpl. rewrite app_nil_r. repeat split; try tauto.
    discriminate.
  - cbn [index_files Index.index_files].
    pose proof (index_file_processing st file_name f) as Hp.
    pose proof (index_file_raises st file_name f) as Hr.
    fold index_file.
    destruct (index_file st (file_name, f)) as [st1|st1] eqn:E.
    + assert (Hn : ~ stops f).
      { intros H. apply Hr in H as [st' H]. discriminate. }
      fold index_files.
      destruct (IH st1) as (visited & rest & -> & Hv & Hret & Hrai).
      exists ((file_name, f) :: visited), rest. cbn [final] in Hp.
      split; [reflexivity|]. split.
      { rewrite Hv, Hp, <- app_assoc. reflexivity. }
      split.
      * intros st' H. destruct (Hret _ H) as [-> Hall]. split; [reflexivity|].
        intros e [<-|He]; [exact Hn|now apply Hall].
      * intros st' H. destruct (Hrai _ H) as (before & last & -> & Hl & Hb).
        exists ((file_name, f) :: before), last.
        split; [reflexivity|]. split; [exact Hl|].
        intros e [<-|He]; [exact Hn|now apply Hb].
    + exists [(file_name, f)], files. cbn [final] in *.
      split; [reflexivity|]. split; [exact Hp|]. split; [discriminate|].
      intros st' _. exists [], (file_name, f).
      split; [reflexivity|]. split; [|intros e []].
      apply Hr. eauto.
Qed.



End Run.

End IndexRunFacts.

(** X1.  The junk filter keeps a value exactly when it is a string whose
    stripped form has at least 10 characters, that holds no bracketed or
    braced placeholder on one line, and whose stripped form is not a page
    marker. *)
Theorem junk_filter_exact :
  forall text : Py.json,
    Index.is_junk text = false
    <-> exists s,
          text = Py.JStr s
          /\ 10 <= List.length (Py.strip s)
          /\ ~ Re.delimited (Py.ch "[") (Py.ch "]") s
          /\ ~ Re.delimited (Py.ch "{") (Py.ch "}") s
          /\ ~ Re.page_pattern (Py.strip s).
Proof.
  intros text. split.
  - intros H. destruct text; try discriminate. exists s.
    split; [reflexivity|]. unfold Index.is_junk in H.
    destruct (negb (Py.truthy (Py.JStr s))); [discriminate|].
    destruct (Nat.ltb_spec (List.length (Py.strip s)) 10) as [|Hlen];
      [discriminate|].
    destruct (Re.search_placeholder s) eqn:Hp; [discriminate|].
    destruct (Re.match_page (Py.strip s)) eqn:Hm; [discriminate|].
    unfold Re.search_placeholder in Hp. apply orb_false_iff in Hp as [H1 H2].
    split; [exact Hlen|]. repeat split.
    + intros D. apply ReFacts.search_delimited_spec in D. congruence.
    + intros D. apply ReFacts.search_delimited_spec in D. congruence.
    + intros D. apply ReFacts.match_page_spec in D. congruence.
  - intros (s & -> & Hlen & H1 & H2 & H3). unfold Index.is_junk.
    assert (Hs : s <> []).
    { intros ->. simpl in Hlen. lia. }
    destruct s as [|c s]; [congruence|]. cbn [Py.truthy negb].
    destruct (Nat.ltb_spec (List.length (Py.strip (c :: s))) 10); [lia|].
    unfold Re.search_placeholder.
    destruct (Re.search_delimited (Py.ch "[") (Py.ch "]") (c :: s)) eqn:E1.
    { apply ReFacts.search_delimited_spec in E1. contradiction. }
    destruct (Re.search_delimited (Py.ch "{") (Py.ch "}") (c :: s)) eqn:E2.
    { apply ReFacts.search_delimited_spec in E2. contradiction. }
    destruct (Re.match_page (Py.strip (c :: s))) eqn:E3.
    { apply ReFacts.match_page_spec in E3. contradiction. }
    reflexivity.
Qed.

Lemma junk_filter_exact_witness :
  exists s,
    Py.JStr (Py.lit "The court granted the motion to dismiss.") = Py.JStr s
    /\ 10 <= List.length (Py.strip s)
    /\ ~ Re.delimited (Py.ch "[") (Py.ch "]") s
    /\ ~ Re.delimited (Py.ch "{") (Py.ch "}") s
    /\ ~ Re.page_pattern (Py.strip s).
Proof.
  apply (proj1 (junk_filter_exact
                  (Py.JStr (Py.lit "The court granted the motion to dismiss.")))).
  vm_compute. reflexivity.
Defined.

Module StemFacts.
Import Py Index.

Lemma digits_range (d : Decimal.uint) (c : char) :
  In c (digits d) -> (48 <= c <= 57)%N.
Proof.
  induction d; simpl; try tauto; intros [<-|H]; auto; lia.
Qed.

(** Two strings cut at the first occurrence of [x] are cut alike. *)
Lemma cut_at_first (x : char) (a a' b b' : str) :
  ~ In x a -> ~ In x a' -> a ++ x :: b = a' ++ x :: b' -> a = a' /\ b = b'.
Proof.
  revert a'. induction a as [|y a IH]; intros [|y' a'] Ha Ha' H; simpl in *.
  - injection H as ->. tauto.
  - injection H as -> _. tauto.
  - injection H as -> _. tauto.
  - injection H as -> H. apply IH in H; [|tauto|tauto].
    destruct H as [-> ->]. tauto.
Qed.

Lemma cut_at_last (x : char) (a a' b b' : str) :
  ~ In x b -> ~ In x b' -> a ++ x :: b = a' ++ x :: b' -> a = a' /\ b = b'.
Proof.
  intros Hb Hb' H. apply (f_equal (@rev char)) in H.
  rewrite !rev_app_distr in H. simpl in H. rewrite <- !app_assoc in H.
  simpl in H. apply cut_at_first in H.
  - destruct H as [H1 H2]. split.
    + rewrite <- (rev_involutive a), H2. apply rev_involutive.
    + rewrite <- (rev_involutive b), H1. apply rev_involutive.
  - now rewrite <- in_rev.
  - now rewrite <- in_rev.
Qed.

Lemma str_of_nat_no_underscore (n : nat) : ~ In (ch "_") (str_of_nat n).
Proof.
  intros H. apply digits_range in H. destruct H as [_ H].
  vm_compute in H. now apply H.
Qed.

Lemma make_id_stem (file_name file_name' : str) (offset offset' : nat) :
  make_id file_name offset = make_id file_name' offset' ->
  fst (splitext file_name) = fst (splitext file_name') /\ offset = offset'.
Proof.
  unfold make_id. intros H.
  change (lit "_" ++ str_of_nat offset) with (ch "_" :: str_of_nat offset) in H.
  change (lit "_" ++ str_of_nat offset') with (ch "_" :: str_of_nat offset') in H.
  apply cut_at_last in H; try apply str_of_nat_no_underscore.
  destruct H as [H1 H2]. split; [exact H1|].
  now apply IdFacts.str_of_nat_inj.
Qed.

End StemFacts.

(** X2.  An id determines the stem of its file and the offset in it: two
    ids are equal only when both agree, so records of two files collide
    only when the files have the same stem.  Two files [stem.json], with a
    character other than a dot in the stem, have different stems; the
    file names [.json] and [.json.json], which the listing both accepts,
    do share theirs. *)
Theorem ids_distinct_across_files :
  (forall file_name file_name' offset offset',
      Index.make_id file_name offset = Index.make_id file_name' offset' ->
      fst (Py.splitext file_name) = fst (Py.splitext file_name')
      /\ offset = offset')
  /\ (forall stem stem' offset offset',
         ~ In (Py.ch "/") stem -> (exists c, In c stem /\ c <> Py.ch ".") ->
         ~ In (Py.ch "/") stem' -> (exists c, In c stem' /\ c <> Py.ch ".") ->
         Index.make_id (stem ++ Py.lit ".json") offset
         = Index.make_id (stem' ++ Py.lit ".json") offset' ->
         stem = stem' /\ offset = offset')
  /\ (forall file_name file_name' cleaned cleaned' i i' id,
         In id (Index.ids (Index.batch_request file_name cleaned i)) ->
         In id (Index.ids (Index.batch_request file_name' cleaned' i')) ->
         fst (Py.splitext file_name) = fst (Py.splitext file_name'))
  /\ Py.endswith (Py.lit ".json") (Py.lit ".json") = true
  /\ Py.endswith (Py.lit ".json") (Py.lit ".json.json") = true
  /\ Index.make_id (Py.lit ".json") 0 = Index.make_id (Py.lit ".json.json") 0.
Proof.
  split; [exact StemFacts.make_id_stem|].
  split; [|split; [|repeat split]].
  - intros stem stem' offset offset' Hs Hd Hs' Hd' H.
    apply StemFacts.make_id_stem in H as [H ->].
    rewrite !IdFacts.splitext_json in H by assumption. tauto.
  - intros file_name file_name' cleaned cleaned' i i' id H H'.
    cbn [Index.batch_request Index.ids] in H, H'.
    apply in_map_iff in H as (j & <- & _).
    apply in_map_iff in H' as (j' & H' & _).
    now apply StemFacts.make_id_stem in H' as [-> _].
Qed.

Lemma ids_distinct_across_files_witness :
  Py.lit "order" = Py.lit "order" /\ 7 = 7.
Proof.
  apply (proj1 (proj2 ids_distinct_across_files)
           (Py.lit "order") (Py.lit "order") 7 7).
  - vm_compute. intuition discriminate.
  - exists (Py.ch "o"). split; [now left|discriminate].
  - vm_compute. intuition discriminate.
  - exists (Py.ch "o"). split; [now left|discriminate].
  - reflexivity.
Defined.



(** X4.  The indexer announces the files named [*.json], and no others,
    once each and in the order of the listing.  It goes through all of
    them when it returns; when it raises, the last file announced is the
    first one that stops the run. *)
Theorem json_files_visited_in_order :
  forall (Embedding Collection : Type)
    (encode : list Py.json -> option (list Embedding))
    (add : Collection -> list Py.str -> list Embedding -> list Py.dict
           -> option Collection)
    (listing : list (Py.str * Index.file)) (c : Collection),
    let run := Index.embed_and_index_documents encode add (Some listing) c in
    let json_files :=
      filter (fun entry => Py.endswith (Py.lit ".json") (fst entry)) listing in
    exists visited rest,
      json_files = visited ++ rest
      /\ IndexRun.processing (Index.console (Index.final run))
         = map fst visited
      /\ (forall st, run = Py.Returned _ st -> rest = [])
      /\ (forall st, run = Py.Raised _ st ->
          exists before last,
            visited = before ++ [last]
            /\ IndexRun.stops (snd last)
            /\ forall e, In e before -> ~ IndexRun.stops (snd e)).
Proof.
  intros Embedding Collection encode add listing c run json_files.
  unfold run, Index.embed_and_index_documents. fold json_files.
  set (st0 := Index.print _ (Index.initial c)).
  destruct (IndexRunFacts.index_files_visits encode add json_files st0)
    as (visited & rest & Hsplit & Hp & Hret & Hrai).
  exists visited, rest. split; [exact Hsplit|].
  destruct (Index.index_files encode add st0 json_files) as [st1|st1] eqn:E.
  - cbn [Index.final] in Hp. split; [|split].
    + cbn [Index.final].
      destruct (Nat.ltb _ _); cbn [Index.console Index.print];
        rewrite !IndexRunFacts.processing_app, Hp; simpl;
        now rewrite !app_nil_r.
    + intros st _. now destruct (Hret _ eq_refl).
    + discriminate.
  - cbn [Index.final] in *. split; [exact Hp|]. split; [discriminate|].
    intros st _. exact (Hrai _ eq_refl).
Qed.



(** ** More on the chunkers (chunker.py, cloud_utils.py) *)

Module ReplyFacts.
Import Py Ext.

(** The run of the [try] block on a well-formed answer. *)
Lemma try_block_items (elements : list element) (resp : response)
    (response_json response_data : dict) (raw : str) (propositions : json) :
  ok resp = true -> body resp = Some (JObj response_json) ->
  get_default (lit "response") (JStr (lit "{}")) response_json = JStr raw ->
  Json.loads raw = Some (JObj response_data) ->
  get_default (lit "propositions") (JArr []) response_data = propositions ->
  Chunker.try_block elements (Some resp)
  = match iterate propositions with
    | inl e => inl e
    | inr items => inr (Chunker.enrich_all elements items)
    end.
Proof.
  intros Hok Hb Hr Hl Hp. unfold Chunker.try_block, post_json.
  rewrite Hok, Hb. cbn [get_attr]. rewrite Hr. cbn [loads]. rewrite Hl.
  cbn [get_attr]. now rewrite Hp.
Qed.

Lemma get_default_absent (key : str) (default : json) (d : dict) :
  lookup key d = None -> get_default key default d = default.
Proof. unfold get_default. now intros ->. Qed.

Lemma get_default_present (key : str) (default v : json) (d : dict) :
  lookup key d = Some v -> get_default key default d = v.
Proof. unfold get_default. now intros ->. Qed.

Lemma short_is_junk (s : str) :
  List.length s < 10 -> Index.is_junk (JStr s) = true.
Proof.
  intros H. unfold Index.is_junk.
  destruct (negb (truthy (JStr s))); [reflexivity|].
  pose proof (PyFacts.strip_length s).
  destruct (Nat.ltb_spec (List.length (strip s)) 10); [reflexivity|lia].
Qed.

Lemma contains_empty (s : str) : contains [] s = true.
Proof. now destruct s. Qed.

End ReplyFacts.

(** X6.  An answer that leaves a field out is an empty result, not a
    failure: when the body has no [response] field, or the response object
    no [propositions] field, the chunker returns the empty list and prints
    nothing.  A field that is there and null is a failure: the chunker
    prints the unexpected error and returns [None]. *)
Theorem missing_fields_give_empty_list :
  forall (elements : list Ext.element) (resp : Ext.response)
    (response_json : Py.dict),
    Ext.ok resp = true ->
    Ext.body resp = Some (Py.JObj response_json) ->
    (Py.lookup (Py.lit "response") response_json = None ->
     Chunker.chunk_batch_into_propositions elements (Some resp)
     = ([], Py.Returned _ (Some [])))
    /\ (Py.lookup (Py.lit "response") response_json = Some Py.JNull ->
        Chunker.chunk_batch_into_propositions elements (Some resp)
        = ([Ext.MsgUnexpected Ext.TypeError], Py.Returned _ None))
    /\ (forall raw response_data,
           Py.lookup (Py.lit "response") response_json = Some (Py.JStr raw) ->
           Json.loads raw = Some (Py.JObj response_data) ->
           (Py.lookup (Py.lit "propositions") response_data = None ->
            Chunker.chunk_batch_into_propositions elements (Some resp)
            = ([], Py.Returned _ (Some [])))
           /\ (Py.lookup (Py.lit "propositions") response_data = Some Py.JNull ->
               Chunker.chunk_batch_into_propositions elements (Some resp)
               = ([Ext.MsgUnexpected Ext.TypeError], Py.Returned _ None))).
Proof.
  intros elements resp response_json Hok Hb.
  unfold Chunker.chunk_batch_into_propositions.
  split; [|split].
  - intros H.
    rewrite (@ReplyFacts.try_block_items elements resp response_json []
               (Py.lit "{}") (Py.JArr []) Hok Hb); try reflexivity.
    now apply ReplyFacts.get_default_absent.
  - intros H. unfold Chunker.try_block, Ext.post_json.
    rewrite Hok, Hb. cbn [Ext.get_attr].
    rewrite (ReplyFacts.get_default_present _ _ _ H). reflexivity.
  - intros raw response_data Hr Hl. split; intros H.
    + rewrite (@ReplyFacts.try_block_items elements resp response_json
                 response_data raw (Py.JArr []) Hok Hb); try reflexivity;
        trivial.
      * now apply ReplyFacts.get_default_present.
      * now apply ReplyFacts.get_default_absent.
    + rewrite (@ReplyFacts.try_block_items elements resp response_json
                 response_data raw Py.JNull Hok Hb); try reflexivity; trivial.
      * now apply ReplyFacts.get_default_present.
      * now apply ReplyFacts.get_default_present.
Qed.

Lemma missing_fields_give_empty_list_witness :
  Chunker.chunk_batch_into_propositions Sample.order
    (Some {| Ext.ok := true; Ext.body := Some (Py.JObj []) |})
  = ([], Py.Returned _ (Some [])).
Proof.
  apply (proj1 (@missing_fields_give_empty_list Sample.order
                  {| Ext.ok := true; Ext.body := Some (Py.JObj []) |} []
                  eq_refl eq_refl)).
  reflexivity.
Defined.

(** X7.  The chunker iterates whatever the [propositions] field holds.
    When it is one string, every character becomes a proposition of its
    own; when it is an object, its keys, not its values, become the
    propositions.  The one-character propositions are all junk to the
    indexer. *)
Theorem propositions_not_a_list :
  forall (elements : list Ext.element) (resp : Ext.response)
    (response_json response_data : Py.dict) (raw : Py.str),
    Ext.ok resp = true ->
    Ext.body resp = Some (Py.JObj response_json) ->
    Py.get_default (Py.lit "response") (Py.JStr (Py.lit "{}")) response_json
    = Py.JStr raw ->
    Json.loads raw = Some (Py.JObj response_data) ->
    (forall s,
        Py.get_default (Py.lit "propositions") (Py.JArr []) response_data
        = Py.JStr s ->
        exists propositions,
          Chunker.chunk_batch_into_propositions elements (Some resp)
          = ([], Py.Returned _ (Some propositions))
          /\ map (Py.get (Py.lit "text")) propositions
             = map (fun c => Py.JStr [c]) s
          /\ Forall (fun p => Index.is_junk (Py.get (Py.lit "text") p) = true)
               propositions)
    /\ (forall members,
           Py.get_default (Py.lit "propositions") (Py.JArr []) response_data
           = Py.JObj members ->
           exists propositions,
             Chunker.chunk_batch_into_propositions elements (Some resp)
             = ([], Py.Returned _ (Some propositions))
             /\ map (Py.get (Py.lit "text")) propositions
                = map Py.JStr
                    (filter (fun key => match key with [] => false | _ => true end)
                       (map fst members))).
Proof.
  intros elements resp response_json response_data raw Hok Hb Hr Hl.
  unfold Chunker.chunk_batch_into_propositions. split.
  - intros s Hp.
    rewrite (@ReplyFacts.try_block_items elements resp response_json
               response_data raw (Py.JStr s) Hok Hb Hr Hl Hp).
    cbn [Ext.iterate]. eexists. split; [reflexivity|].
    assert (Ht : map (Py.get (Py.lit "text"))
                   (Chunker.enrich_all elements
                      (map (fun c => Py.JStr [c]) s))
                 = map (fun c => Py.JStr [c]) s).
    { rewrite ChunkFacts.enrich_all_texts, map_map. cbn [Chunker.actual_text].
      clear. induction s as [|c s IH]; simpl; [reflexivity|]. now rewrite IH. }
    split; [exact Ht|].
    apply Forall_forall. intros p Hin.
    apply (in_map (Py.get (Py.lit "text"))) in Hin. rewrite Ht in Hin.
    apply in_map_iff in Hin as (c & <- & _).
    apply ReplyFacts.short_is_junk. simpl. lia.
  - intros members Hp.
    rewrite (@ReplyFacts.try_block_items elements resp response_json
               response_data raw (Py.JObj members) Hok Hb Hr Hl Hp).
    cbn [Ext.iterate]. eexists. split; [reflexivity|].
    rewrite ChunkFacts.enrich_all_texts, !map_map. reflexivity.
Qed.

Lemma propositions_not_a_list_witness :
  exists propositions,
    Chunker.chunk_batch_into_propositions Sample.order
      (Some {| Ext.ok := true;
               Ext.body :=
                 Some (Py.JObj
                         [(Py.lit "response",
                           Py.JStr
                             (Json.dumps
                                (Py.JObj [(Py.lit "propositions",
                                           Py.JStr (Py.lit "Denied."))])))]) |})
    = ([], Py.Returned _ (Some propositions))
    /\ map (Py.get (Py.lit "text")) propositions
       = map (fun c => Py.JStr [c]) (Py.lit "Denied.")
    /\ Forall (fun p => Index.is_junk (Py.get (Py.lit "text") p) = true)
         propositions.
Proof.
  apply (proj1 (@propositions_not_a_list Sample.order
                  {| Ext.ok := true;
                     Ext.body :=
                       Some (Py.JObj
                               [(Py.lit "response",
                                 Py.JStr
                                   (Json.dumps
                                      (Py.JObj [(Py.lit "propositions",
                                                 Py.JStr (Py.lit "Denied."))])))]) |}
                  _ [(Py.lit "propositions", Py.JStr (Py.lit "Denied."))]
                  _ eq_refl eq_refl eq_refl
                  ltac:(vm_compute; reflexivity))).
  reflexivity.
Defined.

(** X8.  An element whose text is empty matches every proposition.  So a
    batch that holds one never leaves a proposition without a source, and
    when it is the first element that has a text, every proposition of the
    batch takes its file name and page number. *)
Theorem empty_text_element_matches_all :
  forall (el : Ext.element) (t : Py.str),
    Ext.text el = Some [] ->
    Chunker.is_source t el = true
    /\ (forall elements,
           In el elements -> Chunker.source_element elements t <> None)
    /\ (forall before after,
           (forall e, In e before -> Ext.text e = None) ->
           Chunker.source_element (before ++ el :: after) t = Some el)
    /\ (forall before after md,
           (forall e, In e before -> Ext.text e = None) ->
           Ext.metadata el = Some md ->
           Chunker.enrich (before ++ el :: after) t
           = [ (Py.lit "text", Py.JStr t);
               (Py.lit "document_name",
                match Ext.filename md with
                | Some v => v
                | None => Py.JStr (Py.lit "unknown")
                end);
               (Py.lit "page_number",
                match Ext.page_number md with
                | Some v => v
                | None => Py.JNull
                end) ]).
Proof.
  intros el t Ht.
  assert (Hs : Chunker.is_source t el = true).
  { unfold Chunker.is_source. rewrite Ht.
    now rewrite ReplyFacts.contains_empty. }
  assert (Hfirst : forall before after,
             (forall e, In e before -> Ext.text e = None) ->
             Chunker.source_element (before ++ el :: after) t = Some el).
  { intros before after Hb. unfold Chunker.source_element.
    induction before as [|e before IH]; simpl.
    - now rewrite Hs.
    - unfold Chunker.is_source at 1. rewrite (Hb e) by now left.
      apply IH. intros e' He'. apply Hb. now right. }
  split; [exact Hs|]. split; [|split; [exact Hfirst|]].
  - intros elements Hin H. unfold Chunker.source_element in H.
    pose proof (find_none _ _ H el Hin) as Hn. congruence.
  - intros before after md Hb Hmd. unfold Chunker.enrich.
    rewrite (Hfirst before after Hb), Hmd. reflexivity.
Qed.

Lemma empty_text_element_matches_all_witness :
  Chunker.is_source (Py.lit "The motion is denied.")
    {| Ext.text := Some []; Ext.metadata := None |}
  = true.
Proof.
  apply (proj1 (@empty_text_element_matches_all
                  {| Ext.text := Some []; Ext.metadata := None |}
                  (Py.lit "The motion is denied.") eq_refl)).
Defined.


(** ** More on the ingester (ingest.py) *)

Module BatchLoopFacts.
Import Py Ext Ingest IngestRun.

Lemma chunked_app (Client : Type) (a b : list (event Client)) :
  chunked (a ++ b) = chunked a ++ chunked b.
Proof. apply flat_map_app. Qed.

Lemma chunked_console (Client : Type) (out : list Ext.message) :
  chunked (map (@ChunkerConsole Client) out) = [].
Proof. induction out as [|m out IH]; [reflexivity|exact IH]. Qed.

Section Run.

Variable Client : Type.
Variable server : nat -> reply.


(** A run of the loop that ends well: the batches it sent, each with the
    propositions it got back. *)
Lemma chunk_loop_runs (elements : list element) :
  forall (element_batch : list element) (all_propositions : list dict)
    (posts : nat) (tr tr' : trace Client) (all' : list dict),
    elements <> [] -> List.length element_batch < BATCH_SIZE ->
    chunk_loop server elements element_batch all_propositions posts tr
    = (tr', Returned _ (Some all')) ->
    exists runs : list (list element * list dict),
      List.concat (map fst runs) = element_batch ++ elements
      /\ Forall (fun b => 1 <= List.length b <= BATCH_SIZE) (map fst runs)
      /\ (forall pre last,
             map fst runs = pre ++ [last] ->
             Forall (fun b => List.length b = BATCH_SIZE) pre)
      /\ chunked tr'
         = chunked tr ++ combine (seq posts (List.length runs)) (map fst runs)
      /\ (forall n b ps,
             nth_error runs n = Some (b, ps) ->
             snd (Chunker.chunk_batch_into_propositions b (server (posts + n)))
             = Returned _ (Some ps))
      /\ all' = all_propositions ++ List.concat (map snd runs).
Proof.
  induction elements as [|element rest IH];
    intros batch all posts tr tr' all' Hne Hlen H; [congruence|].
  cbn [chunk_loop] in H.
  set (b := batch ++ [element]) in *.
  assert (Hb : List.length b = S (List.length batch)).
  { unfold b. rewrite length_app. simpl. lia. }
  destruct (Nat.leb BATCH_SIZE (List.length b)
            || match rest with [] => true | _ :: _ => false end) eqn:Hflag.
  - destruct (Chunker.chunk_batch_into_propositions b (server posts))
      as [out res] eqn:Hc.
    destruct res as [[ps|]|e]; [| discriminate | discriminate].
    assert (Hps : snd (Chunker.chunk_batch_into_propositions b (server posts))
                  = Returned _ (Some ps)) by now rewrite Hc.
    destruct rest as [|e2 rest'].
    + cbn [chunk_loop] in H. injection H as <- <-.
      exists [(b, ps)]. cbn [map List.concat fst snd List.length seq combine].
      rewrite !app_nil_r. split; [reflexivity|].
      split; [constructor; [lia|constructor]|].
      split.
      { intros [|x pre] last Hp; [constructor|].
        injection Hp as _ Hp. now destruct pre. }
      split.
      { rewrite !chunked_app, chunked_console. simpl.
        now rewrite app_nil_r. }
      split; [|reflexivity].
      intros [|n] b' ps' Hn; simpl in Hn.
      * injection Hn as <- <-. now rewrite Nat.add_0_r.
      * now destruct n.
    + assert (Hten : List.length b = BATCH_SIZE).
      { rewrite orb_false_r in Hflag. apply Nat.leb_le in Hflag. lia. }
      apply IH in H; [|discriminate|unfold BATCH_SIZE; simpl; lia].
      destruct H as (runs & Hcat & Hsz & Hpre & Hch & Hres & ->).
      exists ((b, ps) :: runs).
      cbn [map List.concat fst snd List.length seq combine].
      split.
      { rewrite Hcat. unfold b. now rewrite <- app_assoc. }
      split; [constructor; [lia|exact Hsz]|].
      split.
      { intros [|x pre] last Hp.
        - constructor.
        - injection Hp as <- Hp. constructor; [exact Hten|].
          now apply Hpre with last. }
      split.
      { rewrite Hch, !chunked_app, chunked_console. simpl.
        rewrite app_nil_r, <- app_assoc. reflexivity. }
      split; [|now rewrite <- app_assoc].
      intros [|n] b' ps' Hn; simpl in Hn.
      * injection Hn as <- <-. now rewrite Nat.add_0_r.
      * replace (posts + S n) with (S posts + n) by lia. now apply Hres.
  - apply orb_false_iff in Hflag as [Hlt Hrest].
    apply Nat.leb_gt in Hlt.
    apply IH in H; [| now destruct rest | exact Hlt].
    destruct H as (runs & Hcat & Hrest').
    exists runs. split; [|exact Hrest'].
    rewrite Hcat. unfold b. now rewrite <- app_assoc.
Qed.

End Run.

End BatchLoopFacts.

(** X10.  When a document is saved, every element of it was sent to the
    model server exactly once and in order, in batches of ten, the last
    one of one to ten; the batches made the POSTs 0, 1, 2, ... and nothing
    else did; each of them got a list of propositions back, and the file
    holds these lists one after the other. *)
Theorem elements_sent_in_batches :
  forall (Client : Type) partition_pdf server writable doc_path
    (r2_client : option Client) path content,
    let run := Ingest.process_document partition_pdf server writable
                 doc_path r2_client in
    In (Ingest.Saved path content) (fst run) ->
    exists (elements : list Ext.element)
           (runs : list (list Ext.element * list Py.dict)),
      partition_pdf doc_path = Some elements
      /\ List.concat (map fst runs) = elements
      /\ Forall (fun b => 1 <= List.length b <= 10) (map fst runs)
      /\ (forall pre last,
             map fst runs = pre ++ [last] ->
             Forall (fun b => List.length b = 10) pre)
      /\ IngestRun.chunked (fst run)
         = combine (seq 0 (List.length runs)) (map fst runs)
      /\ (forall n b ps,
             nth_error runs n = Some (b, ps) ->
             snd (Chunker.chunk_batch_into_propositions b (server n))
             = Py.Returned _ (Some ps))
      /\ Json.dump (Py.JArr (map Py.JObj (List.concat (map snd runs))))
         = Some content.
Proof.
  intros Client partition_pdf server writable doc_path r2_client path content
    run Hin.
  destruct (DocumentFacts.saved_then_upload partition_pdf server writable
              doc_path r2_client path content Hin)
    as (elements & tr1 & all & Hp & Hl & Hd & _).
  assert (Hruns : exists runs : list (list Ext.element * list Py.dict),
             List.concat (map fst runs) = elements
             /\ Forall (fun b => 1 <= List.length b <= 10) (map fst runs)
             /\ (forall pre last,
                    map fst runs = pre ++ [last] ->
                    Forall (fun b => List.length b = 10) pre)
             /\ IngestRun.chunked tr1
                = combine (seq 0 (List.length runs)) (map fst runs)
             /\ (forall n b ps,
                    nth_error runs n = Some (b, ps) ->
                    snd (Chunker.chunk_batch_into_propositions b (server n))
                    = Py.Returned _ (Some ps))
             /\ all = List.concat (map snd runs)).
  { destruct elements as [|el elements].
    - cbn [Ingest.chunk_loop] in Hl. injection Hl as <- <-.
      exists []. simpl. repeat split; try constructor.
      + intros [|x pre] last H; discriminate.
      + intros [|n] b ps H; discriminate.
    - apply BatchLoopFacts.chunk_loop_runs in Hl;
        [|discriminate|unfold Ingest.BATCH_SIZE; simpl; lia].
      destruct Hl as (runs & H1 & H2 & H3 & H4 & H5 & H6).
      exists runs. repeat (split; [assumption|]). exact H6. }
  destruct Hruns as (runs & H1 & H2 & H3 & H4 & H5 & ->).
  exists elements, runs.
  split; [exact Hp|]. split; [exact H1|]. split; [exact H2|].
  split; [exact H3|]. split; [|split; [exact H5|exact Hd]].
  rewrite <- H4. subst run. unfold Ingest.process_document. rewrite Hp.
  cbv zeta.
  change ([Ingest.Console (Ingest.MsgProcessingDocument (Py.basename doc_path))]
          ++ [Ingest.Console (Ingest.MsgExtracted (List.length elements))])
    with [Ingest.Console (Client := Client)
            (Ingest.MsgProcessingDocument (Py.basename doc_path));
          Ingest.Console (Ingest.MsgExtracted (List.length elements))].
  rewrite Hl. cbn [fst].
  destruct (if writable _ then _ else None);
    destruct r2_client as [client|];
    try destruct (List.concat (map snd runs));
    rewrite ?BatchLoopFacts.chunked_app; simpl; now rewrite ?app_nil_r.
Qed.

Lemma elements_sent_in_batches_witness :
  exists (elements : list Ext.element)
         (runs : list (list Ext.element * list Py.dict)),
    Sample.partition (Py.lit "source_documents/order.pdf") = Some elements
    /\ List.concat (map fst runs) = elements
    /\ Forall (fun b => 1 <= List.length b <= 10) (map fst runs)
    /\ (forall pre last,
           map fst runs = pre ++ [last] ->
           Forall (fun b => List.length b = 10) pre)
    /\ IngestRun.chunked
         (fst (Ingest.process_document Sample.partition Sample.up
                 Sample.writable (Py.lit "source_documents/order.pdf")
                 (Some tt)))
       = combine (seq 0 (List.length runs)) (map fst runs)
    /\ (forall n b ps,
           nth_error runs n = Some (b, ps) ->
           snd (Chunker.chunk_batch_into_propositions b (Sample.up n))
           = Py.Returned _ (Some ps))
    /\ Json.dump (Py.JArr (map Py.JObj (List.concat (map snd runs))))
       = Some (Json.dumps
                 (Py.JArr
                    (map Py.JObj
                       (Chunker.enrich_all Sample.order Sample.items)))).
Proof.
  apply (@elements_sent_in_batches unit Sample.partition Sample.up
           Sample.writable (Py.lit "source_documents/order.pdf") (Some tt)
           (Py.lit "processed_documents/order.json")).
  vm_compute. do 4 right. left. reflexivity.
Defined.

Module PathFacts.
Import Py.

Lemma rfind_none (c : char) (s : str) : rfind c s = None -> ~ In c s.
Proof.
  induction s as [|x s IH]; simpl; [tauto|].
  destruct (rfind c s); [discriminate|].
  destruct (N.eqb_spec x c); [discriminate|]. intros _ [H|H]; [congruence|].
  now apply IH.
Qed.

Lemma rfind_some (c : char) (s : str) (i : nat) :
  rfind c s = Some i ->
  exists pre tail, s = pre ++ c :: tail /\ List.length pre = i /\ ~ In c tail.
Proof.
  revert i. induction s as [|x s IH]; intros i; simpl; [discriminate|].
  destruct (rfind c s) as [j|] eqn:E.
  - intros H. injection H as <-.
    destruct (IH j eq_refl) as (pre & tail & -> & <- & Ht).
    now exists (x :: pre), tail.
  - destruct (N.eqb_spec x c) as [->|]; [|discriminate].
    intros H. injection H as <-. exists [], s.
    split; [reflexivity|]. split; [reflexivity|]. now apply rfind_none.
Qed.

Lemma skipn_past (A : Type) (pre : list A) (x : A) (tail : list A) :
  skipn (S (List.length pre)) (pre ++ x :: tail) = tail.
Proof. induction pre as [|y pre IH]; [reflexivity|exact IH]. Qed.

Lemma basename_no_sep (p : str) : ~ In (ch "/") (basename p).
Proof.
  unfold basename. destruct (rfind (ch "/") p) as [i|] eqn:E.
  - apply rfind_some in E as (pre & tail & -> & <- & Ht).
    now rewrite skipn_past.
  - now apply rfind_none.
Qed.

Lemma basename_join (dir name : str) :
  ~ In (ch "/") name -> basename (dir ++ lit "/" ++ name) = name.
Proof.
  intros H. unfold basename.
  change (lit "/" ++ name) with (ch "/" :: name).
  rewrite IdFacts.rfind_last by exact H. apply skipn_past.
Qed.

(** The stem of a file name keeps a character that is not a dot. *)
Lemma stem_proper (name : str) :
  ~ In (ch "/") name -> (exists c, In c name /\ c <> ch ".") ->
  ~ In (ch "/") (fst (splitext name))
  /\ exists c, In c (fst (splitext name)) /\ c <> ch ".".
Proof.
  intros Hsep Hdot. unfold splitext.
  destruct (rfind (ch ".") name) as [dotIndex|]; [|now split].
  rewrite (IdFacts.rfind_absent _ _ Hsep).
  rewrite Nat.sub_0_r. cbn [skipn Nat.leb andb].
  match goal with
  | |- context [existsb ?f ?l] => destruct (existsb f l) eqn:E
  end; [|now split].
  cbn [fst]. split.
  - intros H. apply Hsep. now apply IndexFacts.in_firstn in H.
  - apply existsb_exists in E as (c & Hc & Hn). exists c.
    split; [exact Hc|]. apply negb_true_iff in Hn. now apply N.eqb_neq.
Qed.

Lemma endswith_app (suffix s : str) : endswith suffix (s ++ suffix) = true.
Proof.
  unfold endswith. rewrite rev_app_distr. apply PyFacts.startswith_spec.
  now exists (rev s).
Qed.

End PathFacts.

Module DocumentRunFacts.
Import Py Ext Ingest.


(** An encoded list is the text [[]] only when it is empty. *)
Lemma dumps_empty (items : list json) :
  Json.dumps (JArr items) = lit "[]" -> items = [].
Proof. destruct items; [reflexivity|discriminate]. Qed.

End DocumentRunFacts.

(** X11.  A document without propositions is saved as the text [[]].
    With a client configured, the saved documents that are not uploaded
    are exactly these; a document whose PDF has no element is one.  The
    indexer then skips such a file as having no content. *)
Theorem empty_document_saved_and_skipped :
  forall (Client : Type) partition_pdf server writable doc_path
    (r2_client : option Client) path content,
    let run := Ingest.process_document partition_pdf server writable
                 doc_path r2_client in
    In (Ingest.Saved path content) (fst run) ->
    (partition_pdf doc_path = Some [] -> content = Py.lit "[]")
    /\ (r2_client <> None ->
        (content = Py.lit "[]"
         <-> forall client path' key,
               ~ In (Ingest.Uploaded client path' key) (fst run)))
    /\ (content = Py.lit "[]" ->
        forall (Embedding Collection : Type)
          (encode : list Py.json -> option (list Embedding))
          (add : Collection -> list Py.str -> list Embedding -> list Py.dict
                 -> option Collection)
          (st : Index.state Collection) (file_name : Py.str),
          Index.index_file encode add st (file_name, Index.Text content)
          = Py.Returned _
              (Index.skip_file (Index.MsgNoContent file_name)
                 (Index.print (Index.MsgProcessing file_name) st))).
Proof.
  intros Client partition_pdf server writable doc_path r2_client path content
    run Hin.
  destruct (DocumentFacts.saved_then_upload partition_pdf server writable
              doc_path r2_client path content Hin)
    as (elements & tr1 & all & Hp & Hl & Hd & _ & _ & Hiff & Hup).
  assert (Hcontent : content = Json.dumps (Py.JArr (map Py.JObj all))).
  { unfold Json.dump in Hd. destruct (Json.utf8_encodable _); [|discriminate].
    now injection Hd. }
  split; [|split].
  - intros Hp'. rewrite Hp' in Hp. injection Hp as <-.
    cbn [Ingest.chunk_loop] in Hl. injection Hl as _ <-. exact Hcontent.
  - intros Hc. split.
    + intros -> client path' key H.
      symmetry in Hcontent. apply DocumentRunFacts.dumps_empty in Hcontent.
      destruct all; [|discriminate].
      pose proof (Hup _ _ _ H) as [_ [-> _]].
      assert (Hex : exists client key,
                 In (Ingest.Uploaded client path key) (fst run)) by eauto.
      apply Hiff in Hex. tauto.
    + intros Hno. destruct all as [|p all]; [exact Hcontent|].
      exfalso. destruct (proj2 Hiff) as (client & key & H).
      { split; [exact Hc|discriminate]. }
      now apply Hno in H.
  - intros -> Embedding Collection encode add st file_name. reflexivity.
Qed.

Lemma empty_document_saved_and_skipped_witness :
  Index.index_file Sample.encode Sample.add (Index.initial 0)
    (Py.lit "blank.json", Index.Text (Py.lit "[]"))
  = Py.Returned _
      (Index.skip_file (Index.MsgNoContent (Py.lit "blank.json"))
         (Index.print (Index.MsgProcessing (Py.lit "blank.json"))
            (Index.initial 0))).
Proof.
  apply (proj2 (proj2 (@empty_document_saved_and_skipped unit
                         (fun doc_path => Some [])
                         Sample.up Sample.writable
                         (Py.lit "source_documents/blank.pdf") (Some tt)
                         (Py.lit "processed_documents/blank.json")
                         (Py.lit "[]")
                         ltac:(vm_compute; do 2 right; left; reflexivity)))
           eq_refl unit nat Sample.encode Sample.add (Index.initial 0)
           (Py.lit "blank.json")).
Defined.

(** X12.  The file the ingester saves for a document is one the indexer
    lists, and its records carry the document's stem: for a source file
    whose name holds a character other than a dot, the output is
    [processed_documents/stem.json], its name ends in [.json], and the ids
    the indexer gives its records are [stem_0], [stem_1], ... with the stem
    of the source file. *)
Theorem saved_file_is_listed_under_its_stem :
  forall (Client : Type) partition_pdf server writable doc_path
    (r2_client : option Client) path content,
    let run := Ingest.process_document partition_pdf server writable
                 doc_path r2_client in
    let stem := fst (Py.splitext (Py.basename doc_path)) in
    In (Ingest.Saved path content) (fst run) ->
    (exists c, In c (Py.basename doc_path) /\ c <> Py.ch ".") ->
    path = Py.lit "processed_documents/" ++ stem ++ Py.lit ".json"
    /\ Py.basename path = stem ++ Py.lit ".json"
    /\ Py.endswith (Py.lit ".json") (Py.basename path) = true
    /\ forall offset,
         Index.make_id (Py.basename path) offset
         = stem ++ Py.lit "_" ++ Py.str_of_nat offset.
Proof.
  intros Client partition_pdf server writable doc_path r2_client path content
    run stem Hin Hdot.
  destruct (DocumentFacts.saved_then_upload partition_pdf server writable
              doc_path r2_client path content Hin)
    as (_ & _ & _ & _ & _ & _ & -> & _).
  fold stem.
  destruct (@PathFacts.stem_proper _ (PathFacts.basename_no_sep doc_path) Hdot)
    as [Hsep Hproper]. fold stem in Hsep, Hproper.
  assert (Hb : Py.basename (Ingest.PROCESSED_DOCS_PATH ++ Py.lit "/"
                            ++ stem ++ Py.lit ".json")
               = stem ++ Py.lit ".json").
  { apply PathFacts.basename_join. intros H.
    apply in_app_or in H as [H|H]; [tauto|].
    revert H. vm_compute. intuition discriminate. }
  split; [reflexivity|]. rewrite Hb.
  split; [reflexivity|]. split; [apply PathFacts.endswith_app|].
  intros offset. unfold Index.make_id.
  now rewrite IdFacts.splitext_json.
Qed.

Lemma saved_file_is_listed_under_its_stem_witness :
  Py.lit "processed_documents/order.json"
  = Py.lit "processed_documents/"
    ++ fst (Py.splitext (Py.basename (Py.lit "source_documents/order.pdf")))
    ++ Py.lit ".json"
  /\ Py.basename (Py.lit "processed_documents/order.json")
     = fst (Py.splitext (Py.basename (Py.lit "source_documents/order.pdf")))
       ++ Py.lit ".json"
  /\ Py.endswith (Py.lit ".json")
       (Py.basename (Py.lit "processed_documents/order.json")) = true
  /\ forall offset,
       Index.make_id (Py.basename (Py.lit "processed_documents/order.json"))
         offset
       = fst (Py.splitext (Py.basename (Py.lit "source_documents/order.pdf")))
         ++ Py.lit "_" ++ Py.str_of_nat offset.
Proof.
  apply (@saved_file_is_listed_under_its_stem unit Sample.partition Sample.up
           Sample.writable (Py.lit "source_documents/order.pdf") (Some tt)
           (Py.lit "processed_documents/order.json")
           (Json.dumps
              (Py.JArr
                 (map Py.JObj (Chunker.enrich_all Sample.order Sample.items))))).
  - vm_compute. do 4 right. left. reflexivity.
  - exists (Py.ch "o"). split; [vm_compute; now left|discriminate].
Defined.

Module MainFacts.
Import Py Ext.



End MainFacts.


(** ** The query side (query.py) *)

Module QueryFacts.
Import Py Query IndexRun.




End QueryFacts.



Module QueryRunFacts.
Import Py Query.





End QueryRunFacts.




(** X17.  [generate_response] always returns a value.  When the call
    fails, the status is an error or the body is not JSON, it returns the
    sentence that the server could not be reached.  When the body is an
    object it returns its [response] field, whatever that holds, and the
    sentence that the response could not be parsed when the field is
    missing.  When the body is JSON but not an object, it returns [An
    unexpected error occurred:] followed by the message of the
    [AttributeError], which names the type of the body. *)
Theorem generate_response_answers :
  forall (post : Py.str -> Ext.reply) (context query : Py.str),
    let r := post (Query.prompt context query) in
    let answer := Query.generate_response post context query in
    ((r = None
      \/ exists resp,
           r = Some resp /\ (Ext.ok resp = false \/ Ext.body resp = None)) ->
     answer
     = Py.JStr (Py.lit "Error: Could not connect to Ollama server at http://localhost:11434/api/generate. Is Ollama running?"))
    /\ (forall resp body,
           r = Some resp -> Ext.ok resp = true -> Ext.body resp = Some body ->
           (forall d v,
               body = Py.JObj d -> Py.lookup (Py.lit "response") d = Some v ->
               answer = v)
           /\ (forall d,
                  body = Py.JObj d -> Py.lookup (Py.lit "response") d = None ->
                  answer
                  = Py.JStr (Py.lit "Error: Could not parse response from LLM."))
           /\ ((forall d, body <> Py.JObj d) ->
               answer
               = Py.JStr (Py.lit "An unexpected error occurred: '"
                          ++ Query.type_name body
                          ++ Py.lit "' object has no attribute 'get'"))).
Proof.
  intros post context query r answer. subst answer.
  unfold Query.generate_response. fold r. split.
  - intros [->|(resp & -> & [H|H])]; [reflexivity| |];
      unfold Ext.post_json; rewrite H; [reflexivity|].
    destruct (Ext.ok resp); reflexivity.
  - intros resp body -> Hok Hb. unfold Ext.post_json. rewrite Hok, Hb.
    split; [|split].
    + intros d v -> H. unfold Py.get_default. now rewrite H.
    + intros d -> H. unfold Py.get_default. now rewrite H.
    + intros H. destruct body; try reflexivity.
      now destruct (H members).
Qed.

Lemma generate_response_answers_witness :
  Query.generate_response (fun prompt => None)
    (Py.lit "The court granted the motion to dismiss.")
    (Py.lit "Was the motion granted?")
  = Py.JStr (Py.lit "Error: Could not connect to Ollama server at http://localhost:11434/api/generate. Is Ollama running?").
Proof.
  apply (proj1 (generate_response_answers (fun prompt => None)
                  (Py.lit "The court granted the motion to dismiss.")
                  (Py.lit "Was the motion granted?"))).
  left. reflexivity.
Defined.

(** ** From the ingester to the indexer *)

Module PipelineFacts.
Import Py Ext IngestRun.

Lemma enrich_object (elements : list element) (t : str) :
  Forall typed_metadata elements ->
  proposition_object (Chunker.enrich elements t).
Proof.
  intros Hall. unfold Chunker.enrich, proposition_object, proposition.
  destruct (Chunker.source_element elements t) as [el|] eqn:E.
  2:{ exists t, (lit "unknown"), JNull. split; [reflexivity|now left]. }
  unfold Chunker.source_element in E. apply find_some in E as [Hin _].
  rewrite Forall_forall in Hall. specialize (Hall el Hin).
  unfold typed_metadata in Hall.
  destruct (metadata el) as [md|].
  2:{ exists t, (lit "unknown"), JNull. split; [reflexivity|now left]. }
  destruct (Hall md eq_refl) as [Hf Hp].
  destruct (filename md) as [v|].
  - destruct (Hf v eq_refl) as [s ->].
    destruct (page_number md) as [w|].
    + exists t, s, w. split; [reflexivity|now apply Hp].
    + exists t, s, JNull. split; [reflexivity|now left].
  - destruct (page_number md) as [w|].
    + exists t, (lit "unknown"), w. split; [reflexivity|now apply Hp].
    + exists t, (lit "unknown"), JNull. split; [reflexivity|now left].
Qed.

Lemma enrich_all_objects (elements : list element) (items : list json) :
  Forall typed_metadata elements ->
  Forall proposition_object (Chunker.enrich_all elements items).
Proof.
  intros Hall. induction items as [|item items IH]; simpl; [constructor|].
  destruct (Chunker.actual_text item); [exact IH|].
  constructor; [now apply enrich_object|exact IH].
Qed.

Lemma chunk_some (elements : list element) (r : reply) (ps : list dict) :
  snd (Chunker.chunk_batch_into_propositions elements r)
  = Returned _ (Some ps) ->
  exists items, ps = Chunker.enrich_all elements items.
Proof.
  unfold Chunker.chunk_batch_into_propositions.
  destruct (Chunker.try_block elements r) as [e|props] eqn:E.
  - unfold handlers. destruct e; simpl; try discriminate;
      destruct (raw_response r); simpl; discriminate.
  - simpl. intros H. injection H as <-. revert E. unfold Chunker.try_block.
    destruct (post_json r) as [e|response_json]; [discriminate|].
    destruct (get_attr response_json _ _) as [e|raw]; [discriminate|].
    destruct (loads raw) as [e|response_data]; [discriminate|].
    destruct (get_attr response_data _ _) as [e|propositions]; [discriminate|].
    destruct (iterate propositions) as [e|items]; [discriminate|].
    intros H. injection H as <-. now exists items.
Qed.

Lemma concat_incl (A : Type) (ls : list (list A)) (l : list A) (x : A) :
  In l ls -> In x l -> In x (List.concat ls).
Proof.
  intros Hl Hx. apply in_concat. now exists l.
Qed.

(** What a run of the loop saves, when the metadata are typed. *)
Lemma chunk_loop_objects (Client : Type) (server : nat -> reply)
    (elements : list element) (tr tr' : Ingest.trace Client)
    (all : list dict) :
  Forall typed_metadata elements ->
  Ingest.chunk_loop server elements [] [] 0 tr = (tr', Returned _ (Some all)) ->
  Forall proposition_object all.
Proof.
  intros Hall Hl. destruct elements as [|el elements].
  { cbn [Ingest.chunk_loop] in Hl. injection Hl as _ <-. constructor. }
  apply BatchLoopFacts.chunk_loop_runs in Hl;
    [|discriminate|unfold Ingest.BATCH_SIZE; simpl; lia].
  destruct Hl as (runs & Hcat & _ & _ & _ & Hres & ->).
  cbn [app] in *. apply Forall_forall. intros p Hp.
  apply in_concat in Hp as (ps & Hps & Hp).
  apply in_map_iff in Hps as ([b ps'] & Heq & Hin). cbn [snd] in Heq. subst ps'.
  destruct (In_nth_error _ _ Hin) as [n Hn].
  apply Hres in Hn. apply chunk_some in Hn as [items ->].
  assert (Hb : Forall typed_metadata b).
  { rewrite Forall_forall in *. intros e He. apply Hall. rewrite <- Hcat.
    apply concat_incl with b; [|exact He].
    apply in_map_iff. now exists (b, Chunker.enrich_all b items). }
  pose proof (enrich_all_objects items Hb) as Ho.
  rewrite Forall_forall in Ho. now apply Ho.
Qed.

End PipelineFacts.

(** X18.  The indexer reads back what the ingester saved.  When the
    elements of a document carry a file name that is a string and a page
    number that is an integer or null, the file saved for it holds, for
    [json.load], exactly the list of propositions that was written, each
    with a string [text], a string [document_name] and an integer or null
    [page_number]; the indexer never raises on it; and when no batch
    fails it adds one vector for each proposition that is not junk. *)
Theorem indexer_reads_saved_document :
  forall (Client : Type) partition_pdf server writable doc_path
    (r2_client : option Client) path content,
    let run := Ingest.process_document partition_pdf server writable
                 doc_path r2_client in
    In (Ingest.Saved path content) (fst run) ->
    (forall elements,
        partition_pdf doc_path = Some elements ->
        Forall IngestRun.typed_metadata elements) ->
    exists propositions : list Py.dict,
      Forall Py.proposition_object propositions
      /\ Json.dump (Py.JArr (map Py.JObj propositions)) = Some content
      /\ Json.loads content = Some (Py.JArr (map Py.JObj propositions))
      /\ forall (Embedding Collection : Type)
           (encode : list Py.json -> option (list Embedding))
           (add : Collection -> list Py.str -> list Embedding -> list Py.dict
                  -> option Collection)
           (st : Index.state Collection) (file_name : Py.str),
           (exists st',
               Index.index_file encode add st (file_name, Index.Text content)
               = Py.Returned _ st')
           /\ ((forall req c, Index.try_add encode add req c <> None) ->
               Index.total_vectors_added
                 (Index.final
                    (Index.index_file encode add st
                       (file_name, Index.Text content)))
               = Index.total_vectors_added st
                 + List.length
                     (filter (fun p =>
                                negb (Index.is_junk (Py.get (Py.lit "text") p)))
                        propositions)).
Proof.
  intros Client partition_pdf server writable doc_path r2_client path content
    run Hin Htyped.
  destruct (DocumentFacts.saved_then_upload partition_pdf server writable
              doc_path r2_client path content Hin)
    as (elements & tr1 & all & Hp & Hl & Hd & _).
  pose proof (@PipelineFacts.chunk_loop_objects Client server elements _ _ _
                (Htyped _ Hp) Hl) as Ho.
  assert (Hload : Json.loads content = Some (Py.JArr (map Py.JObj all))).
  { pose proof (JsonFacts.loads_dumps Ho) as H. unfold Json.dump in Hd.
    destruct (Json.utf8_encodable _); [|discriminate].
    now injection Hd as <-. }
  exists all. split; [exact Ho|]. split; [exact Hd|]. split; [exact Hload|].
  intros Embedding Collection encode add st file_name. split.
  - apply CountFacts.index_file_returns with (map Py.JObj all) all;
      [exact Hload|].
    now apply IndexRunFacts.as_dicts_spec.
  - intros Hok.
    apply CountFacts.total_index_file_all with (Py.JArr (map Py.JObj all));
      [exact Hok|exact Hload|].
    apply IndexRunFacts.clean_dicts.
Qed.

Lemma indexer_reads_saved_document_witness :
  exists propositions : list Py.dict,
    Forall Py.proposition_object propositions
    /\ Json.dump (Py.JArr (map Py.JObj propositions))
       = Some (Json.dumps
                 (Py.JArr
                    (map Py.JObj
                       (Chunker.enrich_all Sample.order Sample.items))))
    /\ Json.loads
         (Json.dumps
            (Py.JArr
               (map Py.JObj (Chunker.enrich_all Sample.order Sample.items))))
       = Some (Py.JArr (map Py.JObj propositions))
    /\ forall (Embedding Collection : Type)
         (encode : list Py.json -> option (list Embedding))
         (add : Collection -> list Py.str -> list Embedding -> list Py.dict
                -> option Collection)
         (st : Index.state Collection) (file_name : Py.str),
         (exists st',
             Index.index_file encode add st
               (file_name,
                Index.Text
                  (Json.dumps
                     (Py.JArr
                        (map Py.JObj
                           (Chunker.enrich_all Sample.order Sample.items)))))
             = Py.Returned _ st')
         /\ ((forall req c, Index.try_add encode add req c <> None) ->
             Index.total_vectors_added
               (Index.final
                  (Index.index_file encode add st
                     (file_name,
                      Index.Text
                        (Json.dumps
                           (Py.JArr
                              (map Py.JObj
                                 (Chunker.enrich_all Sample.order
                                    Sample.items)))))))
             = Index.total_vectors_added st
               + List.length
                   (filter (fun p =>
                              negb (Index.is_junk (Py.get (Py.lit "text") p)))
                      propositions)).
Proof.
  apply (@indexer_reads_saved_document unit Sample.partition Sample.up
           Sample.writable (Py.lit "source_documents/order.pdf") (Some tt)
           (Py.lit "processed_documents/order.json")).
  - vm_compute. do 4 right. left. reflexivity.
  - intros elements H. injection H as <-.
    constructor; [|constructor].
    intros md Hmd. injection Hmd as <-.
    split; intros v Hv; injection Hv as <-; eauto.
Defined.

(** ** The counts that [main] prints (index.py) *)

Module CountRunFacts.
Import Py Index.

Section Run.

Variable Embedding : Type.
Variable Collection : Type.
Variable count : Collection -> option nat.
Variable encode : list json -> option (list Embedding).
Variable add : Collection -> list str -> list Embedding -> list dict
               -> option Collection.

(** The store holds one more record for every id it accepts. *)
Hypothesis grows :
  forall c ids embeddings metadatas c' n,
    add c ids embeddings metadatas = Some c' ->
    count c = Some n -> count c' = Some (n + List.length ids).

Variable initial_count : nat.

(** The store holds what it held at first and the vectors counted as
    added. *)
Let counted (st : state Collection) : Prop :=
  count (collection st) = Some (initial_count + total_vectors_added st).

Lemma counted_index_batch (file_name : str) (cleaned : list dict)
    (st : state Collection) (i : nat) :
  counted st -> counted (index_batch encode add file_name cleaned st i).
Proof.
  unfold counted, index_batch. cbn [collection print]. intros H.
  unfold try_add.
  destruct (encode _) as [embeddings|]; [|exact H].
  destruct (add _ _ _ _) as [c|] eqn:E; [|exact H].
  cbn [collection total_vectors_added print].
  rewrite (grows E H), IndexFacts.batch_request_ids_length.
  f_equal. lia.
Qed.

Lemma counted_fold (file_name : str) (cleaned : list dict)
    (starts : list nat) (st : state Collection) :
  counted st ->
  counted (fold_left (index_batch encode add file_name cleaned) starts st).
Proof.
  revert st. induction starts as [|i starts IH]; intros st H; [exact H|].
  simpl. apply IH. now apply counted_index_batch.
Qed.

Lemma counted_index_file (st : state Collection) (entry : str * file) :
  counted st -> counted (final (index_file encode add st entry)).
Proof.
  intros H. destruct entry as [file_name f]. unfold index_file.
  destruct f as [|content]; [exact H|].
  destruct (Json.loads content) as [chunks|]; [|exact H].
  destruct (negb (truthy chunks)); [exact H|].
  destruct chunks; try exact H.
  destruct (clean (JArr items)) as [cleaned|]; [|exact H].
  assert (H1 : counted (if Nat.ltb 0 (List.length items - List.length cleaned)
                        then print (MsgCleaned
                                      (List.length items - List.length cleaned))
                               (print (MsgProcessing file_name) st)
                        else print (MsgProcessing file_name) st)).
  { destruct (Nat.ltb _ _); exact H. }
  destruct cleaned; [exact H1|].
  cbn [final]. now apply counted_fold.
Qed.

Lemma counted_index_files (json_files : list (str * file))
    (st : state Collection) :
  counted st -> counted (final (index_files encode add st json_files)).
Proof.
  revert st. induction json_files as [|entry files IH]; intros st H;
    [exact H|].
  cbn [index_files]. pose proof (counted_index_file entry H) as H1.
  destruct (index_file encode add st entry) as [st1|st1]; cbn [final] in H1.
  - now apply IH.
  - exact H1.
Qed.

Lemma counted_run (directory : option (list (str * file))) (c : Collection) :
  count c = Some initial_count ->
  counted (final (embed_and_index_documents encode add directory c)).
Proof.
  intros H. unfold embed_and_index_documents.
  assert (H0 : counted (initial c)).
  { unfold counted. simpl. now rewrite Nat.add_0_r. }
  destruct directory as [listing|]; [|exact H0].
  set (json_files := filter _ listing).
  pose proof (@counted_index_files json_files
                (print (MsgFound (List.length json_files)) (initial c)) H0)
    as H1.
  destruct (index_files _ _ _ _) as [st|st]; cbn [final] in *; [|exact H1].
  destruct (Nat.ltb _ _); exact H1.
Qed.

End Run.

End CountRunFacts.

(** X19.  The two counts that [main] prints differ by the number of
    vectors reported as added.  When the store holds one more record for
    every id it accepts, it holds after the run, returned or raised, what
    it held before and the vectors counted as added; so a run that
    returns prints, after the lines of the indexer, a final count that is
    the initial count plus that number. *)
Theorem final_count_is_initial_plus_added :
  forall (Model Embedding Collection : Type)
    (load_model : option Model) (get_or_create : option Collection)
    (count : Collection -> option nat)
    (encode : Model -> list Py.json -> option (list Embedding))
    (add : Collection -> list Py.str -> list Embedding -> list Py.dict
           -> option Collection)
    (directory : option (list (Py.str * Index.file)))
    model collection initial_count,
    (forall c ids embeddings metadatas c' n,
        add c ids embeddings metadatas = Some c' ->
        count c = Some n -> count c' = Some (n + List.length ids)) ->
    load_model = Some model ->
    get_or_create = Some collection ->
    count collection = Some initial_count ->
    let run := Index.embed_and_index_documents (encode model) add directory
                 collection in
    count (Index.collection (Index.final run))
    = Some (initial_count + Index.total_vectors_added (Index.final run))
    /\ forall st,
         run = Py.Returned _ st ->
         IndexMain.main load_model get_or_create count encode add directory
         = ([IndexMain.Console IndexMain.MsgStarting;
             IndexMain.Console IndexMain.MsgLoadingModel;
             IndexMain.Console IndexMain.MsgModelLoaded;
             IndexMain.Console IndexMain.MsgConnected;
             IndexMain.Console (IndexMain.MsgInitialCount initial_count)]
            ++ map IndexMain.Indexer (Index.console st)
            ++ [IndexMain.Console
                  (IndexMain.MsgFinalCount
                     (initial_count + Index.total_vectors_added st))],
            Py.Returned _ tt).
Proof.
  intros Model Embedding Collection load_model get_or_create count encode add
    directory model collection initial_count Hgrows Hm Hc Hi run.
  pose proof (@CountRunFacts.counted_run Embedding Collection count
                (encode model) add Hgrows initial_count directory collection Hi)
    as H.
  split; [exact H|].
  intros st Hrun. unfold IndexMain.main. rewrite Hm, Hc, Hi. cbv zeta.
  fold run. rewrite Hrun. fold run in H. rewrite Hrun in H. cbn [Index.final] in H.
  rewrite H. now rewrite <- app_assoc.
Qed.

Lemma final_count_is_initial_plus_added_witness :
  Some (7 + List.length
              (Index.ids (Index.batch_request (Py.lit "case.json")
                            [Sample.ruling] 0)))
  = Some (7 + Index.total_vectors_added
                (Index.final
                   (Index.embed_and_index_documents Sample.encode Sample.add
                      (Some Sample.one_file) 7))).
Proof.
  apply (proj1 (@final_count_is_initial_plus_added unit unit nat
                  (Some tt) (Some 7) (fun c => Some c)
                  (fun model => Sample.encode) Sample.add
                  (Some Sample.one_file) tt 7 7
                  ltac:(intros c ids embeddings metadatas c' n H1 H2;
                        injection H1 as <-; injection H2 as <-; reflexivity)
                  eq_refl eq_refl eq_refl)).
Defined.

(** ** A save that fails (ingest.py) *)

Module SaveFacts.
Import Py Ext Ingest.

Section Run.

Variable Client : Type.
Variable server : nat -> reply.


End Run.

End SaveFacts.



(** ** Whitespace around a text (index.py) *)

Module StripFacts.
Import Py Re IndexRun.

Lemma lstrip_blank_app (a t : str) : blank a -> lstrip (a ++ t) = lstrip t.
Proof.
  induction 1 as [|c a Hc _ IH]; [reflexivity|]. simpl. now rewrite Hc.
Qed.

Lemma lstrip_app (s b : str) :
  lstrip (s ++ b) = match lstrip s with [] => lstrip b | l => l ++ b end.
Proof.
  induction s as [|c s IH]; simpl.
  - now destruct (lstrip b).
  - destruct (isspace c); [exact IH|reflexivity].
Qed.

Lemma blank_rev (b : str) : blank b -> blank (rev b).
Proof.
  unfold blank. rewrite !Forall_forall. intros H c Hc. apply H.
  now apply in_rev.
Qed.

Lemma rstrip_app_blank (t b : str) : blank b -> rstrip (t ++ b) = rstrip t.
Proof.
  intros Hb. unfold rstrip. rewrite rev_app_distr.
  now rewrite lstrip_blank_app by now apply blank_rev.
Qed.

Lemma lstrip_blank (b : str) : blank b -> lstrip b = [].
Proof.
  induction 1 as [|c b Hc _ IH]; [reflexivity|]. simpl. now rewrite Hc.
Qed.

Lemma strip_padded (a s b : str) :
  blank a -> blank b -> strip (a ++ s ++ b) = strip s.
Proof.
  intros Ha Hb. unfold strip. rewrite lstrip_blank_app by exact Ha.
  rewrite lstrip_app. destruct (lstrip s) as [|c l] eqn:E.
  - now rewrite lstrip_blank.
  - now rewrite rstrip_app_blank.
Qed.

(** Whitespace is none of the characters the placeholder patterns look
    for. *)
Lemma space_not (c x : char) :
  isspace c = true -> In x [ch "["; ch "]"; ch "{"; ch "}"] ->
  N.eqb c x = false.
Proof.
  intros Hc Hx. apply N.eqb_neq. intros ->.
  simpl in Hx. destruct Hx as [<-|[<-|[<-|[<-|[]]]]]; discriminate.
Qed.

Lemma dot_star_then_blank (close : char) (b : str) :
  In close [ch "["; ch "]"; ch "{"; ch "}"] -> blank b ->
  dot_star_then close b = false.
Proof.
  intros Hx. induction 1 as [|c b Hc _ IH]; [reflexivity|]. simpl.
  now rewrite (@space_not _ _ Hc Hx), IH, andb_false_r.
Qed.

Lemma dot_star_then_app_blank (close : char) (t b : str) :
  In close [ch "["; ch "]"; ch "{"; ch "}"] -> blank b ->
  dot_star_then close (t ++ b) = dot_star_then close t.
Proof.
  intros Hx Hb. induction t as [|c t IH]; simpl.
  - now apply dot_star_then_blank.
  - now rewrite IH.
Qed.

Lemma search_delimited_padded (open close : char) (a s b : str) :
  In open [ch "["; ch "]"; ch "{"; ch "}"] ->
  In close [ch "["; ch "]"; ch "{"; ch "}"] ->
  blank a -> blank b ->
  search_delimited open close (a ++ s ++ b) = search_delimited open close s.
Proof.
  intros Ho Hc Ha Hb.
  induction Ha as [|c a Hsp _ IH]; simpl.
  - induction s as [|c s IH]; simpl.
    + induction Hb as [|c b Hsp _ IH]; [reflexivity|]. simpl.
      now rewrite (@space_not _ _ Hsp Ho), IH.
    + now rewrite IH, dot_star_then_app_blank.
  - now rewrite (@space_not _ _ Hsp Ho), IH.
Qed.

End StripFacts.

(** X21.  The verdict of the junk filter does not depend on the
    whitespace around a text: with any run of whitespace characters put
    before or after it, a text is junk exactly when it is junk
    without. *)
Theorem junk_filter_ignores_padding :
  forall a s b : Py.str,
    Forall (fun c => Py.isspace c = true) a ->
    Forall (fun c => Py.isspace c = true) b ->
    Index.is_junk (Py.JStr (a ++ s ++ b)) = Index.is_junk (Py.JStr s).
Proof.
  intros a s b Ha Hb. unfold Index.is_junk.
  rewrite (@StripFacts.strip_padded a s b Ha Hb).
  unfold Re.search_placeholder.
  rewrite !(@StripFacts.search_delimited_padded _ _ a s b); trivial;
    try (simpl; tauto).
  destruct s as [|c s].
  - cbn [Py.truthy negb]. destruct (a ++ [] ++ b); reflexivity.
  - replace (Py.truthy (Py.JStr (a ++ (c :: s) ++ b))) with true;
      [reflexivity|].
    destruct a; reflexivity.
Qed.

Lemma junk_filter_ignores_padding_witness :
  Index.is_junk
    (Py.JStr (Py.lit "  " ++ Py.lit "(Page: 12)" ++ [Re.newline]))
  = Index.is_junk (Py.JStr (Py.lit "(Page: 12)")).
Proof.
  apply (@junk_filter_ignores_padding (Py.lit "  ") (Py.lit "(Page: 12)")
           [Re.newline]).
  - repeat constructor.
  - repeat constructor.
Defined.

